(** * FleetLogix data warehouse: the ETL transform-and-load pipeline

    A shallow embedding of [FA_transform.py], [FA_load.py] and the
    orchestration of [FA_main.py], with the properties of the validator,
    the metric calculator, the reconciler (upsert) and the orchestrator.

    Conventions of the embedding.
    - A pandas frame is a list of column names and a list of rows; a row
      maps column names to cells.
    - Numbers (int64 and float64 alike) are exact rationals: an integer
      [z] is the rational [z # 1].  Floating-point rounding is not
      modelled; every comparison the code makes is a comparison of the
      exact values.
    - [NA] stands for None, NaN and NaT.
    - Python exceptions are values of [Exn]; a function that may raise
      returns an [outcome]. *)

From Stdlib Require Import ZArith QArith Qminmax Qround Ascii String List
  Lia Lqa.
From stdpp Require Import base option list gmap strings.

Local Open Scope string_scope.
Local Open Scope list_scope.
Local Open Scope Z_scope.

(** ** Cells, rows and frames *)

Module Frame.

Inductive Cell : Type :=
| NA                  (* None, NaN, NaT *)
| Num (q : Q)         (* int64 / float64 *)
| Str (s : string)
| Flag (b : bool)
| Stamp (ns : Z).     (* datetime64[ns]: nanoseconds since the epoch *)

(** Equality of cells is decidable; two representations of one rational
    are different cells. *)
#[global] Instance Q_eq_dec : EqDecision Q.
Proof. solve_decision. Defined.
#[global] Instance Cell_eq_dec : EqDecision Cell.
Proof. solve_decision. Defined.

Record DataFrame : Type := mkFrame {
  columns : list string;
  rows : list (gmap string Cell)
}.

(** [row[c]], with a missing entry read as null. *)
Definition get (r : gmap string Cell) (c : string) : Cell :=
  default NA (r !! c).

Definition has_column (df : DataFrame) (c : string) : bool :=
  bool_decide (c ∈ columns df).

(** [len(df)] *)
Definition len (df : DataFrame) : nat := length (rows df).

(** [df.empty]: some axis has length zero. *)
Definition empty (df : DataFrame) : bool :=
  (len df =? 0)%nat || (length (columns df) =? 0)%nat.

(** [pd.DataFrame()] *)
Definition no_frame : DataFrame := mkFrame [] [].

(** [df[c] = f(row)], computed row by row: a new column goes last, an
    existing one keeps its place. *)
Definition assign (c : string) (f : gmap string Cell -> Cell)
    (df : DataFrame) : DataFrame :=
  mkFrame (if has_column df c then columns df else columns df ++ [c])
          (map (fun r => <[c := f r]> r) (rows df)).

(** [df[mask]] *)
Definition select (mask : gmap string Cell -> bool) (df : DataFrame)
    : DataFrame :=
  mkFrame (columns df) (List.filter mask (rows df)).

Definition isnull (c : Cell) : bool :=
  match c with NA => true | _ => false end.

Definition notna (c : Cell) : bool := negb (isnull c).

(** A numeric cell as a number; booleans count as 0 and 1. *)
Definition number (c : Cell) : option Q :=
  match c with
  | Num q => Some q
  | Flag b => Some (if b then 1%Q else 0%Q)
  | _ => None
  end.

(** Order on rationals as booleans. *)
Definition Qltb (a b : Q) : bool := (Qnum a * QDen b <? Qnum b * QDen a)%Z.
Definition Qleb (a b : Q) : bool := (Qnum a * QDen b <=? Qnum b * QDen a)%Z.

(** Comparisons of a column with a constant, cell by cell: a null
    compares false. *)
Definition gt (c : Cell) (k : Q) : bool :=
  match number c with Some q => Qltb k q | None => false end.
Definition lt (c : Cell) (k : Q) : bool :=
  match number c with Some q => Qltb q k | None => false end.
Definition ge (c : Cell) (k : Q) : bool :=
  match number c with Some q => Qleb k q | None => false end.
Definition le (c : Cell) (k : Q) : bool :=
  match number c with Some q => Qleb q k | None => false end.

(** [sum] of a boolean column. *)
Definition count (p : gmap string Cell -> bool) (df : DataFrame) : nat :=
  length (List.filter p (rows df)).

(** [df.isnull().sum().sum()] *)
Definition null_cells (df : DataFrame) : nat :=
  list_sum (map (fun r => length (List.filter (fun c => isnull (get r c))
                                              (columns df)))
                (rows df)).

End Frame.

(** ** Exceptions *)

Inductive Exn : Type :=
| FileNotFoundError
| KeyError
| TypeError
| ValueError
| DatabaseError        (* any error raised by the warehouse driver *)
| Unmodelled.          (* an input outside the embedding; see each use *)

Inductive outcome (A : Type) : Type :=
| Ret (a : A)
| Raise (e : Exn).
Arguments Ret {A} a.
Arguments Raise {A} e.

Definition obind {A B} (m : outcome A) (k : A -> outcome B) : outcome B :=
  match m with Ret a => k a | Raise e => Raise e end.

Notation "x <~ m ;; k" := (obind m (fun x => k))
  (at level 10, m at level 99, k at level 200,
   format "'[v' x  <~  m  ;;  '/' k ']'").
Notation "'need' m ;; k" := (obind m (fun _ => k))
  (at level 10, m at level 99, k at level 200,
   format "'[v' 'need'  m  ;;  '/' k ']'").

(** Code that reads and changes a state [S] and may raise. *)
Definition St (S A : Type) : Type := S -> outcome A * S.

Definition ret {S A} (a : A) : St S A := fun s => (Ret a, s).
Definition raise {S A} (e : Exn) : St S A := fun s => (Raise e, s).
Definition bind {S A B} (m : St S A) (k : A -> St S B) : St S B :=
  fun s => match m s with
           | (Ret a, s') => k a s'
           | (Raise e, s') => (Raise e, s')
           end.
Definition lift {S A} (o : outcome A) : St S A := fun s => (o, s).

(** [try: m  except Exception: h] *)
Definition try_except {S A} (m : St S A) (h : Exn -> St S A) : St S A :=
  fun s => match m s with
           | (Ret a, s') => (Ret a, s')
           | (Raise e, s') => h e s'
           end.

(** [try: m  finally: f], where [f] does not raise. *)
Definition try_finally {S A} (m : St S A) (f : S -> S) : St S A :=
  fun s => let '(o, s') := m s in (o, f s').

Notation "x <- m ; k" := (bind m (fun x => k))
  (at level 10, m at level 99, k at level 200,
   format "'[v' x  <-  m  ; '/' k ']'").
Notation "'run' m ; k" := (bind m (fun _ => k))
  (at level 10, m at level 99, k at level 200,
   format "'[v' 'run'  m  ; '/' k ']'").


(** ** Strings *)

Module Py.

Definition lower_ascii (a : ascii) : ascii :=
  let n := nat_of_ascii a in
  if (65 <=? n)%nat && (n <=? 90)%nat then ascii_of_nat (n + 32) else a.

Definition upper_ascii (a : ascii) : ascii :=
  let n := nat_of_ascii a in
  if (97 <=? n)%nat && (n <=? 122)%nat then ascii_of_nat (n - 32) else a.

Fixpoint map_string (f : ascii -> ascii) (s : string) : string :=
  match s with
  | EmptyString => EmptyString
  | String a s' => String (f a) (map_string f s')
  end.

(** [s.lower()] and [s.upper()], on ASCII letters. *)
Definition lower : string -> string := map_string lower_ascii.
Definition upper : string -> string := map_string upper_ascii.

(** [s.endswith(suffix)] *)
Definition endswith (s suffix : string) : bool :=
  (String.length suffix <=? String.length s)%nat &&
  String.eqb (substring (String.length s - String.length suffix)
                        (String.length suffix) s) suffix.

(** [max(names)] in the order of strings; [None] on an empty list, where
    Python raises. *)
Definition max_name (names : list string) : option string :=
  match names with
  | [] => None
  | n :: rest =>
      Some (fold_left (fun m x => if String.ltb m x then x else m) rest n)
  end.

End Py.

(** ** FA_transform.py *)

Module FA_transform.
Import Frame.

(** [df[c]]: a missing column raises KeyError. *)
Definition column (df : DataFrame) (c : string) : outcome unit :=
  if has_column df c then Ret tt else Raise KeyError.

(** A column compared with a number: pandas raises TypeError on a column
    of strings or of datetimes. *)
Definition numeric_cell (c : Cell) : bool :=
  match c with NA | Num _ | Flag _ => true | Str _ | Stamp _ => false end.

Definition numeric_column (df : DataFrame) (c : string) : outcome unit :=
  need column df c ;;
  if forallb (fun r => numeric_cell (get r c)) (rows df) then Ret tt
  else Raise TypeError.

(** [pd.to_datetime(df[c])] on a datetime column.  Columns of strings or
    numbers, which pandas would parse, are outside the embedding. *)
Definition datetime_cell (c : Cell) : bool :=
  match c with NA | Stamp _ => true | _ => false end.

Definition datetime_column (df : DataFrame) (c : string) : outcome unit :=
  need column df c ;;
  if forallb (fun r => datetime_cell (get r c)) (rows df) then Ret tt
  else Raise Unmodelled.

Definition to_datetime (c : Cell) : option Z :=
  match c with Stamp ns => Some ns | _ => None end.

(** [(to_datetime(a) - to_datetime(b)).dt.total_seconds() / 60]; NaT
    gives NaN. *)
Definition minutes_between (a b : Cell) : Cell :=
  match to_datetime a, to_datetime b with
  | Some ta, Some tb => Num (inject_Z (ta - tb) / 1000000000 / 60)%Q
  | _, _ => NA
  end.

(** [to_datetime(a) >= to_datetime(b)]; a comparison with NaT is False. *)
Definition datetime_ge (a b : Cell) : bool :=
  match to_datetime a, to_datetime b with
  | Some ta, Some tb => (tb <=? ta)%Z
  | _, _ => false
  end.

(** [a / b] on numeric cells, NaN when an operand is null. *)
Definition divide (a b : Cell) : Cell :=
  match number a, number b with
  | Some x, Some y => Num (x / y)%Q
  | _, _ => NA
  end.

Definition valid_mask (r : gmap string Cell) : bool :=
  gt (get r "delivery_duration_minutes") 0 &&
  lt (get r "delivery_duration_minutes") 1440 &&
  gt (get r "delivery_distance_km") 0 &&
  lt (get r "delivery_distance_km") 5000 &&
  ge (get r "package_weight_kg") 0 &&
  lt (get r "package_weight_kg") 10000 &&
  gt (get r "fuel_efficiency_km_per_liter") 0 &&
  lt (get r "fuel_efficiency_km_per_liter") 50 &&
  datetime_ge (get r "delivered_datetime") (get r "scheduled_datetime") &&
  notna (get r "delivery_status") &&
  notna (get r "vehicle_id") &&
  notna (get r "driver_id").

Definition validate_data_quality (df : DataFrame) : outcome DataFrame :=
  need numeric_column df "delivery_duration_minutes" ;;
  need numeric_column df "delivery_distance_km" ;;
  need numeric_column df "package_weight_kg" ;;
  need numeric_column df "fuel_efficiency_km_per_liter" ;;
  need datetime_column df "delivered_datetime" ;;
  need datetime_column df "scheduled_datetime" ;;
  need column df "delivery_status" ;;
  need column df "vehicle_id" ;;
  need column df "driver_id" ;;
  Ret (select valid_mask df).

(** The number of rows [validate_data_quality] reports as removed. *)
Definition removed_count (df df_clean : DataFrame) : nat :=
  (len df - len df_clean)%nat.

Definition expected_keys : list string :=
  ["date_key"; "scheduled_time_key"; "delivered_time_key"; "vehicle_id";
   "driver_id"; "route_id"; "customer_id"].

Definition missing_keys (df : DataFrame) : list string :=
  List.filter (fun k => negb (has_column df k)) expected_keys.

Definition existing_keys (df : DataFrame) : list string :=
  List.filter (fun k => has_column df k) expected_keys.

(** Only reports; the frame is returned as it came. *)
Definition verify_dimension_keys (df : DataFrame) : DataFrame := df.

Definition extreme_efficiency (r : gmap string Cell) : bool :=
  lt (get r "fuel_efficiency_km_per_liter") 5 ||
  gt (get r "fuel_efficiency_km_per_liter") 30.

Definition extreme_duration (r : gmap string Cell) : bool :=
  lt (get r "delivery_duration_minutes") 30 ||
  gt (get r "delivery_duration_minutes") 600.

Definition extreme_delay (r : gmap string Cell) : bool :=
  gt (get r "delay_minutes") 240.

Definition nat_Q (n : nat) : Q := inject_Z (Z.of_nat n).

(** One penalty term: skipped when the column is absent. *)
Definition penalty (df : DataFrame) (c : string)
    (extreme : gmap string Cell -> bool) (weight : Q) (score : Q)
    : outcome Q :=
  if has_column df c then
    need numeric_column df c ;;
    Ret (score - (nat_Q (count extreme df) / nat_Q (len df)) * weight)%Q
  else Ret score.

(** On a frame without rows or without columns every quotient is 0/0,
    numpy yields NaN, and [max(0, min(100, nan))] is 100. *)
Definition calculate_quality_score (df : DataFrame) : outcome Q :=
  if empty df then Ret 100%Q else
  let score := 100%Q in
  let null_penalty :=
    (nat_Q (null_cells df) / nat_Q (len df * length (columns df)) * 50)%Q in
  let score := (score - null_penalty)%Q in
  score <~ penalty df "fuel_efficiency_km_per_liter" extreme_efficiency 20 score ;;
  score <~ penalty df "delivery_duration_minutes" extreme_duration 15 score ;;
  score <~ penalty df "delay_minutes" extreme_delay 10 score ;;
  Ret (Qmax 0 (Qmin 100 score)).

(** [now] is the reading of the clock at step 8.  The [try] block
    re-raises, so an exception of a step is the exception of the call. *)
Definition transform_delivery_data (now : Z) (raw_df : DataFrame)
    : outcome DataFrame :=
  if empty raw_df then Ret raw_df else
  let df := raw_df in
  need datetime_column df "delivered_datetime" ;;
  need datetime_column df "scheduled_datetime" ;;
  let df := assign "delivery_duration_minutes"
              (fun r => minutes_between (get r "delivered_datetime")
                                        (get r "scheduled_datetime")) df in
  let df := assign "delay_minutes_calculated"
              (fun r => minutes_between (get r "delivered_datetime")
                                        (get r "scheduled_datetime")) df in
  need numeric_column df "delay_minutes" ;;
  let df := assign "on_time_status"
              (fun r => Flag (le (get r "delay_minutes") 0)) df in
  need numeric_column df "delivery_fuel_consumed" ;;
  need numeric_column df "delivery_distance_km" ;;
  let df := assign "fuel_efficiency_calculated"
              (fun r => if gt (get r "delivery_fuel_consumed") 0
                        then divide (get r "delivery_distance_km")
                                    (get r "delivery_fuel_consumed")
                        else Num 0) df in
  need column df "delivery_status" ;;
  need column df "revenue_per_delivery" ;;
  let df := assign "revenue_per_delivery_calculated"
              (fun r => match get r "delivery_status" with
                        | Str "delivered" => get r "revenue_per_delivery"
                        | _ => Num 0
                        end) df in
  df <~ validate_data_quality df ;;
  let df := verify_dimension_keys df in
  let df := assign "transformation_timestamp" (fun _ => Stamp now) df in
  score <~ calculate_quality_score df ;;
  Ret (assign "data_quality_score" (fun _ => Num score) df).

Definition get_final_columns : list string :=
  ["date_key"; "scheduled_time_key"; "delivered_time_key"; "vehicle_id";
   "driver_id"; "route_id"; "customer_id";
   "delivery_id"; "trip_id"; "tracking_number";
   "delivery_duration_minutes"; "delay_minutes"; "delivery_distance_km";
   "delivery_fuel_consumed"; "package_weight_kg";
   "fuel_efficiency_km_per_liter";
   "revenue_per_delivery"; "cost_per_delivery"; "deliveries_per_hour";
   "is_on_time"; "is_damaged"; "has_signature";
   "delivery_status"; "trip_status"].

(** Only prints; it raises where a column it reads is missing or not
    numeric. *)
Definition analyze_transformed_data (df : DataFrame) : outcome unit :=
  if empty df then Ret tt else
  need numeric_column df "is_on_time" ;;
  need numeric_column df "data_quality_score" ;;
  need numeric_column df "delivery_distance_km" ;;
  need numeric_column df "delivery_duration_minutes" ;;
  need numeric_column df "delay_minutes" ;;
  need numeric_column df "delivery_fuel_consumed" ;;
  need numeric_column df "fuel_efficiency_km_per_liter" ;;
  need numeric_column df "package_weight_kg" ;;
  need numeric_column df "revenue_per_delivery" ;;
  need numeric_column df "cost_per_delivery" ;;
  Ret tt.

Definition has_null (df : DataFrame) (c : string) : bool :=
  existsb (fun r => isnull (get r c)) (rows df).

Definition is_flag (c : Cell) : bool :=
  match c with Flag _ => true | _ => false end.
Definition is_num (c : Cell) : bool :=
  match c with Num _ => true | _ => false end.

(** [df['is_on_time'].dtype in ['bool', 'int64', 'int32']].  A column of
    numbers is int64 or float64, which the embedding does not tell
    apart. *)
Definition on_time_dtype_ok (df : DataFrame) : outcome bool :=
  if forallb (fun r => is_flag (get r "is_on_time")) (rows df) then Ret true
  else if forallb (fun r => is_num (get r "is_on_time")) (rows df)
       then Raise Unmodelled
       else Ret false.

(** A column compared with a number when it is present. *)
Definition numeric_if_present (df : DataFrame) (c : string) : outcome unit :=
  if has_column df c then numeric_column df c else Ret tt.

Definition validate_snowflake_compatibility (df : DataFrame) : outcome bool :=
  let critical_keys := ["delivery_id"; "vehicle_id"; "driver_id"; "date_key"] in
  let critical_keys_present := List.filter (has_column df) critical_keys in
  if existsb (has_null df) critical_keys_present then Ret false else
  dtype_ok <~ (if has_column df "is_on_time" then on_time_dtype_ok df
               else Ret true) ;;
  if negb dtype_ok then Ret false else
  need numeric_if_present df "delivery_duration_minutes" ;;
  need numeric_if_present df "delivery_distance_km" ;;
  need numeric_if_present df "delivery_fuel_consumed" ;;
  need numeric_if_present df "scheduled_time_key" ;;
  need numeric_if_present df "delivered_time_key" ;;
  Ret true.

(** Rounding to the nearest integer, ties to the even one. *)
Definition round_half_even (q : Q) : Z :=
  let f := Qfloor q in
  match (q - inject_Z f ?= 1 # 2)%Q with
  | Lt => f
  | Gt => f + 1
  | Eq => if Z.even f then f else f + 1
  end.

(** [round(2)], on the exact rational.  pandas rounds the float64 (the
    nearest double of [x * 100], then a division by 100), so the value
    it stores can differ from this one in the last place; no statement
    below depends on the value of a rounded number. *)
Definition round2 (q : Q) : Q :=
  (inject_Z (round_half_even (q * 100)) / 100)%Q.

(** A column of numeric dtype: numbers and NaN only. *)
Definition number_dtype (df : DataFrame) (c : string) : bool :=
  forallb (fun r => match get r c with NA | Num _ => true | _ => false end)
          (rows df).

Definition prepare_for_snowflake (df : DataFrame) : DataFrame :=
  let final_cols := get_final_columns in
  let available_cols := List.filter (has_column df) final_cols in
  let dimension_keys :=
    ["date_key"; "scheduled_time_key"; "delivered_time_key"; "vehicle_id";
     "driver_id"; "route_id"; "customer_id"; "delivery_id"; "trip_id"] in
  let numeric_cols :=
    List.filter (fun c => number_dtype df c &&
                          negb (bool_decide (c ∈ dimension_keys)))
                available_cols in
  let value r c :=
    match get r c with
    | Num q => if bool_decide (c ∈ numeric_cols) then Num (round2 q)
               else Num q
    | x => x
    end in
  mkFrame (map Py.upper available_cols)
          (map (fun r => list_to_map
                           (map (fun c => (Py.upper c, value r c))
                                available_cols))
               (rows df)).

Definition transform_complete_pipeline (now : Z) (raw_df : DataFrame)
    : outcome DataFrame :=
  transformed_data <~ transform_delivery_data now raw_df ;;
  if empty transformed_data then Ret no_frame else
  need analyze_transformed_data transformed_data ;;
  snowflake_compatible <~ validate_snowflake_compatibility transformed_data ;;
  if negb snowflake_compatible then Ret no_frame else
  let snowflake_ready := prepare_for_snowflake transformed_data in
  if empty snowflake_ready then Ret no_frame else
  Ret snowflake_ready.

End FA_transform.

(** ** The warehouse

    The Snowflake side as the code sees it: the settings file, the tables
    by name, the session's temporary table, and the statements sent so
    far.  [refuses] says which kinds of statement the environment turns
    down (no network, missing privilege, unsupported feature); it does
    not change during a run. *)

Module Warehouse.
Import Frame.

Inductive Stmt : Type :=
| Connect              (* opening a connection of the engine *)
| SelectCurrent        (* SELECT CURRENT_WAREHOUSE(), ... *)
| SelectTables         (* SELECT table_name FROM information_schema.tables *)
| SelectCount          (* SELECT COUNT( * ) FROM t *)
| SelectIds            (* SELECT "DELIVERY_ID" FROM t *)
| HasTable             (* inspector.has_table *)
| CreateTable          (* CREATE TABLE t (...) *)
| CreateTemp           (* CREATE TEMPORARY TABLE ... AS SELECT ... WHERE 1=0 *)
| StageRows            (* to_sql into the temporary table *)
| Merge                (* MERGE INTO t USING temp *)
| DropTemp             (* DROP TABLE IF EXISTS temp *)
| Delete               (* DELETE FROM t WHERE "DELIVERY_ID" IN (...) *)
| Insert.              (* to_sql into t *)

(** The statements that change the warehouse. *)
Definition mutation (s : Stmt) : bool :=
  match s with
  | CreateTable | CreateTemp | StageRows | Merge | DropTemp | Delete
  | Insert => true
  | Connect | SelectCurrent | SelectTables | SelectCount | SelectIds
  | HasTable => false
  end.

Record Table : Type := mkTable {
  schema : list string;
  body : list (gmap string Cell)
}.

Record World : Type := mkWorld {
  settings : option (list (string * list (string * string)));
  refuses : Stmt -> bool;
  tables : gmap string Table;
  staging : option Table;
  trace : list Stmt
}.

Definition set_tables (t : gmap string Table) (w : World) : World :=
  mkWorld (settings w) (refuses w) t (staging w) (trace w).
Definition set_staging (s : option Table) (w : World) : World :=
  mkWorld (settings w) (refuses w) (tables w) s (trace w).
Definition log (s : Stmt) (w : World) : World :=
  mkWorld (settings w) (refuses w) (tables w) (staging w) (trace w ++ [s]).

(** Code that reads and changes the world and may raise. *)
Definition M (A : Type) : Type := St World A.

(** A statement: recorded, then turned down or run. *)
Definition execute {A} (s : Stmt) (m : M A) : M A :=
  fun w => let w := log s w in
           if refuses w s then (Raise DatabaseError, w) else m w.

(** [with engine.begin() as conn: m]: a block of queries and DML
    statements that raises is rolled back, and leaves the tables as they
    were when it began.  (A DDL statement ends the transaction: a block
    that sends one after other statements is written in two parts, see
    [upsert_to_snowflake].) *)
Definition begin {A} (m : M A) : M A :=
  fun w => match execute Connect m w with
           | (Ret a, w') => (Ret a, w')
           | (Raise e, w') =>
               (Raise e, set_staging (staging w) (set_tables (tables w) w'))
           end.

(** [with engine.connect() as conn: m] *)
Definition connect {A} (m : M A) : M A := execute Connect m.

(** [engine.dispose()]: the session ends and its temporary table goes. *)
Definition dispose (w : World) : World := set_staging None w.

(** *** Keys

    DELIVERY_ID is an integer column.  [int(x)] and [astype('int64')]
    truncate toward zero; strings, which Python would parse, are outside
    the embedding. *)
Definition ID : string := "DELIVERY_ID".

Definition trunc (q : Q) : Z := Z.quot (Qnum q) (QDen q).

Definition key_of (c : Cell) : option Z :=
  match c with
  | Num q => Some (trunc q)
  | Flag b => Some (Z.b2z b)
  | _ => None
  end.

Definition key (r : gmap string Cell) : option Z := key_of (get r ID).

(** SQL equality of two keys: a NULL equals nothing. *)
Definition same_key (a b : gmap string Cell) : bool :=
  match key a, key b with
  | Some x, Some y => (x =? y)%Z
  | _, _ => false
  end.

(** *** Statements on rows *)

(** The row a table with columns [sch] stores for the values [cols] of
    [s]: NULL in the columns that are not given. *)
Definition insert_values (sch cols : list string) (s : gmap string Cell)
    : gmap string Cell :=
  list_to_map
    (map (fun c => (c, if bool_decide (c ∈ cols) then get s c else NA)) sch).

(** [UPDATE SET c = source.c] for every [c] of [cols] but the key. *)
Definition update_set (sch cols : list string) (s t : gmap string Cell)
    : gmap string Cell :=
  list_to_map
    (map (fun c => (c, if bool_decide (c ∈ cols) && negb (String.eqb c ID)
                       then get s c else get t c)) sch).

(** WHEN MATCHED: every target row with one matching source row is
    updated; a target row with several makes the merge nondeterministic,
    which Snowflake refuses (ERROR_ON_NONDETERMINISTIC_MERGE, on by
    default).  Returns the rows and the number updated. *)
Fixpoint merge_matched (sch cols : list string)
    (src tgt : list (gmap string Cell))
    : option (list (gmap string Cell) * nat) :=
  match tgt with
  | [] => Some ([], 0%nat)
  | t :: tgt' =>
      match List.filter (fun s => same_key s t) src with
      | [] => option_map (fun '(l, n) => (t :: l, n))
                         (merge_matched sch cols src tgt')
      | [s] => option_map (fun '(l, n) => (update_set sch cols s t :: l, S n))
                          (merge_matched sch cols src tgt')
      | _ => None
      end
  end.

(** WHEN NOT MATCHED: the source rows that match no target row. *)
Definition not_matched (src tgt : list (gmap string Cell))
    : list (gmap string Cell) :=
  List.filter (fun s => forallb (fun t => negb (same_key s t)) tgt) src.

Definition merge_rows (sch cols : list string)
    (src tgt : list (gmap string Cell))
    : option (list (gmap string Cell) * nat) :=
  match merge_matched sch cols src tgt with
  | Some (l, n) =>
      let ins := map (insert_values sch cols) (not_matched src tgt) in
      Some (l ++ ins, (n + length ins)%nat)
  | None => None
  end.

(** [DELETE ... WHERE "DELIVERY_ID" IN (ids)] *)
Definition in_ids (ids : list Z) (r : gmap string Cell) : bool :=
  match key r with
  | Some k => bool_decide (k ∈ ids)
  | None => false
  end.

Definition delete_rows (ids : list Z) (tgt : list (gmap string Cell))
    : list (gmap string Cell) :=
  List.filter (fun t => negb (in_ids ids t)) tgt.

End Warehouse.

(** ** FA_load.py *)

Module FA_load.
Import Frame Warehouse.

(** *** Statements *)

Definition table (name : string) : M Table :=
  fun w => match tables w !! name with
           | Some t => (Ret t, w)
           | None => (Raise DatabaseError, w)
           end.

Definition put_table (name : string) (t : Table) : M unit :=
  fun w => (Ret tt, set_tables (<[name := t]> (tables w)) w).

Definition subcolumns (cols sch : list string) : bool :=
  forallb (fun c => bool_decide (c ∈ sch)) cols.

(** [SELECT COUNT( * ) FROM t] *)
Definition select_count (name : string) : M Z :=
  execute SelectCount (
    t <- table name ;
    ret (Z.of_nat (length (body t)))).

(** [SELECT "DELIVERY_ID" FROM t] *)
Definition select_ids (name : string) : M (list Cell) :=
  execute SelectIds (
    t <- table name ;
    if bool_decide (ID ∈ schema t)
    then ret (map (fun r => get r ID) (body t))
    else raise DatabaseError).

(** [CREATE TEMPORARY TABLE temp AS SELECT * FROM t WHERE 1=0] *)
Definition create_temp (name : string) : M unit :=
  execute CreateTemp (
    t <- table name ;
    fun w => (Ret tt, set_staging (Some (mkTable (schema t) [])) w)).

(** What [to_sql(..., if_exists='append')] leaves in a table: the rows
    are appended when the table exists and has the frame's columns; the
    table is created from the frame when it does not exist. *)
Definition appended (df : DataFrame) (t : option Table)
    : outcome Table :=
  match t with
  | Some t =>
      if subcolumns (columns df) (schema t)
      then Ret (mkTable (schema t)
                  (body t ++ map (insert_values (schema t) (columns df))
                                 (rows df)))
      else Raise DatabaseError
  | None =>
      Ret (mkTable (columns df)
             (map (insert_values (columns df) (columns df)) (rows df)))
  end.

(** [all_data_df.to_sql(temp_table.lower(), engine, if_exists='append')] *)
Definition stage_rows (df : DataFrame) : M unit :=
  begin (execute StageRows (
    fun w => match appended df (staging w) with
             | Ret t => (Ret tt, set_staging (Some t) w)
             | Raise e => (Raise e, w)
             end)).

(** [df.to_sql(table_name, engine, if_exists='append')] *)
Definition insert_rows (name : string) (df : DataFrame) : M unit :=
  begin (execute Insert (
    fun w => match appended df (tables w !! name) with
             | Ret t => put_table name t w
             | Raise e => (Raise e, w)
             end)).

(** The MERGE statement built from the frame's columns.  With no column
    besides the key the SET list is empty and the statement does not
    parse.  Returns the row count: rows updated plus rows inserted. *)
Definition merge (name : string) (cols : list string) : M Z :=
  execute Merge (
    t <- table name ;
    fun w =>
      match staging w with
      | None => (Raise DatabaseError, w)
      | Some src =>
          if subcolumns cols (schema t) && subcolumns cols (schema src)
             && bool_decide (ID ∈ schema t) && bool_decide (ID ∈ schema src)
             && negb (forallb (String.eqb ID) cols)
          then match merge_rows (schema t) cols (body src) (body t) with
               | Some (l, n) =>
                   (Ret (Z.of_nat n),
                    set_tables (<[name := mkTable (schema t) l]> (tables w)) w)
               | None => (Raise DatabaseError, w)
               end
          else (Raise DatabaseError, w)
      end).

(** [DROP TABLE IF EXISTS temp] *)
Definition drop_temp : M unit :=
  execute DropTemp (fun w => (Ret tt, set_staging None w)).

(** [DELETE FROM t WHERE "DELIVERY_ID" IN (...)]; returns the row count. *)
Definition delete (name : string) (ids : list Z) : M Z :=
  execute Delete (
    t <- table name ;
    if bool_decide (ID ∈ schema t) then
      let kept := delete_rows ids (body t) in
      run put_table name (mkTable (schema t) kept) ;
      ret (Z.of_nat (length (body t) - length kept))
    else raise DatabaseError).

(** *** Connection *)

Definition required_options : list string :=
  ["account"; "user"; "password"; "database"; "schema"; "warehouse"].

(** The engine is created without contacting the warehouse; only the
    settings file is read. *)
Definition get_snowflake_connection : M unit :=
  fun w =>
    match settings w with
    | None => (Raise FileNotFoundError, w)
    | Some config =>
        match List.find (fun s => String.eqb (Py.lower (fst s)) "snowflake")
                        config with
        | None => (Raise KeyError, w)
        | Some (_, options) =>
            if forallb (fun o => bool_decide (o ∈ map fst options))
                       required_options
            then (Ret tt, w)
            else (Raise KeyError, w)
        end
    end.

Definition verify_snowflake_connection : M bool :=
  try_except (
    run get_snowflake_connection ;
    run connect (execute SelectCurrent (ret tt)) ;
    fun w => (Ret true, dispose w))
  (fun _ => ret false).

Definition count_records_in_snowflake (table_name : string) : M Z :=
  run get_snowflake_connection ;
  try_finally
    (try_except (connect (select_count table_name)) (fun _ => ret 0))
    dispose.

(** *** Table creation *)

Definition create_table_if_not_exists (table_name : string)
    (df_sample : DataFrame) : M bool :=
  try_except (
    exists_ <- connect (execute HasTable
                 (fun w => (Ret (bool_decide (is_Some (tables w !! table_name))),
                            w))) ;
    if negb exists_ then
      run begin (execute CreateTable
            (put_table table_name (mkTable (columns df_sample) []))) ;
      ret true
    else ret true)
  (fun _ => ret false).

(** *** Upsert *)

(** [int(x)] *)
Definition int_ (c : Cell) : outcome Z :=
  match c with
  | NA => Raise TypeError
  | Num q => Ret (trunc q)
  | Flag b => Ret (Z.b2z b)
  | Str _ => Raise Unmodelled
  | Stamp _ => Raise TypeError
  end.

(** [astype('int64')] on one value *)
Definition as_int64 (c : Cell) : outcome Cell :=
  match c with
  | NA => Raise ValueError
  | Num q => Ret (Num (inject_Z (trunc q)))
  | Flag b => Ret (Num (inject_Z (Z.b2z b)))
  | Str _ => Raise Unmodelled
  | Stamp ns => Ret (Num (inject_Z ns))
  end.

Fixpoint for_each {A B} (f : A -> outcome B) (l : list A)
    : outcome (list B) :=
  match l with
  | [] => Ret []
  | a :: l' => b <~ f a ;; bs <~ for_each f l' ;; Ret (b :: bs)
  end.

Definition convert_dataframe_types (df : DataFrame) : outcome DataFrame :=
  if has_column df ID then
    rows' <~ for_each (fun r => c <~ as_int64 (get r ID) ;;
                                Ret (<[ID := c]> r)) (rows df) ;;
    Ret (mkFrame (columns df) rows')
  else Ret df.

(** [df['DELIVERY_ID'].isin(existing_ids)] *)
Definition isin (existing_ids : list Z) (r : gmap string Cell) : bool :=
  in_ids existing_ids r.

(** [pd.concat([a, b], ignore_index=True)] of two selections of one
    frame. *)
Definition concat (a b : DataFrame) : DataFrame :=
  mkFrame (columns a) (rows a ++ rows b).

(** Step 3 of both upserts: the rows whose key is not in the table, and
    the rows whose key is. *)
Definition split_records (existing_ids : list Z) (df_fixed : DataFrame)
    : DataFrame * DataFrame :=
  let new_records_mask r := negb (isin existing_ids r) in
  let new_df := select new_records_mask df_fixed in
  let update_df := select (fun r => negb (new_records_mask r)) df_fixed in
  (new_df, update_df).

Definition failed : M (bool * Z * Z) := ret (false, 0, 0).

(** The existing keys, as both upserts fetch them. *)
Definition fetch_existing_ids (table_name : string) : M (list Z) :=
  begin (
    cells <- select_ids table_name ;
    lift (for_each int_ cells)).

Definition upsert_to_snowflake (df : DataFrame) (table_name : string)
    : M (bool * Z * Z) :=
  if empty df then failed else
  df_fixed <- lift (convert_dataframe_types df) ;
  run get_snowflake_connection ;
  try_finally (try_except (
    count_before <- count_records_in_snowflake table_name ;
    existing_ids <- fetch_existing_ids table_name ;
    run lift (FA_transform.column df_fixed ID) ;
    let '(new_df, update_df) := split_records existing_ids df_fixed in
    if (0 <? len update_df)%nat || (0 <? len new_df)%nat then
      run begin (create_temp table_name) ;
      let all_data_df := concat new_df update_df in
      run stage_rows all_data_df ;
      (* One [with engine.begin()] block, in two parts: DROP TABLE is a
         DDL statement, and the warehouse commits the open transaction
         when it receives one, so the MERGE is undone by a failure that
         comes before the DROP and by no other. *)
      merged <- begin (
        count_before_merge <- select_count table_name ;
        rows_affected <- merge table_name (columns all_data_df) ;
        ret (count_before_merge, rows_affected)) ;
      let '(count_before_merge, rows_affected) := merged in
      run drop_temp ;
      count_after_merge <- select_count table_name ;
      let new_records_count := count_after_merge - count_before_merge in
      let updated_records_count := rows_affected - new_records_count in
      ret (true, new_records_count, updated_records_count)
    else ret (true, 0, 0))
  (fun _ => failed)) dispose.

(** [unique()]: first occurrences, in order. *)
Fixpoint unique (l : list Z) : list Z :=
  match l with
  | [] => []
  | x :: l' => x :: List.filter (fun y => negb (x =? y)) (unique l')
  end.

(** The DELETE loop, [batch_size] ids per statement, each statement in a
    block of its own; [n] bounds the number of statements. *)
Fixpoint delete_in_batches (n : nat) (table_name : string)
    (batch_size : nat) (ids : list Z) (updated_count : Z) : M Z :=
  match n, ids with
  | _, [] => ret updated_count
  | O, _ => ret updated_count
  | S n', _ =>
      rowcount <- begin (delete table_name (take batch_size ids)) ;
      delete_in_batches n' table_name batch_size (drop batch_size ids)
                        (updated_count + rowcount)
  end.

Definition keys_of (df : DataFrame) : list Z :=
  omap key (rows df).

Definition upsert_to_snowflake_alternative (df : DataFrame)
    (table_name : string) : M (bool * Z * Z) :=
  if empty df then failed else
  df_fixed <- lift (convert_dataframe_types df) ;
  run get_snowflake_connection ;
  try_finally (try_except (
    count_before <- count_records_in_snowflake table_name ;
    existing_ids <- fetch_existing_ids table_name ;
    run lift (FA_transform.column df_fixed ID) ;
    let '(new_df, update_df) := split_records existing_ids df_fixed in
    updated_count <-
      (if (0 <? len update_df)%nat then
         let delivery_ids_to_update := unique (keys_of update_df) in
         delete_in_batches (length delivery_ids_to_update) table_name 500
                           delivery_ids_to_update 0
       else ret 0) ;
    let all_records_df := concat new_df update_df in
    run (if (0 <? len all_records_df)%nat
         then insert_rows table_name all_records_df else ret tt) ;
    count_after <- count_records_in_snowflake table_name ;
    let new_records_count := Z.of_nat (len new_df) in
    let updated_records_count := Z.of_nat (len update_df) in
    ret (true, new_records_count, updated_records_count))
  (fun _ => failed)) dispose.

(** *** The load pipeline *)

(** Returns the counts (new, update, total), or [None] on any error. *)
Definition analyze_upsert_performance (df : DataFrame)
    (table_name : string) : M (option (nat * nat * nat)) :=
  run get_snowflake_connection ;
  try_finally (try_except (
    existing_ids <- connect (cells <- select_ids table_name ;
                             lift (for_each int_ cells)) ;
    run lift (FA_transform.column df ID) ;
    ids <- lift (for_each (fun r => int_ (get r ID)) (rows df)) ;
    let new_records :=
      List.filter (fun k => negb (bool_decide (k ∈ existing_ids))) ids in
    let update_records :=
      List.filter (fun k => bool_decide (k ∈ existing_ids)) ids in
    ret (Some (length new_records, length update_records, len df)))
  (fun _ => ret None)) dispose.

Definition load_complete_pipeline (transformed_df : DataFrame)
    (table_name : string) : M bool :=
  connected <- verify_snowflake_connection ;
  if negb connected then ret false else
  records_before <- count_records_in_snowflake table_name ;
  upsert_analysis <- analyze_upsert_performance transformed_df table_name ;
  run get_snowflake_connection ;
  created <- create_table_if_not_exists table_name transformed_df ;
  if negb created then ret false else
  result <- upsert_to_snowflake transformed_df table_name ;
  let '(success, new_records, updated_records) := result in
  result <- (if negb success
             then upsert_to_snowflake_alternative transformed_df table_name
             else ret result) ;
  let '(success, new_records, updated_records) := result in
  if negb success then ret false else
  records_after <- count_records_in_snowflake table_name ;
  let expected_total := records_before + new_records in
  if records_after =? expected_total then ret true else ret true.

End FA_load.

(** ** The host

    What the orchestrator sees besides the warehouse: the staging
    directory with its files, the source database and the clock.  The
    source database is an external system: [source] is the combined frame
    its queries yield for this run, or [None] when they fail or return no
    row. *)

Module Host.
Import Frame Warehouse.

Record Host : Type := mkHost {
  warehouse : World;
  staging_dir : option (list (string * outcome DataFrame));
  source : option DataFrame;
  timestamp : string;      (* [datetime.now()] as '%Y%m%d_%H%M%S' *)
  now : Z                  (* [datetime.now()] of the transformation *)
}.

Definition H (A : Type) : Type := St Host A.

Definition set_warehouse (w : World) (h : Host) : Host :=
  mkHost w (staging_dir h) (source h) (timestamp h) (now h).
Definition set_staging_dir (d : option (list (string * outcome DataFrame)))
    (h : Host) : Host :=
  mkHost (warehouse h) d (source h) (timestamp h) (now h).

(** Code of the load module run by the orchestrator. *)
Definition on_warehouse {A} (m : M A) : H A :=
  fun h => let '(o, w) := m (warehouse h) in (o, set_warehouse w h).

End Host.

(** ** FA_extract.py *)

Module FA_extract.
Import Frame Warehouse Host.

Definition get_postgres_connection : M unit :=
  fun w =>
    match settings w with
    | None => (Raise FileNotFoundError, w)
    | Some config =>
        match List.find (fun s => String.eqb (Py.lower (fst s)) "postgres")
                        config with
        | None => (Raise KeyError, w)
        | Some (_, options) =>
            if forallb (fun o => bool_decide (o ∈ map fst options))
                       ["user"; "password"; "host"; "database"]
            then (Ret tt, w)
            else (Raise KeyError, w)
        end
    end.

(** The same as in the load module. *)
Definition get_snowflake_connection : M unit :=
  FA_load.get_snowflake_connection.

Definition check_snowflake_connectivity : M bool :=
  try_except (
    run get_snowflake_connection ;
    run connect (execute SelectCurrent (ret tt)) ;
    run try_except (connect (execute SelectTables (ret tt)))
                   (fun _ => ret tt) ;
    fun w => (Ret true, dispose w))
  (fun _ => ret false).

(** [os.makedirs(output_dir, exist_ok=True)] and [df.to_parquet]. *)
Definition save_to_parquet (df : DataFrame) : H unit :=
  fun h =>
    let name := "staging_" +:+ timestamp h +:+ ".parquet" in
    let files := default [] (staging_dir h) in
    (Ret tt,
     set_staging_dir
       (Some ((name, Ret df) ::
              List.filter (fun f => negb (String.eqb (fst f) name)) files))
       h).

(** The time keys [extract_data_by_date] adds to the rows it has read:
    [to_datetime(x).dt.hour * 100 + to_datetime(x).dt.minute], then
    [fillna(0)] and [astype(int)].  The hour and the minute of a
    datetime64[ns] value are those of its nanoseconds since the epoch,
    counted with floor division. *)
Definition hour (ns : Z) : Z := (ns / 3600000000000) mod 24.
Definition minute (ns : Z) : Z := (ns / 60000000000) mod 60.

(** One cell of the key, for a cell of a datetime column: a timestamp
    or NaT.  What [to_datetime] parses from other cells is outside the
    embedding. *)
Definition time_key (x : Cell) : outcome Cell :=
  match x with
  | Stamp ns => Ret (Num (inject_Z (hour ns * 100 + minute ns)))
  | NA => Ret (Num 0)
  | _ => Raise Unmodelled
  end.

(** Returns the exit code. *)
Definition main : H Z :=
  connected <- on_warehouse check_snowflake_connectivity ;
  if negb connected then ret 1 else
  run on_warehouse get_postgres_connection ;
  fun h =>
    match source h with
    | None => (Ret 1, h)
    | Some combined_df => (run save_to_parquet combined_df ; ret 0) h
    end.

End FA_extract.

(** ** FA_main.py *)

Module FA_main.
Import Frame Warehouse Host.

Definition table_name : string := "FACT_DELIVERIES".

(** [os.listdir(staging_dir)] filtered on the suffix; [None] when the
    directory does not exist. *)
Definition parquet_files (h : Host) : option (list string) :=
  option_map (fun files => List.filter (fun f => Py.endswith f ".parquet")
                                       (map fst files))
             (staging_dir h).

(** [pd.read_parquet(path)] *)
Definition read_parquet (name : string) : H DataFrame :=
  fun h =>
    match List.find (fun f => String.eqb (fst f) name)
                    (default [] (staging_dir h)) with
    | Some (_, content) => (content, h)
    | None => (Raise FileNotFoundError, h)
    end.

(** Phase 1, the checks before extraction: [false] stops the run. *)
Definition initial_checks : H bool :=
  ok <- try_except (
          fun h =>
            match parquet_files h with
            | Some [] =>
                (run on_warehouse FA_extract.get_postgres_connection ;
                 ret true) h
            | Some _ => (Ret true, h)
            | None => (Ret false, h)
            end)
        (fun _ => ret false) ;
  if negb ok then ret false else
  on_warehouse FA_load.verify_snowflake_connection.

(** Phase 2 up to [pd.read_parquet]: the extraction is run and the
    latest file of the staging directory is read.  [None] when the run
    stops before a batch is read. *)
Definition read_latest : H (option DataFrame) :=
  extract_result <- FA_extract.main ;
  if negb (extract_result =? 0) then ret None else
  fun h =>
    match parquet_files h with
    | None => (Ret None, h)
    | Some files =>
        match Py.max_name files with
        | None => (Ret None, h)
        | Some latest_file =>
            (raw_data <- read_parquet latest_file ; ret (Some raw_data)) h
        end
    end.

(** Phase 2, extraction: the batch to process, or [None] when the run
    stops here.  An empty batch stops the run. *)
Definition extraction : H (option DataFrame) :=
  try_except (
    raw_data <- read_latest ;
    match raw_data with
    | None => ret None
    | Some raw_data =>
        if empty raw_data then ret None else
        run lift (FA_transform.column raw_data "vehicle_id") ;
        run lift (FA_transform.column raw_data "driver_id") ;
        run lift (FA_transform.column raw_data "route_id") ;
        ret (Some raw_data)
    end)
  (fun _ => ret None).

(** Phase 3, transformation. *)
Definition transformation (raw_data : DataFrame) : H (option DataFrame) :=
  try_except (
    fun h =>
      (transformed_data <-
         lift (FA_transform.transform_complete_pipeline (now h) raw_data) ;
       if empty transformed_data then ret None
       else ret (Some transformed_data)) h)
  (fun _ => ret None).

(** Phase 4, load. *)
Definition load (transformed_data : DataFrame) : H bool :=
  try_except (
    records_before <-
      on_warehouse (FA_load.count_records_in_snowflake table_name) ;
    success <-
      on_warehouse (FA_load.load_complete_pipeline transformed_data
                                                   table_name) ;
    if success then
      records_after <-
        on_warehouse (FA_load.count_records_in_snowflake table_name) ;
      ret true
    else ret false)
  (fun _ => ret false).

Definition run_complete_etl : H bool :=
  try_except (
    ok <- initial_checks ;
    if negb ok then ret false else
    raw_data <- extraction ;
    match raw_data with
    | None => ret false
    | Some raw_data =>
        transformed_data <- transformation raw_data ;
        match transformed_data with
        | None => ret false
        | Some transformed_data => load transformed_data
        end
    end)
  (fun _ => ret false).

(** [df.head(n)]: the first [n] rows, or all but the last [-n] when [n]
    is negative. *)
Definition head (n : Z) (df : DataFrame) : DataFrame :=
  mkFrame (columns df)
          (if 0 <=? n then take (Z.to_nat n) (rows df)
           else take (len df - Z.to_nat (- n)) (rows df)).

(** The test mode: no check of the source, no count of the records, and
    at most [limit] rows of the batch. *)
Definition run_test_mode (limit : Z) : H bool :=
  try_except (
    connected <- on_warehouse FA_load.verify_snowflake_connection ;
    if negb connected then ret false else
    raw_data <- read_latest ;
    match raw_data with
    | None => ret false
    | Some raw_data =>
        let raw_data := if limit <? Z.of_nat (len raw_data)
                        then head limit raw_data else raw_data in
        fun h =>
          (transformed_data <-
             lift (FA_transform.transform_complete_pipeline (now h)
                                                            raw_data) ;
           if empty transformed_data then ret false else
           on_warehouse (FA_load.load_complete_pipeline transformed_data
                                                        table_name)) h
    end)
  (fun _ => ret false).

End FA_main.

(** ** The specification's words

    The conditions and formulas of the specification, written from its
    text; the theorems below compare them with the code. *)

Module Spec.
Import Frame.

(** The cell holds a number that satisfies [P]. *)
Definition within (c : Cell) (P : Q -> Prop) : Prop :=
  exists q, number c = Some q /\ P q.

(** The conditions a row must satisfy, all at once, to pass validation. *)
Definition acceptable (r : gmap string Cell) : Prop :=
  within (get r "delivery_duration_minutes")
         (fun d => 0 < d /\ d < 1440)%Q /\
  within (get r "delivery_distance_km") (fun x => 0 < x /\ x < 5000)%Q /\
  within (get r "package_weight_kg") (fun x => 0 <= x /\ x < 10000)%Q /\
  within (get r "fuel_efficiency_km_per_liter")
         (fun x => 0 < x /\ x < 50)%Q /\
  (exists delivered scheduled,
      get r "delivered_datetime" = Stamp delivered /\
      get r "scheduled_datetime" = Stamp scheduled /\
      scheduled <= delivered) /\
  get r "delivery_status" <> NA /\
  get r "vehicle_id" <> NA /\
  get r "driver_id" <> NA.

(** Column [c] is present and holds cells of one kind. *)
Definition typed (df : DataFrame) (c : string) (kind : Cell -> bool)
    : Prop :=
  c ∈ columns df /\ Forall (fun r => kind (get r c) = true) (rows df).

(** A homogeneous batch, as the validator expects it. *)
Definition validator_input (df : DataFrame) : Prop :=
  typed df "delivery_duration_minutes" FA_transform.numeric_cell /\
  typed df "delivery_distance_km" FA_transform.numeric_cell /\
  typed df "package_weight_kg" FA_transform.numeric_cell /\
  typed df "fuel_efficiency_km_per_liter" FA_transform.numeric_cell /\
  typed df "delivered_datetime" FA_transform.datetime_cell /\
  typed df "scheduled_datetime" FA_transform.datetime_cell /\
  "delivery_status" ∈ columns df /\
  "vehicle_id" ∈ columns df /\
  "driver_id" ∈ columns df.

(** The extracted batch, as the transformation expects it. *)
Definition transform_input (df : DataFrame) : Prop :=
  typed df "delivered_datetime" FA_transform.datetime_cell /\
  typed df "scheduled_datetime" FA_transform.datetime_cell /\
  typed df "delay_minutes" FA_transform.numeric_cell /\
  typed df "delivery_fuel_consumed" FA_transform.numeric_cell /\
  typed df "delivery_distance_km" FA_transform.numeric_cell /\
  typed df "package_weight_kg" FA_transform.numeric_cell /\
  typed df "fuel_efficiency_km_per_liter" FA_transform.numeric_cell /\
  "delivery_status" ∈ columns df /\
  "revenue_per_delivery" ∈ columns df /\
  "vehicle_id" ∈ columns df /\
  "driver_id" ∈ columns df.

(** The fraction of the rows of a batch that satisfy [p]. *)
Definition fraction (p : gmap string Cell -> bool) (df : DataFrame) : Q :=
  (FA_transform.nat_Q (count p df) / FA_transform.nat_Q (len df))%Q.

(** All the cells of a batch, column after column. *)
Definition cells (df : DataFrame) : list Cell :=
  flat_map (fun c => map (fun r => get r c) (rows df)) (columns df).

(** The fraction of null cells over all cells of a batch. *)
Definition null_fraction (df : DataFrame) : Q :=
  (FA_transform.nat_Q (length (List.filter isnull (cells df))) /
   FA_transform.nat_Q (length (cells df)))%Q.

(** The value of column [c] lies outside [[lo, hi]]. *)
Definition outside (c : string) (lo hi : Q) (r : gmap string Cell) : bool :=
  negb (ge (get r c) lo && le (get r c) hi).

(** The value of column [c] is above [k]. *)
Definition above (c : string) (k : Q) (r : gmap string Cell) : bool :=
  gt (get r c) k.

(** The data quality score of a batch. *)
Definition quality_score (df : DataFrame) : Q :=
  Qmax 0 (Qmin 100
    (100 - 50 * null_fraction df
         - 20 * fraction (outside "fuel_efficiency_km_per_liter" 5 30) df
         - 15 * fraction (outside "delivery_duration_minutes" 30 600) df
         - 10 * fraction (above "delay_minutes" 240) df))%Q.

(** The batch after steps 1 to 5 of the transformation: the computed
    columns are added to every extracted row. *)
Definition enriched (df : DataFrame) : DataFrame :=
  let df := assign "delivery_duration_minutes"
              (fun r => FA_transform.minutes_between
                          (get r "delivered_datetime")
                          (get r "scheduled_datetime")) df in
  let df := assign "delay_minutes_calculated"
              (fun r => FA_transform.minutes_between
                          (get r "delivered_datetime")
                          (get r "scheduled_datetime")) df in
  let df := assign "on_time_status"
              (fun r => Flag (le (get r "delay_minutes") 0)) df in
  let df := assign "fuel_efficiency_calculated"
              (fun r => if gt (get r "delivery_fuel_consumed") 0
                        then FA_transform.divide
                               (get r "delivery_distance_km")
                               (get r "delivery_fuel_consumed")
                        else Num 0) df in
  assign "revenue_per_delivery_calculated"
         (fun r => match get r "delivery_status" with
                   | Str "delivered" => get r "revenue_per_delivery"
                   | _ => Num 0
                   end) df.

(** The validated batch, stamped with the time of the transformation:
    what the quality score is computed on. *)
Definition validated (now : Z) (df : DataFrame) : DataFrame :=
  assign "transformation_timestamp" (fun _ => Stamp now)
         (select FA_transform.valid_mask (enriched df)).

(** *** The reconciler *)

(** The settings file names the warehouse and the environment turns no
    statement down. *)
Definition healthy (w : Warehouse.World) : Prop :=
  fst (FA_load.get_snowflake_connection w) = Ret tt /\
  forall s, Warehouse.refuses w s = false.

(** The keys of a list of rows. *)
Definition keys (l : list (gmap string Cell)) : list Z :=
  omap Warehouse.key l.

(** DELIVERY_ID holds an integer, not null. *)
Definition integer_key (r : gmap string Cell) : Prop :=
  match Warehouse.key r with
  | Some k => r !! Warehouse.ID = Some (Num (inject_Z k))
  | None => False
  end.

#[global] Instance integer_key_dec r : Decision (integer_key r).
Proof. unfold integer_key. destruct (Warehouse.key r); apply _. Defined.

(** Table [t] is stored under [name], with an integer key column. *)
Definition stored (w : Warehouse.World) (name : string)
    (t : Warehouse.Table) : Prop :=
  Warehouse.tables w !! name = Some t /\
  Warehouse.ID ∈ Warehouse.schema t /\
  Forall integer_key (Warehouse.body t).

(** A batch that can be loaded into [t]: not empty, keyed by integers,
    with columns of [t] and at least one besides the key. *)
Definition loadable (df : DataFrame) (t : Warehouse.Table) : Prop :=
  rows df <> [] /\
  Warehouse.ID ∈ columns df /\
  Exists (fun c => c <> Warehouse.ID) (columns df) /\
  columns df ⊆ Warehouse.schema t /\
  Forall integer_key (rows df).

(** At most one row per key. *)
Definition distinct_keys (l : list (gmap string Cell)) : Prop :=
  NoDup (keys l).

(** The rows the merge path stages for batch [df] against table [t]:
    the new records, then the records to update. *)
Definition staged (df : DataFrame) (t : Warehouse.Table)
    : list (gmap string Cell) :=
  let '(new_df, update_df) :=
    FA_load.split_records (keys (Warehouse.body t)) df in
  map (Warehouse.insert_values (Warehouse.schema t) (columns df))
      (rows (FA_load.concat new_df update_df)).

(** The rows the delete-then-insert path leaves in table [t]. *)
Definition replaced (df : DataFrame) (t : Warehouse.Table)
    : list (gmap string Cell) :=
  let '(new_df, update_df) :=
    FA_load.split_records (keys (Warehouse.body t)) df in
  Warehouse.delete_rows (FA_load.unique (FA_load.keys_of update_df))
                        (Warehouse.body t)
  ++ map (Warehouse.insert_values (Warehouse.schema t) (columns df))
         (rows (FA_load.concat new_df update_df)).

(** What the merge makes of target row [t]: updated from the one source
    row with its key, or left as it is. *)
Definition merged_row (sch cols : list string)
    (src : list (gmap string Cell)) (t : gmap string Cell)
    : gmap string Cell :=
  match List.filter (fun s => Warehouse.same_key s t) src with
  | [s] => Warehouse.update_set sch cols s t
  | _ => t
  end.

(** The rows the merge path leaves in table [t]: every row of [t],
    updated where the batch has its key, then the rows of the batch
    whose key [t] did not have. *)
Definition merged (df : DataFrame) (t : Warehouse.Table)
    : list (gmap string Cell) :=
  map (merged_row (Warehouse.schema t) (columns df) (staged df t))
      (Warehouse.body t)
  ++ map (Warehouse.insert_values (Warehouse.schema t) (columns df))
         (Warehouse.not_matched (staged df t) (Warehouse.body t)).

(** [COUNT(DISTINCT "DELIVERY_ID")]: nulls are not counted. *)
Definition count_distinct (l : list (gmap string Cell)) : nat :=
  length (remove_dups (keys l)).

(** The table stored under [name], when there is one. *)
Definition content (w : Warehouse.World) (name : string)
    : option (list (gmap string Cell)) :=
  Warehouse.body <$> Warehouse.tables w !! name.

(** Rows [l] are table [t] reconciled with batch [df]: the keys are
    those of [t] and of [df]; a row whose key is in the batch holds the
    batch's value in every column of the batch, and is the batch's row
    in full when the batch has all the columns of [t]; the rows whose
    key is not in the batch are those of [t]. *)
Definition reconciled (df : DataFrame) (t : Warehouse.Table)
    (l : list (gmap string Cell)) : Prop :=
  (forall k, k ∈ keys l <->
             k ∈ keys (Warehouse.body t) \/ k ∈ keys (rows df)) /\
  (forall x b c, x ∈ l -> b ∈ rows df ->
                 Warehouse.key x = Warehouse.key b ->
                 c ∈ columns df -> get x c = get b c) /\
  (forall x, Warehouse.in_ids (keys (rows df)) x = false ->
             (x ∈ l <-> x ∈ Warehouse.body t)) /\
  (Warehouse.schema t ⊆ columns df ->
   forall x b, x ∈ l -> b ∈ rows df ->
               Warehouse.key x = Warehouse.key b ->
               x = Warehouse.insert_values (Warehouse.schema t)
                                           (columns df) b).

(** *** Invariants of running code *)

(** Every run of [m] relates the state before to the state after,
    whether it returns or raises. *)
Definition keeps {S A} (R : S -> S -> Prop) (m : St S A) : Prop :=
  forall s o s', m s = (o, s') -> R s s'.

(** The settings file and the environment are those of before. *)
Definition same_environment (w w' : Warehouse.World) : Prop :=
  Warehouse.settings w' = Warehouse.settings w /\
  Warehouse.refuses w' = Warehouse.refuses w.

(** Nothing was changed in the warehouse: no statement of the mutation
    interface was sent and the tables are those of before. *)
Definition untouched (w w' : Warehouse.World) : Prop :=
  same_environment w w' /\
  Warehouse.tables w' = Warehouse.tables w /\
  List.filter Warehouse.mutation (Warehouse.trace w') =
  List.filter Warehouse.mutation (Warehouse.trace w).

(** The DELIVERY_ID column, when there is one, can be cast to int64. *)
Definition castable (df : DataFrame) : Prop :=
  exists df_fixed, FA_load.convert_dataframe_types df = Ret df_fixed.

(** The configuration file is there, with the warehouse's section and
    its options. *)
Definition configured (w : Warehouse.World) : Prop :=
  fst (FA_load.get_snowflake_connection w) = Ret tt.

(** The warehouse is configured and answers a query. *)
Definition reachable (w : Warehouse.World) : Prop :=
  configured w /\
  Warehouse.refuses w Warehouse.Connect = false /\
  Warehouse.refuses w Warehouse.SelectCurrent = false.

(** From every state of [P] the code returns a value, raising nothing,
    in a state of [P]. *)
Definition returns {S A} (P : S -> Prop) (m : St S A) : Prop :=
  forall s, P s -> exists a s', m s = (Ret a, s') /\ P s'.

(** The caller gets a result value, not an exception. *)
Definition surfaces {S A} (m : St S A) (s : S) : Prop :=
  exists a s', m s = (Ret a, s').

(** Between two states of the host nothing was changed in the
    warehouse. *)
Definition quiet (h h' : Host.Host) : Prop :=
  untouched (Host.warehouse h) (Host.warehouse h').

End Spec.

(** ** Names used by the further properties

    Lists and predicates read off the code, for the statements of the
    last part. *)

Module Facts.
Import Frame.

(** The columns [transform_delivery_data] reads from the extracted
    batch. *)
Definition required_columns : list string :=
  ["delivered_datetime"; "scheduled_datetime"; "delay_minutes";
   "delivery_fuel_consumed"; "delivery_distance_km"; "package_weight_kg";
   "fuel_efficiency_km_per_liter"; "delivery_status";
   "revenue_per_delivery"; "vehicle_id"; "driver_id"].

(** The columns [transform_delivery_data] writes, in the order of its
    steps. *)
Definition derived_columns : list string :=
  ["delivery_duration_minutes"; "delay_minutes_calculated";
   "on_time_status"; "fuel_efficiency_calculated";
   "revenue_per_delivery_calculated"; "transformation_timestamp";
   "data_quality_score"].

(** One day, in nanoseconds. *)
Definition day_ns : Z := 86400000000000.

(** The columns [prepare_for_snowflake] does not round. *)
Definition key_columns : list string :=
  ["date_key"; "scheduled_time_key"; "delivered_time_key"; "vehicle_id";
   "driver_id"; "route_id"; "customer_id"; "delivery_id"; "trip_id"].

(** The tables are those of before. *)
Definition same_tables (w w' : Warehouse.World) : Prop :=
  Warehouse.tables w' = Warehouse.tables w.

(** The tables and the environment are those of before. *)
Definition left_alone (w w' : Warehouse.World) : Prop :=
  same_tables w w' /\ Spec.same_environment w w'.

(** From every state in which the warehouse turns statement [s] down,
    [m] raises, and leaves the tables and the environment as they
    were. *)
Definition stops_at {A} (s : Warehouse.Stmt) (m : Warehouse.M A) : Prop :=
  forall w, Warehouse.refuses w s = true ->
    exists e w', m w = (Raise e, w') /\ left_alone w w'.

(** Every value [m] returns satisfies [P]. *)
Definition only {S A} (P : A -> Prop) (m : St S A) : Prop :=
  forall s a s', m s = (Ret a, s') -> P a.

(** The keys [validate_snowflake_compatibility] wants without nulls,
    under the names the projection gives them. *)
Definition critical_keys : list string :=
  ["DELIVERY_ID"; "VEHICLE_ID"; "DRIVER_ID"; "DATE_KEY"].

(** The name [save_to_parquet] gives the file it writes. *)
Definition staging_name (h : Host.Host) : string :=
  "staging_" +:+ Host.timestamp h +:+ ".parquet".

End Facts.

(** ** Sample data *)

Module Sample.
Import Frame.

(** A delivery as the validator receives it: timestamps in seconds, the
    duration in minutes already computed. *)
Definition delivery (id : Z) (scheduled : Z) (delivered : Cell)
    (duration : Cell) (distance : Q) (delay : Q) (status : string)
    : gmap string Cell :=
  list_to_map
    [("delivery_id", Num (inject_Z id));
     ("vehicle_id", Num 201); ("driver_id", Num 301);
     ("scheduled_datetime", Stamp (scheduled * 1000000000));
     ("delivered_datetime", delivered);
     ("delivery_duration_minutes", duration);
     ("delivery_distance_km", Num distance);
     ("delivery_fuel_consumed", Num 1.2);
     ("package_weight_kg", Num 5.5);
     ("fuel_efficiency_km_per_liter", Num 12.9);
     ("delay_minutes", Num delay);
     ("revenue_per_delivery", Num 25);
     ("delivery_status", Str status)].

Definition delivery_columns : list string :=
  ["delivery_id"; "vehicle_id"; "driver_id"; "scheduled_datetime";
   "delivered_datetime"; "delivery_duration_minutes";
   "delivery_distance_km"; "delivery_fuel_consumed"; "package_weight_kg";
   "fuel_efficiency_km_per_liter"; "delay_minutes";
   "revenue_per_delivery"; "delivery_status"].

(** Delivered 45 minutes after schedule. *)
Definition on_road (id : Z) (distance : Q) : gmap string Cell :=
  delivery id 32400 (Stamp (35100 * 1000000000)) (Num 45) distance 15
           "delivered".

(** Not delivered yet. *)
Definition pending (id : Z) : gmap string Cell :=
  delivery id 32400 NA NA 15.5 0 "pending".

Definition measured : DataFrame :=
  mkFrame delivery_columns
          [on_road 1 4999.99; on_road 2 5000; on_road 3 0; pending 4].

(** A delivery as the extraction yields it. *)
Definition extracted_row (id : Z) (scheduled : Z) (delivered : Cell)
    (distance : Q) (delay : Cell) (status : string) : gmap string Cell :=
  list_to_map
    [("delivery_id", Num (inject_Z id));
     ("vehicle_id", Num 201); ("driver_id", Num 301);
     ("scheduled_datetime", Stamp (scheduled * 1000000000));
     ("delivered_datetime", delivered);
     ("delivery_distance_km", Num distance);
     ("delivery_fuel_consumed", Num 1.2);
     ("package_weight_kg", Num 5.5);
     ("fuel_efficiency_km_per_liter", Num 12.9);
     ("delay_minutes", delay);
     ("revenue_per_delivery", Num 25);
     ("delivery_status", Str status)].

Definition extracted_columns : list string :=
  ["delivery_id"; "vehicle_id"; "driver_id"; "scheduled_datetime";
   "delivered_datetime"; "delivery_distance_km"; "delivery_fuel_consumed";
   "package_weight_kg"; "fuel_efficiency_km_per_liter"; "delay_minutes";
   "revenue_per_delivery"; "delivery_status"].

(** Three deliveries made 45 minutes after schedule, with upstream
    delays of -5, 15 and 300 minutes, and one not delivered yet. *)
Definition extracted : DataFrame :=
  mkFrame extracted_columns
    [extracted_row 1 32400 (Stamp (35100 * 1000000000)) 15.5 (Num (-5))
                   "delivered";
     extracted_row 2 32400 (Stamp (35100 * 1000000000)) 20.3 (Num 15)
                   "delivered";
     extracted_row 3 32400 (Stamp (35100 * 1000000000)) 12.7 (Num 300)
                   "delivered";
     extracted_row 4 32400 NA 12.7 NA "pending"].


(** *** The warehouse *)

Definition fact_columns : list string := ["DELIVERY_ID"; "DELIVERY_STATUS"].

Definition fact (id : Z) (status : string) : gmap string Cell :=
  list_to_map [("DELIVERY_ID", Num (inject_Z id));
               ("DELIVERY_STATUS", Str status)].

Definition settings_ini : option (list (string * list (string * string))) :=
  Some [("snowflake",
         [("account", "fleetlogix"); ("user", "etl"); ("password", "secret");
          ("database", "FLEETLOGIX_DW"); ("schema", "STAR_SCHEMA");
          ("warehouse", "COMPUTE_WH")]);
        ("postgres",
         [("user", "etl"); ("password", "secret"); ("host", "localhost");
          ("database", "fleetlogix")])].

(** A warehouse that holds table [t] and turns nothing down. *)
Definition holding (t : Warehouse.Table) : Warehouse.World :=
  Warehouse.mkWorld settings_ini (fun _ => false)
                    {["FACT_DELIVERIES" := t]} None [].

(** Keys 1, 2, 3 stored; keys 2, 3, 4, 5 incoming. *)
Definition stock : Warehouse.Table :=
  Warehouse.mkTable fact_columns
                    [fact 1 "pending"; fact 2 "pending"; fact 3 "pending"].

Definition incoming : DataFrame :=
  mkFrame fact_columns
          [fact 2 "delivered"; fact 3 "delivered"; fact 4 "delivered";
           fact 5 "delivered"].

(** A batch that names key 7 twice, and an empty table. *)
Definition repeated : DataFrame :=
  mkFrame fact_columns [fact 7 "delivered"; fact 7 "failed"].

Definition bare : Warehouse.Table := Warehouse.mkTable fact_columns [].

(** A table that holds key 1 twice, and a batch with key 1. *)
Definition doubled : Warehouse.Table :=
  Warehouse.mkTable fact_columns [fact 1 "pending"; fact 1 "failed"].

Definition single : DataFrame := mkFrame fact_columns [fact 1 "delivered"].

(** A table with a column the batch does not have. *)
Definition wide : Warehouse.Table :=
  Warehouse.mkTable
    ["DELIVERY_ID"; "DELIVERY_STATUS"; "TRIP_STATUS"]
    [list_to_map [("DELIVERY_ID", Num 1); ("DELIVERY_STATUS", Str "pending");
                  ("TRIP_STATUS", Str "completed")]].

(** A warehouse whose settings file is missing. *)
Definition unconfigured : Warehouse.World :=
  Warehouse.mkWorld None (fun _ => false)
                    {["FACT_DELIVERIES" := stock]} None [].

(** A warehouse that holds table [stock] and turns the MERGE statement
    down. *)
Definition without_merge : Warehouse.World :=
  Warehouse.mkWorld settings_ini
                    (fun s => match s with
                              | Warehouse.Merge => true
                              | _ => false
                              end)
                    {["FACT_DELIVERIES" := stock]} None [].

(** A batch whose key is null. *)
Definition unkeyed : DataFrame :=
  mkFrame fact_columns
          [list_to_map [("DELIVERY_ID", NA);
                        ("DELIVERY_STATUS", Str "delivered")]].

(** *** The host *)

(** A host whose staging directory holds, under the latest name, a file
    with no row. *)
Definition idle : Host.Host :=
  Host.mkHost (holding stock)
              (Some [("staging_99991231_235959.parquet",
                      Ret (mkFrame extracted_columns []))])
              (Some extracted) "20250101_000000" 1735689600.

(** Two deliveries: one made at the scheduled instant, one 45 minutes
    after it. *)
Definition punctual : DataFrame :=
  mkFrame extracted_columns
    [extracted_row 1 32400 (Stamp (32400 * 1000000000)) 15.5 (Num 0)
                   "delivered";
     extracted_row 2 32400 (Stamp (35100 * 1000000000)) 20.3 (Num 45)
                   "delivered"].

(** A delivery with the columns the whole pipeline reads. *)
Definition complete_row (id : Z) (delivered : Cell) : gmap string Cell :=
  <["route_id" := Num 401]>
    (<["cost_per_delivery" := Num 18]>
       (<["is_on_time" := Flag false]>
          (extracted_row id 32400 delivered 15.5 (Num 45) "delivered"))).

Definition complete_columns : list string :=
  extracted_columns ++ ["route_id"; "cost_per_delivery"; "is_on_time"].

(** Deliveries 1 and 2, made 45 minutes after schedule. *)
Definition complete : DataFrame :=
  mkFrame complete_columns
          [complete_row 1 (Stamp (35100 * 1000000000));
           complete_row 2 (Stamp (35100 * 1000000000))].

(** A batch with a column that table [stock] does not have. *)
Definition wider : DataFrame :=
  mkFrame ["DELIVERY_ID"; "DELIVERY_STATUS"; "TRIP_STATUS"]
    [list_to_map [("DELIVERY_ID", Num 2); ("DELIVERY_STATUS", Str "delivered");
                  ("TRIP_STATUS", Str "completed")];
     list_to_map [("DELIVERY_ID", Num 9); ("DELIVERY_STATUS", Str "delivered");
                  ("TRIP_STATUS", Str "completed")]].

(** A configured warehouse that has no table yet. *)
Definition vacant : Warehouse.World :=
  Warehouse.mkWorld settings_ini (fun _ => false) ∅ None [].

(** A host on its first run: an empty staging directory, no table in
    the warehouse, two deliveries in the source. *)
Definition fresh : Host.Host :=
  Host.mkHost vacant (Some []) (Some complete) "20250101_000000" 1735689600.

(** A host that has run before: the staging directory holds the file of
    an earlier day. *)
Definition resumed : Host.Host :=
  Host.mkHost (holding stock)
              (Some [("staging_20241231_235959.parquet", Ret extracted);
                     ("notes.txt", Raise Unmodelled)])
              (Some complete) "20250101_000000" 1735689600.

End Sample.

(** * Properties *)

Import Frame.

(** ** Cells and frames *)

Lemma Qltb_lt (a b : Q) : Qltb a b = true <-> (a < b)%Q.
Proof. unfold Qltb, Qlt. apply Z.ltb_lt. Qed.

Lemma Qleb_le (a b : Q) : Qleb a b = true <-> (a <= b)%Q.
Proof. unfold Qleb, Qle. apply Z.leb_le. Qed.

Lemma gt_within (c : Cell) (k : Q) :
  gt c k = true <-> Spec.within c (fun q => k < q)%Q.
Proof.
  unfold gt, Spec.within. destruct (number c) as [q|].
  - rewrite Qltb_lt. split; [eauto|]. intros (q' & [= <-] & H). exact H.
  - split; [discriminate|]. intros (q' & [=] & _).
Qed.

Lemma lt_within (c : Cell) (k : Q) :
  lt c k = true <-> Spec.within c (fun q => q < k)%Q.
Proof.
  unfold lt, Spec.within. destruct (number c) as [q|].
  - rewrite Qltb_lt. split; [eauto|]. intros (q' & [= <-] & H). exact H.
  - split; [discriminate|]. intros (q' & [=] & _).
Qed.

Lemma ge_within (c : Cell) (k : Q) :
  ge c k = true <-> Spec.within c (fun q => k <= q)%Q.
Proof.
  unfold ge, Spec.within. destruct (number c) as [q|].
  - rewrite Qleb_le. split; [eauto|]. intros (q' & [= <-] & H). exact H.
  - split; [discriminate|]. intros (q' & [=] & _).
Qed.

Lemma le_within (c : Cell) (k : Q) :
  le c k = true <-> Spec.within c (fun q => q <= k)%Q.
Proof.
  unfold le, Spec.within. destruct (number c) as [q|].
  - rewrite Qleb_le. split; [eauto|]. intros (q' & [= <-] & H). exact H.
  - split; [discriminate|]. intros (q' & [=] & _).
Qed.

Lemma within_and (c : Cell) (P R : Q -> Prop) :
  Spec.within c P /\ Spec.within c R <->
  Spec.within c (fun q => P q /\ R q).
Proof.
  unfold Spec.within. split.
  - intros [(q & Hq & HP) (q' & Hq' & HR)].
    exists q. rewrite Hq in Hq'. injection Hq' as <-. auto.
  - intros (q & Hq & HP & HR). split; exists q; auto.
Qed.

Lemma notna_iff (c : Cell) : notna c = true <-> c <> NA.
Proof. destruct c; cbn; split; try congruence; auto. Qed.

Lemma datetime_ge_iff (a b : Cell) :
  FA_transform.datetime_ge a b = true <->
  exists ta tb, a = Stamp ta /\ b = Stamp tb /\ tb <= ta.
Proof.
  unfold FA_transform.datetime_ge, FA_transform.to_datetime. split.
  - destruct a; try discriminate. destruct b; try discriminate.
    intros H%Z.leb_le. eauto.
  - intros (ta & tb & -> & -> & H). now apply Z.leb_le.
Qed.

Lemma get_insert_eq (r : gmap string Cell) (c : string) (x : Cell) :
  get (<[c := x]> r) c = x.
Proof. unfold get. now rewrite lookup_insert_eq. Qed.

Lemma get_insert_ne (r : gmap string Cell) (c c' : string) (x : Cell) :
  c <> c' -> get (<[c := x]> r) c' = get r c'.
Proof. intros H. unfold get. now rewrite lookup_insert_ne. Qed.

(** ** The validator *)

Lemma valid_mask_acceptable (r : gmap string Cell) :
  FA_transform.valid_mask r = true <-> Spec.acceptable r.
Proof.
  unfold FA_transform.valid_mask, Spec.acceptable.
  rewrite !andb_true_iff, !gt_within, !lt_within, ge_within,
          datetime_ge_iff, !notna_iff, <- !within_and.
  tauto.
Qed.

Lemma column_present (df : DataFrame) (c : string) :
  c ∈ columns df -> FA_transform.column df c = Ret tt.
Proof.
  intros H. unfold FA_transform.column, has_column.
  now rewrite bool_decide_eq_true_2.
Qed.

Lemma numeric_column_typed (df : DataFrame) (c : string) :
  Spec.typed df c FA_transform.numeric_cell ->
  FA_transform.numeric_column df c = Ret tt.
Proof.
  intros [Hc Hk]. unfold FA_transform.numeric_column.
  rewrite column_present by assumption. cbn.
  rewrite (proj2 (forallb_forall _ _)); [reflexivity|].
  intros r Hr. rewrite List.Forall_forall in Hk. now apply Hk.
Qed.

Lemma datetime_column_typed (df : DataFrame) (c : string) :
  Spec.typed df c FA_transform.datetime_cell ->
  FA_transform.datetime_column df c = Ret tt.
Proof.
  intros [Hc Hk]. unfold FA_transform.datetime_column.
  rewrite column_present by assumption. cbn.
  rewrite (proj2 (forallb_forall _ _)); [reflexivity|].
  intros r Hr. rewrite List.Forall_forall in Hk. now apply Hk.
Qed.

Lemma validate_returns (df : DataFrame) :
  Spec.validator_input df ->
  FA_transform.validate_data_quality df =
  Ret (select FA_transform.valid_mask df).
Proof.
  intros (H1 & H2 & H3 & H4 & H5 & H6 & H7 & H8 & H9).
  unfold FA_transform.validate_data_quality.
  rewrite !numeric_column_typed, !datetime_column_typed,
          !column_present by assumption.
  reflexivity.
Qed.

Lemma filter_length_split {A} (f : A -> bool) (l : list A) :
  (length l - length (List.filter f l))%nat =
  length (List.filter (fun a => negb (f a)) l).
Proof.
  pose proof (List.filter_length f l) as H. lia.
Qed.

(** Closed decidable statements, by evaluation. *)
Ltac evaluate := refine (bool_decide_unpack _ _); vm_compute; exact I.

Lemma acceptable_distance (r : gmap string Cell) (x : Q) :
  Spec.acceptable r ->
  (Spec.acceptable (<["delivery_distance_km" := Num x]> r) <->
   (0 < x /\ x < 5000)%Q).
Proof.
  intros (Hd & Hx & Hw & He & Ht & Hs & Hv & Hr).
  unfold Spec.acceptable.
  rewrite get_insert_eq, !get_insert_ne by discriminate.
  split.
  - intros (_ & (q & [= <-] & H) & _). exact H.
  - intros H. repeat split; try assumption. exists x. split; [reflexivity|].
    exact H.
Qed.

(** C5. On a homogeneous batch the validator raises nothing and returns
    exactly the rows that satisfy every condition of the specification
    (0 < duration < 1440, 0 < distance < 5000, 0 <= weight < 10000,
    0 < fuel efficiency < 50, delivered >= scheduled, status, vehicle and
    driver not null), in their order; the rows it drops are counted; a
    distance of 4999.99 keeps an acceptable row acceptable, a distance of
    5000 or of 0 does not. *)
Theorem validator_keeps_acceptable_rows (df : DataFrame) :
  Spec.validator_input df ->
  exists clean,
    FA_transform.validate_data_quality df = Ret clean /\
    columns clean = columns df /\
    rows clean = List.filter FA_transform.valid_mask (rows df) /\
    (forall r, FA_transform.valid_mask r = true <-> Spec.acceptable r) /\
    (forall r, r ∈ rows clean <-> r ∈ rows df /\ Spec.acceptable r) /\
    FA_transform.removed_count df clean =
      length (List.filter (fun r => negb (FA_transform.valid_mask r))
                          (rows df)) /\
    (forall r, Spec.acceptable r ->
       Spec.acceptable (<["delivery_distance_km" := Num 4999.99]> r) /\
       ~ Spec.acceptable (<["delivery_distance_km" := Num 5000]> r) /\
       ~ Spec.acceptable (<["delivery_distance_km" := Num 0]> r)).
Proof.
  intros Hin. exists (select FA_transform.valid_mask df).
  split; [now apply validate_returns|].
  split; [reflexivity|]. split; [reflexivity|].
  split; [apply valid_mask_acceptable|].
  split; [|split].
  - intros r. cbn. rewrite !list_elem_of_In, List.filter_In.
    now rewrite valid_mask_acceptable.
  - unfold FA_transform.removed_count, len. cbn. apply filter_length_split.
  - intros r Hr. rewrite !acceptable_distance by assumption.
    repeat split; try (intros [H1 H2]); try reflexivity;
      try (now apply Qlt_irrefl in H1); try (now apply Qlt_irrefl in H2).
Qed.

Lemma validator_keeps_acceptable_rows_witness :
  Spec.validator_input Sample.measured /\
  exists clean,
    FA_transform.validate_data_quality Sample.measured = Ret clean /\
    rows clean = [Sample.on_road 1 4999.99].
Proof.
  assert (H : Spec.validator_input Sample.measured).
  { unfold Spec.validator_input, Spec.typed. evaluate. }
  split; [exact H|].
  destruct (validator_keeps_acceptable_rows Sample.measured H)
    as (clean & Hret & _ & Hrows & _).
  exists clean. split; [exact Hret|]. rewrite Hrows. reflexivity.
Defined.

(** C9. Every row the validator returns has both datetimes set: a row
    whose delivered_datetime is null fails the comparison with the
    schedule and is dropped, whatever its status. *)
Theorem validator_drops_undelivered (df : DataFrame) :
  Spec.validator_input df ->
  exists clean,
    FA_transform.validate_data_quality df = Ret clean /\
    (forall r, r ∈ rows clean ->
       get r "scheduled_datetime" <> NA /\
       get r "delivered_datetime" <> NA) /\
    (forall r, r ∈ rows df -> get r "delivered_datetime" = NA ->
       FA_transform.datetime_ge (get r "delivered_datetime")
                                (get r "scheduled_datetime") = false /\
       r ∉ rows clean).
Proof.
  intros Hin. exists (select FA_transform.valid_mask df).
  split; [now apply validate_returns|]. cbn.
  assert (Hkeep : forall r,
            r ∈ List.filter FA_transform.valid_mask (rows df) ->
            exists d s, get r "delivered_datetime" = Stamp d /\
                        get r "scheduled_datetime" = Stamp s).
  { intros r Hr. apply list_elem_of_In, List.filter_In in Hr.
    destruct Hr as [_ Hr]. apply valid_mask_acceptable in Hr.
    destruct Hr as (_ & _ & _ & _ & (d & s & Hd & Hs & _) & _). eauto. }
  split.
  - intros r Hr. destruct (Hkeep r Hr) as (d & s & -> & ->).
    split; discriminate.
  - intros r _ Hna. split; [now rewrite Hna|].
    intros Hr. destruct (Hkeep r Hr) as (d & s & Hd & _). congruence.
Qed.

Lemma validator_drops_undelivered_witness :
  Spec.validator_input Sample.measured /\
  Sample.pending 4 ∈ rows Sample.measured /\
  exists clean,
    FA_transform.validate_data_quality Sample.measured = Ret clean /\
    Sample.pending 4 ∉ rows clean.
Proof.
  assert (H : Spec.validator_input Sample.measured).
  { unfold Spec.validator_input, Spec.typed. evaluate. }
  assert (Hin : Sample.pending 4 ∈ rows Sample.measured) by evaluate.
  split; [exact H|]. split; [exact Hin|].
  destruct (validator_drops_undelivered Sample.measured H)
    as (clean & Hret & _ & Hdrop).
  exists clean. split; [exact Hret|].
  apply (Hdrop _ Hin). reflexivity.
Defined.

(** ** The metric calculator *)

Lemma typed_assign_ne (df : DataFrame) (c c' : string)
    (f : gmap string Cell -> Cell) (kind : Cell -> bool) :
  c' <> c -> Spec.typed df c kind -> Spec.typed (assign c' f df) c kind.
Proof.
  intros Hne [Hc Hk]. split.
  - cbn. destruct (has_column df c'); [assumption|].
    apply elem_of_app. now left.
  - cbn. apply List.Forall_map. apply (List.Forall_impl _ (P := fun r => kind (get r c) = true)); [|assumption].
    intros r Hr. now rewrite get_insert_ne.
Qed.

Lemma typed_assign_eq (df : DataFrame) (c : string)
    (f : gmap string Cell -> Cell) (kind : Cell -> bool) :
  (forall r, kind (f r) = true) -> Spec.typed (assign c f df) c kind.
Proof.
  intros Hf. split.
  - cbn. unfold has_column. case_bool_decide; [assumption|].
    apply elem_of_app. right. apply list_elem_of_singleton. reflexivity.
  - cbn. apply List.Forall_map, List.Forall_forall. intros r _.
    now rewrite get_insert_eq.
Qed.

Lemma typed_select (df : DataFrame) (c : string)
    (mask : gmap string Cell -> bool) (kind : Cell -> bool) :
  Spec.typed df c kind -> Spec.typed (select mask df) c kind.
Proof.
  intros [Hc Hk]. split; [assumption|]. cbn.
  rewrite List.Forall_forall in *. intros r [Hr _]%List.filter_In. auto.
Qed.

Lemma columns_assign (df : DataFrame) (c c' : string)
    (f : gmap string Cell -> Cell) :
  c ∈ columns df -> c ∈ columns (assign c' f df).
Proof.
  intros Hc. cbn. destruct (has_column df c'); [assumption|].
  apply elem_of_app. now left.
Qed.

Lemma minutes_between_numeric (a b : Cell) :
  FA_transform.numeric_cell (FA_transform.minutes_between a b) = true.
Proof.
  unfold FA_transform.minutes_between.
  destruct (FA_transform.to_datetime a), (FA_transform.to_datetime b);
    reflexivity.
Qed.

Ltac typed_step :=
  first [ assumption
        | apply typed_assign_ne; [discriminate|]
        | apply typed_select
        | apply columns_assign ].

Lemma enriched_validator_input (df : DataFrame) :
  Spec.transform_input df -> Spec.validator_input (Spec.enriched df).
Proof.
  intros (Hd & Hs & Hl & Hf & Hk & Hw & He & Hst & Hrv & Hv & Hr).
  unfold Spec.validator_input, Spec.enriched.
  repeat lazymatch goal with |- _ /\ _ => split end;
    try (repeat typed_step).
  repeat (apply typed_assign_ne; [discriminate|]).
  apply typed_assign_eq. intros r. apply minutes_between_numeric.
Qed.

Lemma empty_false (df : DataFrame) (c : string) :
  c ∈ columns df -> rows df <> [] -> empty df = false.
Proof.
  intros Hc Hr. unfold empty, len.
  destruct (rows df); [congruence|].
  destruct (columns df); [|reflexivity].
  now apply not_elem_of_nil in Hc.
Qed.

Lemma empty_true_rows (df : DataFrame) (c : string) :
  c ∈ columns df -> empty df = true -> rows df = [].
Proof.
  intros Hc He. destruct (rows df) eqn:Hr; [reflexivity|].
  rewrite (empty_false df c) in He; [discriminate|assumption|].
  rewrite Hr. discriminate.
Qed.

Lemma penalty_typed (df : DataFrame) (c : string)
    (extreme : gmap string Cell -> bool) (weight score : Q) :
  Spec.typed df c FA_transform.numeric_cell ->
  FA_transform.penalty df c extreme weight score =
  Ret (score - FA_transform.nat_Q (count extreme df)
               / FA_transform.nat_Q (len df) * weight)%Q.
Proof.
  intros H. unfold FA_transform.penalty, has_column.
  rewrite bool_decide_eq_true_2 by apply H.
  now rewrite numeric_column_typed.
Qed.

Lemma count_ext (p p' : gmap string Cell -> bool) (df : DataFrame) :
  (forall r, r ∈ rows df -> p r = p' r) -> count p df = count p' df.
Proof.
  intros H. unfold count. f_equal. apply List.filter_ext_in.
  intros r Hr. apply H. now apply list_elem_of_In.
Qed.

Lemma extreme_is_outside (c : Cell) (lo hi : Q) :
  number c <> None ->
  lt c lo || gt c hi = negb (ge c lo && le c hi).
Proof.
  unfold lt, gt, ge, le. destruct (number c) as [q|]; [|congruence].
  intros _. unfold Qltb, Qleb.
  rewrite negb_andb, !Z.ltb_antisym. reflexivity.
Qed.

Lemma acceptable_stamped (r : gmap string Cell) (x : Cell) :
  Spec.acceptable (<["transformation_timestamp" := x]> r) <->
  Spec.acceptable r.
Proof.
  unfold Spec.acceptable. now rewrite !get_insert_ne by discriminate.
Qed.

Lemma validated_acceptable (now : Z) (df : DataFrame)
    (r : gmap string Cell) :
  r ∈ rows (Spec.validated now df) -> Spec.acceptable r.
Proof.
  unfold Spec.validated. cbn -[Spec.enriched].
  intros Hr. apply list_elem_of_In, List.in_map_iff in Hr.
  destruct Hr as (r' & <- & Hr'). apply acceptable_stamped.
  apply List.filter_In in Hr'. now apply valid_mask_acceptable.
Qed.

Lemma validated_typed (now : Z) (df : DataFrame) (c : string)
    (kind : Cell -> bool) :
  c <> "transformation_timestamp" ->
  Spec.typed (Spec.enriched df) c kind ->
  Spec.typed (Spec.validated now df) c kind.
Proof.
  intros Hc H. unfold Spec.validated.
  apply typed_assign_ne; [congruence|]. now apply typed_select.
Qed.

(** Counting the null cells row by row, as the code does, or column by
    column gives the same number. *)
Lemma null_count_by_column (cols : list string)
    (l : list (gmap string Cell)) :
  list_sum (map (fun r => length (List.filter (fun c => isnull (get r c))
                                              cols)) l) =
  length (List.filter isnull
            (flat_map (fun c => map (fun r => get r c) l) cols)).
Proof.
  induction cols as [|c cols IH].
  - cbn. induction l as [|r l IHl]; [reflexivity|exact IHl].
  - cbn [flat_map]. rewrite List.filter_app, length_app, <- IH. clear IH.
    induction l as [|r l IHl]; [reflexivity|].
    change (length (List.filter (fun c => isnull (get r c)) (c :: cols)) +
            list_sum (map (fun r => length (List.filter
                                              (fun c => isnull (get r c))
                                              (c :: cols))) l) =
            length (List.filter isnull
                      (get r c :: map (fun r => get r c) l)) +
            (length (List.filter (fun c => isnull (get r c)) cols) +
             list_sum (map (fun r => length (List.filter
                                               (fun c => isnull (get r c))
                                               cols)) l)))%nat.
    rewrite IHl. cbn [List.filter].
    destruct (isnull (get r c)); cbn [length]; lia.
Qed.

Lemma null_cells_counted (df : DataFrame) :
  null_cells df = length (List.filter isnull (Spec.cells df)).
Proof. apply null_count_by_column. Qed.

Lemma cells_counted (df : DataFrame) :
  (len df * length (columns df))%nat = length (Spec.cells df).
Proof.
  unfold Spec.cells, len. induction (columns df) as [|c cols IH].
  - cbn. lia.
  - cbn [flat_map length]. rewrite length_app, length_map, <- IH. lia.
Qed.

(** The score of a batch whose measured columns are numeric. *)
Lemma calculate_quality_score_returns (df : DataFrame) :
  Spec.typed df "fuel_efficiency_km_per_liter" FA_transform.numeric_cell ->
  Spec.typed df "delivery_duration_minutes" FA_transform.numeric_cell ->
  Spec.typed df "delay_minutes" FA_transform.numeric_cell ->
  exists score,
    FA_transform.calculate_quality_score df = Ret score /\
    (rows df <> [] ->
     (forall r, r ∈ rows df -> Spec.acceptable r) ->
     (score == Spec.quality_score df)%Q).
Proof.
  intros He Hd Hl. unfold FA_transform.calculate_quality_score.
  destruct (empty df) eqn:Hempty.
  - exists 100%Q. split; [reflexivity|]. intros Hrows _.
    rewrite (empty_false df "delay_minutes") in Hempty;
      [discriminate|apply Hl|assumption].
  - do 3 (rewrite penalty_typed by assumption; cbn [obind]).
    eexists. split; [reflexivity|]. intros _ Hacc.
    unfold Spec.quality_score, Spec.fraction, Spec.null_fraction.
    rewrite <- null_cells_counted, <- cells_counted.
    rewrite (count_ext FA_transform.extreme_efficiency
               (Spec.outside "fuel_efficiency_km_per_liter" 5 30)).
    rewrite (count_ext FA_transform.extreme_duration
               (Spec.outside "delivery_duration_minutes" 30 600)).
    + assert (Heq : forall a b c d : Q,
                (100 - a * 50 - b * 20 - c * 15 - d * 10 ==
                 100 - 50 * a - 20 * b - 15 * c - 10 * d)%Q)
        by (intros; ring).
      unfold Spec.above, FA_transform.extreme_delay.
      rewrite Heq. reflexivity.
    + intros r Hr. apply extreme_is_outside.
      destruct (Hacc r Hr) as ((q & -> & _) & _). discriminate.
    + intros r Hr. apply extreme_is_outside.
      destruct (Hacc r Hr) as (_ & _ & _ & (q & -> & _) & _). discriminate.
Qed.

Lemma transform_returns (now : Z) (raw : DataFrame) :
  Spec.transform_input raw ->
  empty raw = false ->
  exists score,
    FA_transform.calculate_quality_score (Spec.validated now raw) =
      Ret score /\
    FA_transform.transform_delivery_data now raw =
      Ret (assign "data_quality_score" (fun _ => Num score)
                  (Spec.validated now raw)) /\
    (rows (Spec.validated now raw) <> [] ->
     (score == Spec.quality_score (Spec.validated now raw))%Q).
Proof.
  intros Hin Hempty.
  pose proof (enriched_validator_input raw Hin)
    as (Hdur & _ & _ & Heff & _).
  assert (Hdelay : Spec.typed (Spec.enriched raw) "delay_minutes"
                              FA_transform.numeric_cell).
  { destruct Hin as (_ & _ & Hl & _). unfold Spec.enriched.
    repeat typed_step. }
  destruct (calculate_quality_score_returns (Spec.validated now raw))
    as (score & Hscore & Hformula);
    try (apply validated_typed; [discriminate|assumption]).
  exists score. split; [exact Hscore|]. split.
  - pose proof Hin as (Hd & Hs & Hl & Hf & Hk & Hw & He & Hst & Hrv & _).
    unfold FA_transform.transform_delivery_data. rewrite Hempty.
    rewrite !datetime_column_typed by assumption. cbn [obind].
    rewrite numeric_column_typed by (repeat typed_step). cbn [obind].
    rewrite !numeric_column_typed by (repeat typed_step). cbn [obind].
    rewrite !column_present by (repeat typed_step). cbn [obind].
    fold (Spec.enriched raw).
    rewrite validate_returns by now apply enriched_validator_input.
    cbn [obind]. unfold FA_transform.verify_dimension_keys.
    fold (Spec.validated now raw). now rewrite Hscore.
  - intros Hrows. apply Hformula; [assumption|].
    intros r. apply validated_acceptable.
Qed.

Lemma minutes_between_cases (a b : Cell) :
  FA_transform.minutes_between a b = NA \/
  exists q, FA_transform.minutes_between a b = Num q.
Proof.
  unfold FA_transform.minutes_between.
  destruct (FA_transform.to_datetime a), (FA_transform.to_datetime b);
    eauto.
Qed.

Ltac read_cells :=
  repeat first [ rewrite get_insert_eq
               | rewrite get_insert_ne by discriminate ].

Lemma enriched_rows (raw : DataFrame) (r : gmap string Cell) :
  r ∈ rows (Spec.enriched raw) ->
  exists r0,
    r0 ∈ rows raw /\
    get r "delivery_duration_minutes" =
      FA_transform.minutes_between (get r0 "delivered_datetime")
                                   (get r0 "scheduled_datetime") /\
    get r "delay_minutes_calculated" =
      FA_transform.minutes_between (get r0 "delivered_datetime")
                                   (get r0 "scheduled_datetime") /\
    get r "delay_minutes" = get r0 "delay_minutes" /\
    get r "on_time_status" = Flag (le (get r0 "delay_minutes") 0).
Proof.
  unfold Spec.enriched. cbn. rewrite !List.map_map.
  intros Hr. apply list_elem_of_In, List.in_map_iff in Hr.
  destruct Hr as (r0 & <- & Hr0). exists r0.
  split; [now apply list_elem_of_In|]. read_cells. auto.
Qed.

Lemma transformed_rows (now : Z) (raw : DataFrame) (score : Q)
    (r : gmap string Cell) :
  r ∈ rows (assign "data_quality_score" (fun _ => Num score)
                   (Spec.validated now raw)) ->
  exists r', r' ∈ rows (Spec.enriched raw) /\
             FA_transform.valid_mask r' = true /\
             r = <["data_quality_score" := Num score]>
                   (<["transformation_timestamp" := Stamp now]> r').
Proof.
  unfold Spec.validated. cbn -[Spec.enriched]. rewrite List.map_map.
  intros Hr. apply list_elem_of_In, List.in_map_iff in Hr.
  destruct Hr as (r' & <- & [Hr' Hmask]%List.filter_In).
  exists r'. split; [now apply list_elem_of_In|]. auto.
Qed.

(** C10. In every row of the transformed batch the two computed columns
    delivery_duration_minutes and delay_minutes_calculated hold the same
    number, the minutes from scheduled_datetime to delivered_datetime;
    on_time_status is [delay_minutes <= 0] on the delay_minutes column of
    the extracted row, which the transformation passes through
    unchanged. *)
Theorem computed_delay_equals_duration (now : Z) (raw : DataFrame) :
  Spec.transform_input raw ->
  exists out,
    FA_transform.transform_delivery_data now raw = Ret out /\
    forall r, r ∈ rows out ->
      exists r0 minutes,
        r0 ∈ rows raw /\
        get r "delivery_duration_minutes" = Num minutes /\
        get r "delay_minutes_calculated" = Num minutes /\
        Num minutes =
          FA_transform.minutes_between (get r0 "delivered_datetime")
                                       (get r0 "scheduled_datetime") /\
        get r "delay_minutes" = get r0 "delay_minutes" /\
        get r "on_time_status" = Flag (le (get r0 "delay_minutes") 0).
Proof.
  intros Hin. destruct (empty raw) eqn:Hempty.
  - exists raw. split.
    + unfold FA_transform.transform_delivery_data. now rewrite Hempty.
    + rewrite (empty_true_rows raw "delivery_status");
        [|apply Hin|assumption].
      intros r Hr. now apply not_elem_of_nil in Hr.
  - destruct (transform_returns now raw Hin Hempty) as (score & _ & Hret & _).
    eexists. split; [exact Hret|].
    intros r Hr. apply transformed_rows in Hr.
    destruct Hr as (r' & Hr' & Hmask & ->).
    destruct (enriched_rows raw r' Hr') as (r0 & Hr0 & Hdur & Hcalc & Hdel & Hon).
    apply valid_mask_acceptable in Hmask.
    destruct Hmask as ((q & Hq & _) & _).
    assert (Hnum : get r' "delivery_duration_minutes" = Num q).
    { rewrite Hdur in *.
      destruct (minutes_between_cases (get r0 "delivered_datetime")
                                      (get r0 "scheduled_datetime"))
        as [Hna | (q' & Hq')].
      - rewrite Hna in Hq. discriminate.
      - rewrite Hq' in *. cbn in Hq. congruence. }
    exists r0, q. read_cells.
    rewrite Hcalc, <- Hdur, Hnum, Hdel, Hon.
    repeat split; (assumption || reflexivity).
Qed.

Lemma computed_delay_equals_duration_witness :
  Spec.transform_input Sample.extracted /\
  exists out,
    FA_transform.transform_delivery_data 7 Sample.extracted = Ret out /\
    exists r, r ∈ rows out /\
      get r "delay_minutes_calculated" = Num (2700000000000 # 60000000000) /\
      get r "delay_minutes" = Num (-5) /\
      get r "on_time_status" = Flag true.
Proof.
  assert (H : Spec.transform_input Sample.extracted).
  { unfold Spec.transform_input, Spec.typed. evaluate. }
  split; [exact H|].
  destruct (computed_delay_equals_duration 7 Sample.extracted H)
    as (out & Hret & _).
  exists out. split; [exact Hret|].
  vm_compute in Hret. injection Hret as <-.
  eexists. split; [apply list_elem_of_here|]. vm_compute. auto.
Defined.



(** ** Rows of a table *)

Import Warehouse.

Lemma lookup_tabulate (f : string -> Cell) (sch : list string)
    (c : string) :
  (list_to_map (map (fun c => (c, f c)) sch) : gmap string Cell) !! c =
  if bool_decide (c ∈ sch) then Some (f c) else None.
Proof.
  induction sch as [|a sch IH]; cbn.
  - rewrite lookup_empty. now rewrite bool_decide_eq_false_2
      by apply not_elem_of_nil.
  - destruct (decide (a = c)) as [->|Hne].
    + rewrite lookup_insert_eq.
      now rewrite bool_decide_eq_true_2 by apply list_elem_of_here.
    + rewrite lookup_insert_ne by assumption. rewrite IH.
      apply (f_equal (fun b : bool => if b then Some (f c) else None)).
      apply bool_decide_ext. rewrite elem_of_cons. intuition congruence.
Qed.

Lemma get_tabulate (f : string -> Cell) (sch : list string) (c : string) :
  get (list_to_map (map (fun c => (c, f c)) sch)) c =
  if bool_decide (c ∈ sch) then f c else NA.
Proof.
  unfold get. rewrite lookup_tabulate. now case_bool_decide.
Qed.

Lemma tabulate_ext (f g : string -> Cell) (sch : list string) :
  (forall c, c ∈ sch -> f c = g c) ->
  (list_to_map (map (fun c => (c, f c)) sch) : gmap string Cell) =
  list_to_map (map (fun c => (c, g c)) sch).
Proof.
  intros H. f_equal. apply List.map_ext_in. intros c Hc.
  f_equal. apply H. now apply list_elem_of_In.
Qed.

Lemma get_insert_values (sch cols : list string) (s : gmap string Cell)
    (c : string) :
  c ∈ sch -> c ∈ cols -> get (insert_values sch cols s) c = get s c.
Proof.
  intros Hs Hc. unfold insert_values. rewrite get_tabulate.
  now rewrite !bool_decide_eq_true_2 by assumption.
Qed.

Lemma get_update_set_key (sch cols : list string)
    (s t : gmap string Cell) :
  ID ∈ sch -> get (update_set sch cols s t) ID = get t ID.
Proof.
  intros Hs. unfold update_set. rewrite get_tabulate.
  rewrite bool_decide_eq_true_2 by assumption.
  now rewrite String.eqb_refl, andb_false_r.
Qed.

Lemma get_update_set (sch cols : list string) (s t : gmap string Cell)
    (c : string) :
  c ∈ sch -> c ∈ cols -> c <> ID ->
  get (update_set sch cols s t) c = get s c.
Proof.
  intros Hs Hc Hne. unfold update_set. rewrite get_tabulate.
  rewrite !bool_decide_eq_true_2 by assumption.
  apply String.eqb_neq in Hne. now rewrite Hne.
Qed.

Lemma key_insert_values (sch cols : list string) (s : gmap string Cell) :
  ID ∈ sch -> ID ∈ cols -> key (insert_values sch cols s) = key s.
Proof. intros. unfold key. now rewrite get_insert_values. Qed.

Lemma key_update_set (sch cols : list string) (s t : gmap string Cell) :
  ID ∈ sch -> key (update_set sch cols s t) = key t.
Proof. intros. unfold key. now rewrite get_update_set_key. Qed.

Lemma integer_key_get (r : gmap string Cell) :
  Spec.integer_key r ->
  exists k, key r = Some k /\ r !! ID = Some (Num (inject_Z k)) /\
            get r ID = Num (inject_Z k).
Proof.
  unfold Spec.integer_key. destruct (key r) as [k|]; [|tauto].
  intros H. exists k. unfold get. rewrite H. auto.
Qed.

Lemma trunc_inject (k : Z) : trunc (inject_Z k) = k.
Proof. unfold trunc. cbn. apply Z.quot_1_r. Qed.

Lemma integer_key_intro (r : gmap string Cell) (k : Z) :
  r !! ID = Some (Num (inject_Z k)) -> Spec.integer_key r.
Proof.
  intros H. unfold Spec.integer_key, key, get. rewrite H. cbn.
  now rewrite trunc_inject.
Qed.

Lemma integer_key_insert_values (sch cols : list string)
    (s : gmap string Cell) :
  ID ∈ sch -> ID ∈ cols -> Spec.integer_key s ->
  Spec.integer_key (insert_values sch cols s).
Proof.
  intros Hs Hc (k & _ & _ & Hk)%integer_key_get.
  apply (integer_key_intro _ k). unfold insert_values.
  rewrite lookup_tabulate, !bool_decide_eq_true_2 by assumption.
  now rewrite Hk.
Qed.

Lemma integer_key_update_set (sch cols : list string)
    (s t : gmap string Cell) :
  ID ∈ sch -> Spec.integer_key t ->
  Spec.integer_key (update_set sch cols s t).
Proof.
  intros Hs (k & _ & _ & Hk)%integer_key_get.
  apply (integer_key_intro _ k). unfold update_set.
  rewrite lookup_tabulate, bool_decide_eq_true_2 by assumption.
  now rewrite String.eqb_refl, andb_false_r, Hk.
Qed.

(** ** Keys *)

Lemma keys_cons (r : gmap string Cell) (l : list (gmap string Cell))
    (k : Z) :
  key r = Some k -> Spec.keys (r :: l) = k :: Spec.keys l.
Proof. intros H. unfold Spec.keys. cbn. now rewrite H. Qed.

Lemma elem_keys (k : Z) (l : list (gmap string Cell)) :
  k ∈ Spec.keys l <-> exists r, r ∈ l /\ key r = Some k.
Proof. unfold Spec.keys. apply list_elem_of_omap. Qed.

Lemma keys_app (l l' : list (gmap string Cell)) :
  Spec.keys (l ++ l') = Spec.keys l ++ Spec.keys l'.
Proof. unfold Spec.keys. apply omap_app. Qed.

Lemma same_key_iff (s t : gmap string Cell) :
  Spec.integer_key s -> Spec.integer_key t ->
  (same_key s t = true <-> key s = key t).
Proof.
  intros (ks & Hs & _)%integer_key_get (kt & Ht & _)%integer_key_get.
  unfold same_key. rewrite Hs, Ht. rewrite Z.eqb_eq.
  split; congruence.
Qed.

Lemma in_ids_iff (ids : list Z) (r : gmap string Cell) (k : Z) :
  key r = Some k -> (in_ids ids r = true <-> k ∈ ids).
Proof.
  intros H. unfold in_ids. rewrite H. apply bool_decide_eq_true.
Qed.

Lemma no_match (src : list (gmap string Cell)) (t : gmap string Cell)
    (k : Z) :
  Forall Spec.integer_key src -> Spec.integer_key t -> key t = Some k ->
  (List.filter (fun s => same_key s t) src = [] <-> k ∉ Spec.keys src).
Proof.
  intros Hsrc Ht Hk. rewrite elem_keys. split.
  - intros Hnil (s & Hs & Hks).
    assert (Hin : List.In s (List.filter (fun s => same_key s t) src)).
    { apply List.filter_In. split; [now apply list_elem_of_In|].
      apply same_key_iff; [|assumption|congruence].
      rewrite List.Forall_forall in Hsrc.
      now apply Hsrc, list_elem_of_In. }
    rewrite Hnil in Hin. destruct Hin.
  - intros Hno. destruct (List.filter _ src) as [|s l] eqn:Hf; [reflexivity|].
    exfalso. apply Hno. exists s.
    assert (Hin : List.In s (List.filter (fun s => same_key s t) src))
      by (rewrite Hf; now left).
    apply List.filter_In in Hin. destruct Hin as [Hin Hsame].
    split; [now apply list_elem_of_In|].
    rewrite <- Hk. apply same_key_iff; try assumption.
    rewrite List.Forall_forall in Hsrc. now apply Hsrc.
Qed.

(** With distinct keys in the source, a target row has at most one
    match. *)
Lemma one_match (src : list (gmap string Cell)) (t : gmap string Cell) :
  Forall Spec.integer_key src -> Spec.distinct_keys src ->
  Spec.integer_key t ->
  List.filter (fun s => same_key s t) src = [] \/
  exists s, List.filter (fun s => same_key s t) src = [s] /\
            s ∈ src /\ key s = key t.
Proof.
  intros Hsrc Hnd Ht. destruct (integer_key_get t Ht) as (k & Hk & _).
  induction src as [|s src IH]; [now left|].
  apply List.Forall_cons_iff in Hsrc. destruct Hsrc as [Hs Hsrc].
  destruct (integer_key_get s Hs) as (ks & Hks & _).
  unfold Spec.distinct_keys in Hnd. rewrite (keys_cons s src ks Hks) in Hnd.
  apply NoDup_cons in Hnd. destruct Hnd as [Hfresh Hnd].
  cbn. destruct (same_key s t) eqn:Hsame.
  - right. exists s. apply same_key_iff in Hsame; try assumption.
    split; [|split; [apply list_elem_of_here|assumption]].
    f_equal. apply (no_match src t k); try assumption. congruence.
  - destruct (IH Hsrc Hnd) as [Hnil | (s' & Hf & Hin & Hkey)];
      [now left|].
    right. exists s'. split; [assumption|].
    split; [now apply list_elem_of_further|assumption].
Qed.

Lemma merge_matched_rows (sch cols : list string)
    (src tgt : list (gmap string Cell)) :
  Forall Spec.integer_key src -> Spec.distinct_keys src ->
  Forall Spec.integer_key tgt ->
  merge_matched sch cols src tgt =
  Some (map (Spec.merged_row sch cols src) tgt,
        length (List.filter (in_ids (Spec.keys src)) tgt)).
Proof.
  intros Hsrc Hnd Htgt. induction Htgt as [|t tgt Ht Htgt IH]; [reflexivity|].
  cbn. rewrite IH.
  destruct (integer_key_get t Ht) as (k & Hk & _).
  destruct (one_match src t Hsrc Hnd Ht) as [Hnil | (s & Hf & Hin & Hkey)].
  - assert (Hrow : Spec.merged_row sch cols src t = t)
      by (unfold Spec.merged_row; now rewrite Hnil).
    rewrite Hnil, Hrow. cbn.
    assert (Hout : in_ids (Spec.keys src) t = false).
    { apply not_true_is_false. rewrite (in_ids_iff _ t k Hk).
      now apply (no_match src t k). }
    now rewrite Hout.
  - assert (Hrow : Spec.merged_row sch cols src t = update_set sch cols s t)
      by (unfold Spec.merged_row; now rewrite Hf).
    rewrite Hf, Hrow. cbn.
    assert (Hin' : in_ids (Spec.keys src) t = true).
    { apply (in_ids_iff _ t k Hk). apply elem_keys. exists s.
      split; [assumption|congruence]. }
    now rewrite Hin'.
Qed.

Lemma keys_filter_sublist (f : gmap string Cell -> bool)
    (l : list (gmap string Cell)) :
  sublist (Spec.keys (List.filter f l)) (Spec.keys l).
Proof.
  unfold Spec.keys. induction l as [|r l IH]; cbn; [constructor|].
  destruct (f r); cbn; destruct (key r); cbn;
    try assumption; now constructor.
Qed.

Lemma distinct_filter (f : gmap string Cell -> bool)
    (l : list (gmap string Cell)) :
  Spec.distinct_keys l -> Spec.distinct_keys (List.filter f l).
Proof.
  unfold Spec.distinct_keys. intros H.
  eapply sublist_NoDup; [exact H|apply keys_filter_sublist].
Qed.

Lemma split_permutation {A} (f : A -> bool) (l : list A) :
  List.filter f l ++ List.filter (fun a => negb (f a)) l ≡ₚ l.
Proof.
  induction l as [|a l IH]; cbn; [reflexivity|].
  destruct (f a); cbn.
  - now constructor.
  - rewrite <- Permutation_middle. now constructor.
Qed.

Lemma keys_map_same (g : gmap string Cell -> gmap string Cell)
    (l : list (gmap string Cell)) :
  (forall r, r ∈ l -> key (g r) = key r) ->
  Spec.keys (map g l) = Spec.keys l.
Proof.
  unfold Spec.keys. induction l as [|r l IH]; intros H; [reflexivity|].
  cbn. rewrite H by apply list_elem_of_here.
  rewrite IH; [reflexivity|].
  intros r' Hr'. apply H. now apply list_elem_of_further.
Qed.

Lemma Forall_map_preserved (P : gmap string Cell -> Prop)
    (g : gmap string Cell -> gmap string Cell)
    (l : list (gmap string Cell)) :
  (forall r, P r -> P (g r)) -> Forall P l -> Forall P (map g l).
Proof.
  intros Hg H. apply List.Forall_map.
  eapply List.Forall_impl; [|exact H]. exact Hg.
Qed.

Lemma Forall_filter_preserved {A} (P : A -> Prop) (f : A -> bool)
    (l : list A) :
  Forall P l -> Forall P (List.filter f l).
Proof.
  rewrite !List.Forall_forall. intros H a [Ha _]%List.filter_In. auto.
Qed.

(** Rows with distinct integer keys are distinct rows. *)
Lemma distinct_rows (l : list (gmap string Cell)) :
  Forall Spec.integer_key l -> Spec.distinct_keys l -> NoDup l.
Proof.
  unfold Spec.distinct_keys.
  induction 1 as [|r l Hr Hl IH]; intros Hnd; [constructor|].
  destruct (integer_key_get r Hr) as (k & Hk & _).
  rewrite (keys_cons r l k Hk) in Hnd. apply NoDup_cons in Hnd.
  destruct Hnd as [Hfresh Hnd]. constructor; [|auto].
  intros Hin. apply Hfresh, elem_keys. eauto.
Qed.

Lemma key_elem_keys (r : gmap string Cell) (l : list (gmap string Cell))
    (k : Z) :
  r ∈ l -> key r = Some k -> k ∈ Spec.keys l.
Proof. intros. apply elem_keys. eauto. Qed.

Lemma elem_unique (x : Z) (l : list Z) : x ∈ FA_load.unique l <-> x ∈ l.
Proof.
  induction l as [|y l IH]; cbn; [reflexivity|].
  rewrite !elem_of_cons, list_elem_of_In, List.filter_In,
          <- list_elem_of_In, IH.
  rewrite negb_true_iff, Z.eqb_neq.
  destruct (decide (x = y)); intuition congruence.
Qed.

Lemma in_ids_unique (l : list Z) (r : gmap string Cell) :
  in_ids (FA_load.unique l) r = in_ids l r.
Proof.
  unfold in_ids. destruct (key r); [|reflexivity].
  apply bool_decide_ext, elem_unique.
Qed.

(** *** The partition of a batch *)

Lemma split_records_rows (ids : list Z) (df : DataFrame) :
  FA_load.split_records ids df =
  (select (fun r => negb (FA_load.isin ids r)) df,
   select (fun r => negb (negb (FA_load.isin ids r))) df).
Proof. reflexivity. Qed.

Lemma staged_rows (df : DataFrame) (t : Table) :
  Spec.staged df t =
  map (insert_values (schema t) (columns df))
      (List.filter (fun r => negb (in_ids (Spec.keys (body t)) r)) (rows df)
       ++ List.filter (fun r => negb (negb (in_ids (Spec.keys (body t)) r)))
                      (rows df)).
Proof. reflexivity. Qed.

Lemma batch_split (ids : list Z) (l : list (gmap string Cell)) :
  List.filter (fun r => negb (in_ids ids r)) l
  ++ List.filter (fun r => negb (negb (in_ids ids r))) l ≡ₚ l.
Proof. apply (split_permutation (fun r => negb (in_ids ids r))). Qed.

Lemma staged_integer_keys (df : DataFrame) (t : Table) :
  ID ∈ schema t -> ID ∈ columns df ->
  Forall Spec.integer_key (rows df) ->
  Forall Spec.integer_key (Spec.staged df t).
Proof.
  intros Hs Hc Hk. rewrite staged_rows.
  apply Forall_map_preserved;
    [intros r; now apply integer_key_insert_values|].
  rewrite batch_split. exact Hk.
Qed.

Lemma staged_keys (df : DataFrame) (t : Table) :
  ID ∈ schema t -> ID ∈ columns df ->
  Spec.keys (Spec.staged df t) ≡ₚ Spec.keys (rows df).
Proof.
  intros Hs Hc. rewrite staged_rows.
  rewrite keys_map_same by (intros; now apply key_insert_values).
  unfold Spec.keys. now rewrite batch_split.
Qed.

Lemma staged_distinct (df : DataFrame) (t : Table) :
  ID ∈ schema t -> ID ∈ columns df ->
  Spec.distinct_keys (rows df) -> Spec.distinct_keys (Spec.staged df t).
Proof.
  intros Hs Hc Hnd. unfold Spec.distinct_keys.
  now rewrite staged_keys.
Qed.

Lemma in_ids_staged (df : DataFrame) (t : Table) (r : gmap string Cell) :
  ID ∈ schema t -> ID ∈ columns df ->
  in_ids (Spec.keys (Spec.staged df t)) r =
  in_ids (Spec.keys (rows df)) r.
Proof.
  intros Hs Hc. unfold in_ids. destruct (key r); [|reflexivity].
  apply bool_decide_ext. now rewrite staged_keys.
Qed.

(** *** What the two paths leave in the table *)

Lemma not_matched_filter (src tgt : list (gmap string Cell)) :
  Forall Spec.integer_key src -> Forall Spec.integer_key tgt ->
  not_matched src tgt =
  List.filter (fun s => negb (in_ids (Spec.keys tgt) s)) src.
Proof.
  intros Hsrc Htgt. unfold not_matched. apply List.filter_ext_in.
  intros s Hs. rewrite List.Forall_forall in Hsrc.
  destruct (integer_key_get s (Hsrc s Hs)) as (k & Hk & _).
  apply eq_true_iff_eq. rewrite forallb_forall, negb_true_iff.
  rewrite <- not_true_iff_false, (in_ids_iff _ s k Hk), elem_keys.
  split.
  - intros Hall (t & Ht & Hkt).
    assert (Hit : Spec.integer_key t).
    { rewrite List.Forall_forall in Htgt.
      now apply Htgt, list_elem_of_In. }
    specialize (Hall t (proj1 (list_elem_of_In _ _) Ht)).
    apply negb_true_iff, not_true_iff_false in Hall. apply Hall.
    apply same_key_iff; auto. congruence.
  - intros Hno t Ht. apply negb_true_iff, not_true_iff_false.
    intros Hsame. apply Hno. exists t.
    split; [now apply list_elem_of_In|].
    rewrite List.Forall_forall in Htgt.
    apply same_key_iff in Hsame; auto. congruence.
Qed.

Lemma merge_rows_staged (df : DataFrame) (t : Table) :
  ID ∈ schema t -> ID ∈ columns df ->
  Forall Spec.integer_key (body t) ->
  Forall Spec.integer_key (rows df) ->
  Spec.distinct_keys (rows df) ->
  merge_rows (schema t) (columns df) (Spec.staged df t) (body t) =
  Some (Spec.merged df t,
        (length (List.filter (in_ids (Spec.keys (rows df))) (body t)) +
         length (not_matched (Spec.staged df t) (body t)))%nat).
Proof.
  intros Hs Hc Ht Hb Hnd. unfold merge_rows.
  rewrite merge_matched_rows;
    [|now apply staged_integer_keys|now apply staged_distinct|assumption].
  rewrite List.length_map.
  rewrite (List.filter_ext (in_ids (Spec.keys (Spec.staged df t)))
                           (in_ids (Spec.keys (rows df))))
    by (intros r; now apply in_ids_staged).
  reflexivity.
Qed.

Lemma merged_row_integer_key (sch cols : list string)
    (src : list (gmap string Cell)) (t : gmap string Cell) :
  ID ∈ sch -> Spec.integer_key t ->
  Spec.integer_key (Spec.merged_row sch cols src t) /\
  key (Spec.merged_row sch cols src t) = key t.
Proof.
  intros Hs Ht. unfold Spec.merged_row.
  destruct (List.filter _ src) as [|s [|s' l]]; auto.
  split; [now apply integer_key_update_set|now apply key_update_set].
Qed.

Lemma merged_integer_keys (df : DataFrame) (t : Table) :
  ID ∈ schema t -> ID ∈ columns df ->
  Forall Spec.integer_key (body t) ->
  Forall Spec.integer_key (rows df) ->
  Forall Spec.integer_key (Spec.merged df t).
Proof.
  intros Hs Hc Ht Hb. unfold Spec.merged. apply Forall_app. split.
  - apply Forall_map_preserved; [|assumption].
    intros r Hr. now apply merged_row_integer_key.
  - apply Forall_map_preserved;
      [intros r; now apply integer_key_insert_values|].
    apply Forall_filter_preserved. now apply staged_integer_keys.
Qed.

Lemma merged_keys (df : DataFrame) (t : Table) :
  ID ∈ schema t -> ID ∈ columns df ->
  Forall Spec.integer_key (body t) ->
  Forall Spec.integer_key (rows df) ->
  Spec.keys (Spec.merged df t) =
  Spec.keys (body t) ++
  Spec.keys (List.filter (fun s => negb (in_ids (Spec.keys (body t)) s))
                         (Spec.staged df t)).
Proof.
  intros Hs Hc Ht Hb. unfold Spec.merged. rewrite keys_app. f_equal.
  - apply keys_map_same. intros r Hr. apply merged_row_integer_key; auto.
    rewrite List.Forall_forall in Ht. now apply Ht, list_elem_of_In.
  - rewrite keys_map_same by (intros; now apply key_insert_values).
    rewrite not_matched_filter; auto. now apply staged_integer_keys.
Qed.

Lemma filtered_key (f : gmap string Cell -> bool)
    (l : list (gmap string Cell)) (k : Z) :
  k ∈ Spec.keys (List.filter f l) ->
  exists r, r ∈ l /\ f r = true /\ key r = Some k.
Proof.
  intros (r & Hr & Hk)%elem_keys.
  apply list_elem_of_In, List.filter_In in Hr. destruct Hr as [Hr Hf].
  exists r. split; [now apply list_elem_of_In|auto].
Qed.

Lemma merged_distinct (df : DataFrame) (t : Table) :
  ID ∈ schema t -> ID ∈ columns df ->
  Forall Spec.integer_key (body t) ->
  Forall Spec.integer_key (rows df) ->
  Spec.distinct_keys (body t) -> Spec.distinct_keys (rows df) ->
  Spec.distinct_keys (Spec.merged df t).
Proof.
  intros Hs Hc Ht Hb Hdt Hdb. unfold Spec.distinct_keys.
  rewrite merged_keys by assumption. apply NoDup_app.
  split; [assumption|]. split.
  - intros k Hk (s & _ & Hout & Hks)%filtered_key.
    apply negb_true_iff, not_true_iff_false in Hout. apply Hout.
    now apply (in_ids_iff _ s k).
  - apply distinct_filter. now apply staged_distinct.
Qed.

Lemma replaced_rows (df : DataFrame) (t : Table) :
  Spec.replaced df t =
  delete_rows
    (FA_load.unique
       (Spec.keys (List.filter
                     (fun r => negb (negb (in_ids (Spec.keys (body t)) r)))
                     (rows df))))
    (body t)
  ++ Spec.staged df t.
Proof. reflexivity. Qed.

Lemma replaced_integer_keys (df : DataFrame) (t : Table) :
  ID ∈ schema t -> ID ∈ columns df ->
  Forall Spec.integer_key (body t) ->
  Forall Spec.integer_key (rows df) ->
  Forall Spec.integer_key (Spec.replaced df t).
Proof.
  intros Hs Hc Ht Hb. rewrite replaced_rows. apply Forall_app. split.
  - now apply Forall_filter_preserved.
  - now apply staged_integer_keys.
Qed.

Lemma replaced_distinct (df : DataFrame) (t : Table) :
  ID ∈ schema t -> ID ∈ columns df ->
  Forall Spec.integer_key (body t) ->
  Forall Spec.integer_key (rows df) ->
  Spec.distinct_keys (body t) -> Spec.distinct_keys (rows df) ->
  Spec.distinct_keys (Spec.replaced df t).
Proof.
  intros Hs Hc Ht Hb Hdt Hdb. unfold Spec.distinct_keys.
  rewrite replaced_rows, keys_app. apply NoDup_app.
  split; [now apply distinct_filter|].
  split; [|now apply staged_distinct].
  intros k (x & Hx & Hkept & Hkx)%filtered_key Hk.
  rewrite staged_keys in Hk by assumption.
  apply negb_true_iff, not_true_iff_false in Hkept. apply Hkept.
  rewrite in_ids_unique. apply (in_ids_iff _ x k Hkx).
  apply elem_keys in Hk. destruct Hk as (b & Hb' & Hkb).
  apply elem_keys. exists b. split; [|assumption].
  apply list_elem_of_In, List.filter_In. split; [now apply list_elem_of_In|].
  rewrite negb_involutive. apply (in_ids_iff _ b k Hkb).
  now apply (key_elem_keys x).
Qed.

Lemma distinct_keys_inj (l : list (gmap string Cell))
    (r r' : gmap string Cell) :
  Forall Spec.integer_key l -> Spec.distinct_keys l ->
  r ∈ l -> r' ∈ l -> key r = key r' -> r = r'.
Proof.
  unfold Spec.distinct_keys.
  induction 1 as [|a l Ha Hl IH]; intros Hnd Hr Hr' Hk.
  - now apply not_elem_of_nil in Hr.
  - destruct (integer_key_get a Ha) as (k & Hka & _).
    rewrite (keys_cons a l k Hka) in Hnd. apply NoDup_cons in Hnd.
    destruct Hnd as [Hfresh Hnd].
    apply elem_of_cons in Hr. apply elem_of_cons in Hr'.
    destruct Hr as [-> | Hr], Hr' as [-> | Hr']; auto.
    + exfalso. apply Hfresh. apply (key_elem_keys r'); congruence.
    + exfalso. apply Hfresh. apply (key_elem_keys r); congruence.
Qed.

Lemma insert_values_idem (sch cols : list string) (b : gmap string Cell) :
  insert_values sch cols (insert_values sch cols b) =
  insert_values sch cols b.
Proof.
  unfold insert_values at 1 3. apply tabulate_ext. intros c Hc.
  case_bool_decide; [|reflexivity]. now apply get_insert_values.
Qed.

(** With every column of the table in the batch, an update writes the
    row an insert would write. *)
Lemma update_is_insert (sch cols : list string)
    (b t : gmap string Cell) :
  sch ⊆ cols -> Spec.integer_key b -> Spec.integer_key t ->
  key b = key t ->
  update_set sch cols (insert_values sch cols b) t =
  insert_values sch cols b.
Proof.
  intros Hsub (kb & Hkb & _ & Hgb)%integer_key_get
         (kt & Hkt & _ & Hgt)%integer_key_get Hk.
  unfold update_set, insert_values at 2. apply tabulate_ext. intros c Hc.
  rewrite bool_decide_eq_true_2 by now apply Hsub.
  destruct (String.eqb c ID) eqn:Hid; cbn.
  - apply String.eqb_eq in Hid. subst c. rewrite Hgt, Hgb. congruence.
  - apply get_insert_values; [assumption|now apply Hsub].
Qed.

Lemma elem_staged (df : DataFrame) (t : Table) (s : gmap string Cell) :
  s ∈ Spec.staged df t <->
  exists b, b ∈ rows df /\
            s = insert_values (schema t) (columns df) b.
Proof.
  rewrite staged_rows, list_elem_of_fmap. split.
  - intros (b & -> & Hb). exists b. split; [|reflexivity].
    now rewrite batch_split in Hb.
  - intros (b & Hb & ->). exists b. split; [reflexivity|].
    now rewrite batch_split.
Qed.

Lemma in_ids_false (ids : list Z) (r : gmap string Cell) (k : Z) :
  key r = Some k -> (in_ids ids r = false <-> k ∉ ids).
Proof.
  intros H. rewrite <- not_true_iff_false, (in_ids_iff ids r k H).
  reflexivity.
Qed.

Section Reconciled.

Variables (df : DataFrame) (t : Table).
Hypothesis key_stored : ID ∈ schema t.
Hypothesis key_given : ID ∈ columns df.
Hypothesis table_keys : Forall Spec.integer_key (body t).
Hypothesis batch_keys : Forall Spec.integer_key (rows df).
Hypothesis batch_distinct : Spec.distinct_keys (rows df).

Let stage := insert_values (schema t) (columns df).

Lemma table_row_key (x : gmap string Cell) :
  x ∈ body t -> exists k, key x = Some k /\ get x ID = Num (inject_Z k).
Proof.
  intros Hx. rewrite List.Forall_forall in table_keys.
  destruct (integer_key_get x (table_keys x (proj1 (list_elem_of_In _ _) Hx)))
    as (k & Hk & _ & Hg). eauto.
Qed.

Lemma batch_row_key (b : gmap string Cell) :
  b ∈ rows df -> exists k, key b = Some k /\ get b ID = Num (inject_Z k).
Proof.
  intros Hb. rewrite List.Forall_forall in batch_keys.
  destruct (integer_key_get b (batch_keys b (proj1 (list_elem_of_In _ _) Hb)))
    as (k & Hk & _ & Hg). eauto.
Qed.

Lemma table_row_integer (x : gmap string Cell) :
  x ∈ body t -> Spec.integer_key x.
Proof.
  intros Hx. rewrite List.Forall_forall in table_keys.
  now apply table_keys, list_elem_of_In.
Qed.

Lemma batch_row_integer (b : gmap string Cell) :
  b ∈ rows df -> Spec.integer_key b.
Proof.
  intros Hb. rewrite List.Forall_forall in batch_keys.
  now apply batch_keys, list_elem_of_In.
Qed.

(** What the merge makes of a row of the table. *)
Lemma merged_row_cases (x : gmap string Cell) :
  x ∈ body t ->
  (in_ids (Spec.keys (rows df)) x = false /\
   Spec.merged_row (schema t) (columns df) (Spec.staged df t) x = x) \/
  (exists b, b ∈ rows df /\ key b = key x /\
             Spec.merged_row (schema t) (columns df) (Spec.staged df t) x =
             update_set (schema t) (columns df) (stage b) x).
Proof.
  intros Hx. pose proof (table_row_integer x Hx) as Hix.
  destruct (table_row_key x Hx) as (k & Hk & _).
  pose proof (staged_integer_keys df t key_stored key_given batch_keys)
    as Hsk.
  pose proof (staged_distinct df t key_stored key_given batch_distinct)
    as Hsd.
  unfold Spec.merged_row.
  destruct (one_match (Spec.staged df t) x Hsk Hsd Hix)
    as [Hnil | (s & Hf & Hs & Hks)].
  - left. rewrite Hnil. split; [|reflexivity].
    apply (in_ids_false _ x k Hk). apply (no_match _ x k Hsk Hix Hk) in Hnil.
    now rewrite staged_keys in Hnil.
  - right. rewrite Hf. apply elem_staged in Hs.
    destruct Hs as (b & Hb & ->). exists b. split; [assumption|].
    split; [|reflexivity].
    rewrite <- Hks. symmetry. now apply key_insert_values.
Qed.

Lemma elem_merged (x : gmap string Cell) :
  x ∈ Spec.merged df t <->
  (x ∈ body t /\ in_ids (Spec.keys (rows df)) x = false) \/
  (exists t0 b, t0 ∈ body t /\ b ∈ rows df /\ key b = key t0 /\
                x = update_set (schema t) (columns df) (stage b) t0) \/
  (exists b, b ∈ rows df /\ in_ids (Spec.keys (body t)) b = false /\
             x = stage b).
Proof.
  unfold Spec.merged. rewrite elem_of_app, !list_elem_of_fmap.
  rewrite not_matched_filter
    by (auto using staged_integer_keys).
  split.
  - intros [(t0 & -> & Ht0) | (s & -> & Hs)].
    + destruct (merged_row_cases t0 Ht0) as [[Hout ->] | (b & Hb & Hk & ->)];
        [now left|].
      right. left. exists t0, b. auto.
    + right. right. apply list_elem_of_In, List.filter_In in Hs.
      destruct Hs as [Hs Hout]. apply list_elem_of_In, elem_staged in Hs.
      destruct Hs as (b & Hb & ->). exists b. split; [assumption|].
      fold stage. split; [|apply insert_values_idem].
      apply negb_true_iff in Hout. unfold in_ids in *. unfold stage in Hout.
      now rewrite key_insert_values in Hout.
  - intros [[Hx Hout] | [(t0 & b & Ht0 & Hb & Hk & ->) | (b & Hb & Hout & ->)]].
    + left. exists x. split; [|assumption].
      destruct (merged_row_cases x Hx) as [[_ ->] | (b & Hb & Hk & _)];
        [reflexivity|].
      exfalso. destruct (batch_row_key b Hb) as (k & Hkb & _).
      apply (in_ids_false _ x k) in Hout; [|congruence].
      apply Hout. now apply (key_elem_keys b).
    + left. exists t0. split; [|assumption].
      destruct (merged_row_cases t0 Ht0) as [[Hout _] | (b' & Hb' & Hk' & ->)].
      * exfalso. destruct (batch_row_key b Hb) as (k & Hkb & _).
        apply (in_ids_false _ t0 k) in Hout; [|congruence].
        apply Hout. now apply (key_elem_keys b).
      * f_equal. f_equal.
        apply (distinct_keys_inj (rows df)); auto. congruence.
    + right. exists (stage b). split; [symmetry; apply insert_values_idem|].
      apply list_elem_of_In, List.filter_In. split.
      * apply list_elem_of_In, elem_staged. eauto.
      * apply negb_true_iff. unfold in_ids in *. unfold stage.
        now rewrite key_insert_values.
Qed.

Lemma elem_replaced (x : gmap string Cell) :
  x ∈ Spec.replaced df t <->
  (x ∈ body t /\ in_ids (Spec.keys (rows df)) x = false) \/
  (exists b, b ∈ rows df /\ x = stage b).
Proof.
  rewrite replaced_rows, elem_of_app, elem_staged.
  apply or_iff_compat_r. unfold delete_rows.
  rewrite list_elem_of_In, List.filter_In, <- list_elem_of_In.
  assert (Haux : x ∈ body t ->
            (negb (in_ids (FA_load.unique
                     (Spec.keys
                        (List.filter
                           (fun r => negb (negb (in_ids (Spec.keys (body t)) r)))
                           (rows df)))) x) = true <->
             in_ids (Spec.keys (rows df)) x = false)).
  { intros Hx. destruct (table_row_key x Hx) as (k & Hk & _).
    rewrite negb_true_iff, in_ids_unique, !(in_ids_false _ x k Hk).
    apply not_iff_compat. split.
    - intros (b & Hb & _ & Hkb)%filtered_key. now apply (key_elem_keys b).
    - intros (b & Hb & Hkb)%elem_keys. apply elem_keys. exists b.
      split; [|assumption]. apply list_elem_of_In, List.filter_In.
      split; [now apply list_elem_of_In|]. rewrite negb_involutive.
      apply (in_ids_iff _ b k Hkb). now apply (key_elem_keys x). }
  split; intros [Hx H]; (split; [exact Hx|]); now apply Haux.
Qed.

End Reconciled.

(** ** Running the load module *)

Lemma bind_ok {S A B} (m : St S A) (k : A -> St S B) (s s' : S) (a : A) :
  m s = (Ret a, s') -> bind m k s = k a s'.
Proof. intros H. unfold bind. now rewrite H. Qed.

Lemma bind_raise {S A B} (m : St S A) (k : A -> St S B) (s s' : S)
    (e : Exn) :
  m s = (Raise e, s') -> bind m k s = (Raise e, s').
Proof. intros H. unfold bind. now rewrite H. Qed.

Lemma execute_ok {A} (s : Stmt) (m : M A) (w : World) :
  refuses w s = false -> execute s m w = m (log s w).
Proof. intros H. unfold execute. cbn. now rewrite H. Qed.

Lemma begin_ok {A} (m : M A) (w w' : World) (a : A) :
  refuses w Connect = false ->
  m (log Connect w) = (Ret a, w') -> begin m w = (Ret a, w').
Proof. intros Hr H. unfold begin. now rewrite execute_ok, H. Qed.

Lemma connect_ok {A} (m : M A) (w : World) :
  refuses w Connect = false -> connect m w = m (log Connect w).
Proof. apply execute_ok. Qed.

Lemma connection_ok (w : World) :
  fst (FA_load.get_snowflake_connection w) = Ret tt ->
  FA_load.get_snowflake_connection w = (Ret tt, w).
Proof.
  unfold FA_load.get_snowflake_connection.
  destruct (settings w) as [config|]; [|discriminate].
  destruct (List.find _ config) as [[name options]|]; [|discriminate].
  destruct (forallb _ _); [reflexivity|discriminate].
Qed.

Lemma connection_settings (w w' : World) :
  settings w' = settings w ->
  fst (FA_load.get_snowflake_connection w') =
  fst (FA_load.get_snowflake_connection w).
Proof.
  intros H. unfold FA_load.get_snowflake_connection. rewrite H.
  destruct (settings w) as [config|]; [|reflexivity].
  destruct (List.find _ config) as [[name options]|]; [|reflexivity].
  now destruct (forallb _ _).
Qed.

Lemma select_count_ok (name : string) (t : Table) (w : World) :
  refuses w SelectCount = false -> tables w !! name = Some t ->
  FA_load.select_count name w =
  (Ret (Z.of_nat (length (body t))), log SelectCount w).
Proof.
  intros Hr Ht. unfold FA_load.select_count. rewrite execute_ok by assumption.
  unfold bind, FA_load.table. cbn. now rewrite Ht.
Qed.

Lemma count_records_ok (name : string) (t : Table) (w : World) :
  Spec.healthy w -> tables w !! name = Some t ->
  FA_load.count_records_in_snowflake name w =
  (Ret (Z.of_nat (length (body t))),
   dispose (log SelectCount (log Connect w))).
Proof.
  intros [Hc Hr] Ht. unfold FA_load.count_records_in_snowflake.
  rewrite (bind_ok _ _ w w tt) by now apply connection_ok.
  unfold try_finally, try_except.
  rewrite connect_ok by apply Hr.
  now rewrite (select_count_ok name t) by (apply Hr || exact Ht).
Qed.

Lemma for_each_keys (l : list (gmap string Cell)) :
  Forall Spec.integer_key l ->
  FA_load.for_each FA_load.int_ (map (fun r => get r ID) l) =
  Ret (Spec.keys l).
Proof.
  induction 1 as [|r l Hr Hl IH]; [reflexivity|].
  destruct (integer_key_get r Hr) as (k & Hk & _ & Hg).
  rewrite (keys_cons r l k Hk).
  cbn [map FA_load.for_each]. rewrite Hg, IH. cbn.
  now rewrite trunc_inject.
Qed.

Lemma fetch_existing_ids_ok (name : string) (t : Table) (w : World) :
  Spec.healthy w -> Spec.stored w name t ->
  FA_load.fetch_existing_ids name w =
  (Ret (Spec.keys (body t)), log SelectIds (log Connect w)).
Proof.
  intros [Hc Hr] (Ht & Hid & Hk). unfold FA_load.fetch_existing_ids.
  apply begin_ok; [apply Hr|].
  unfold FA_load.select_ids.
  erewrite bind_ok.
  2:{ rewrite execute_ok by apply Hr.
      erewrite bind_ok by (unfold FA_load.table; cbn; now rewrite Ht).
      rewrite bool_decide_eq_true_2 by assumption. reflexivity. }
  unfold lift. now rewrite for_each_keys.
Qed.

Lemma convert_integer_keys (df : DataFrame) :
  Forall Spec.integer_key (rows df) ->
  FA_load.convert_dataframe_types df = Ret df.
Proof.
  intros Hk. unfold FA_load.convert_dataframe_types.
  destruct (has_column df ID); [|reflexivity].
  assert (Hrows : FA_load.for_each
            (fun r => c <~ FA_load.as_int64 (get r ID) ;; Ret (<[ID := c]> r))
            (rows df) = Ret (rows df)).
  { induction Hk as [|r l Hr Hl IH]; [reflexivity|].
    destruct (integer_key_get r Hr) as (k & _ & Hl' & Hg).
    cbn. rewrite Hg. cbn. rewrite trunc_inject, IH. cbn.
    now rewrite insert_id. }
  rewrite Hrows. cbn. now destruct df.
Qed.

Lemma subcolumns_iff (cols sch : list string) :
  FA_load.subcolumns cols sch = true <-> cols ⊆ sch.
Proof.
  unfold FA_load.subcolumns. rewrite forallb_forall. split.
  - intros H c Hc. apply list_elem_of_In, H in Hc.
    now apply bool_decide_eq_true in Hc.
  - intros H c Hc. apply bool_decide_eq_true, H. now apply list_elem_of_In.
Qed.

Lemma set_list_nonempty (cols : list string) :
  Exists (fun c => c <> ID) cols ->
  negb (forallb (String.eqb ID) cols) = true.
Proof.
  intros H. apply negb_true_iff, not_true_iff_false. intros Hall.
  rewrite forallb_forall in Hall. apply List.Exists_exists in H.
  destruct H as (c & Hc & Hne). apply Hne. symmetry.
  now apply String.eqb_eq, Hall.
Qed.

Lemma create_temp_ok (name : string) (t : Table) (w : World) :
  (forall s, refuses w s = false) -> tables w !! name = Some t ->
  begin (FA_load.create_temp name) w =
  (Ret tt, set_staging (Some (mkTable (schema t) []))
                       (log CreateTemp (log Connect w))).
Proof.
  intros Hr Ht. apply begin_ok; [apply Hr|].
  unfold FA_load.create_temp. rewrite execute_ok by apply Hr.
  now erewrite bind_ok by (unfold FA_load.table; cbn; now rewrite Ht).
Qed.

Lemma stage_rows_ok (df : DataFrame) (tmp : Table) (w : World) :
  (forall s, refuses w s = false) -> staging w = Some tmp ->
  columns df ⊆ schema tmp ->
  FA_load.stage_rows df w =
  (Ret tt,
   set_staging
     (Some (mkTable (schema tmp)
              (body tmp ++ map (insert_values (schema tmp) (columns df))
                               (rows df))))
     (log StageRows (log Connect w))).
Proof.
  intros Hr Hs Hsub. unfold FA_load.stage_rows.
  apply begin_ok; [apply Hr|]. rewrite execute_ok by apply Hr.
  cbn. rewrite Hs. cbn.
  now rewrite (proj2 (subcolumns_iff _ _) Hsub).
Qed.

Lemma insert_rows_ok (name : string) (df : DataFrame) (t : Table)
    (w : World) :
  (forall s, refuses w s = false) -> tables w !! name = Some t ->
  columns df ⊆ schema t ->
  FA_load.insert_rows name df w =
  (Ret tt,
   set_tables
     (<[name := mkTable (schema t)
                  (body t ++ map (insert_values (schema t) (columns df))
                                 (rows df))]> (tables w))
     (log Insert (log Connect w))).
Proof.
  intros Hr Ht Hsub. unfold FA_load.insert_rows.
  apply begin_ok; [apply Hr|]. rewrite execute_ok by apply Hr.
  cbn. rewrite Ht. cbn.
  now rewrite (proj2 (subcolumns_iff _ _) Hsub).
Qed.

Lemma merge_ok (name : string) (cols : list string) (t src : Table)
    (l : list (gmap string Cell)) (n : nat) (w : World) :
  (forall s, refuses w s = false) ->
  tables w !! name = Some t -> staging w = Some src ->
  cols ⊆ schema t -> cols ⊆ schema src ->
  ID ∈ schema t -> ID ∈ schema src ->
  Exists (fun c => c <> ID) cols ->
  merge_rows (schema t) cols (body src) (body t) = Some (l, n) ->
  FA_load.merge name cols w =
  (Ret (Z.of_nat n),
   set_tables (<[name := mkTable (schema t) l]> (tables w)) (log Merge w)).
Proof.
  intros Hr Ht Hs Hct Hcs Hit His Hex Hm. unfold FA_load.merge.
  rewrite execute_ok by apply Hr.
  erewrite bind_ok by (unfold FA_load.table; cbn; now rewrite Ht).
  cbn. rewrite Hs.
  rewrite !(proj2 (subcolumns_iff _ _)) by assumption.
  rewrite !bool_decide_eq_true_2 by assumption.
  rewrite set_list_nonempty by assumption. cbn. now rewrite Hm.
Qed.

Lemma split_nonempty (ids : list Z) (l : list (gmap string Cell)) :
  l <> [] ->
  (0 <? length (List.filter
                  (fun r => negb (negb (in_ids ids r))) l))%nat
  || (0 <? length (List.filter (fun r => negb (in_ids ids r)) l))%nat
  = true.
Proof.
  intros Hl. pose proof (Permutation_length (batch_split ids l)) as Hlen.
  rewrite length_app in Hlen.
  destruct l; [congruence|]. cbn [length] in Hlen.
  apply orb_true_iff. rewrite !Nat.ltb_lt. lia.
Qed.

(** The merge path on a healthy warehouse, whatever the MERGE makes of
    the rows. *)
Lemma upsert_merges (df : DataFrame) (name : string) (t : Table) (w : World)
    (l : list (gmap string Cell)) (n : nat) :
  Spec.healthy w -> Spec.stored w name t -> Spec.loadable df t ->
  merge_rows (schema t) (columns df) (Spec.staged df t) (body t)
    = Some (l, n) ->
  exists tr,
    FA_load.upsert_to_snowflake df name w =
    (Ret (true,
          Z.of_nat (length l) - Z.of_nat (length (body t)),
          Z.of_nat n - (Z.of_nat (length l) - Z.of_nat (length (body t)))),
     mkWorld (settings w) (refuses w)
             (<[name := mkTable (schema t) l]> (tables w)) None tr).
Proof.
  intros Hw Hst (Hrows & Hid & Hex & Hsub & Hkeys) Hmerge.
  pose proof Hw as [Hc Hr]. pose proof Hst as (Ht & Hids & Htk).
  unfold FA_load.upsert_to_snowflake.
  rewrite (empty_false df ID) by assumption.
  rewrite (bind_ok _ _ w w df)
    by (unfold lift; now rewrite convert_integer_keys).
  rewrite (bind_ok _ _ w w tt) by now apply connection_ok.
  unfold try_finally, try_except.
  erewrite bind_ok by now apply (count_records_ok name t).
  erewrite bind_ok.
  2:{ apply (fetch_existing_ids_ok name t); [split; [|exact Hr]|].
      - rewrite <- Hc. now apply connection_settings.
      - split; [exact Ht|auto]. }
  erewrite bind_ok by (unfold lift; now rewrite column_present).
  rewrite split_records_rows.
  unfold len, FA_load.concat, select, FA_load.isin. cbn [rows columns].
  rewrite split_nonempty by assumption.
  erewrite bind_ok by (apply (create_temp_ok name t); [exact Hr|exact Ht]).
  erewrite bind_ok.
  2:{ apply (stage_rows_ok _ (mkTable (schema t) []));
        [exact Hr|reflexivity|exact Hsub]. }
  cbn [schema body columns rows]. rewrite app_nil_l.
  rewrite <- staged_rows.
  erewrite bind_ok.
  2:{ apply begin_ok; [apply Hr|].
      erewrite bind_ok
        by (apply (select_count_ok name t); [apply Hr|exact Ht]).
      erewrite bind_ok.
      2:{ apply (merge_ok name _ t (mkTable (schema t) (Spec.staged df t)));
            try assumption; try reflexivity. exact Hmerge. }
      reflexivity. }
  cbv beta iota.
  erewrite bind_ok
    by (unfold FA_load.drop_temp; rewrite execute_ok by apply Hr;
        reflexivity).
  erewrite bind_ok.
  2:{ apply (select_count_ok name (mkTable (schema t) l));
        [apply Hr|]. cbn. apply lookup_insert_eq. }
  unfold ret. cbn [body]. eexists. reflexivity.
Qed.

(** The merge path on a healthy warehouse, for a batch with one row per
    key. *)
Lemma upsert_ok (df : DataFrame) (name : string) (t : Table) (w : World) :
  Spec.healthy w -> Spec.stored w name t -> Spec.loadable df t ->
  Spec.distinct_keys (rows df) ->
  exists tr,
    FA_load.upsert_to_snowflake df name w =
    (Ret (true,
          Z.of_nat (length (not_matched (Spec.staged df t) (body t))),
          Z.of_nat (length (List.filter (in_ids (Spec.keys (rows df)))
                                        (body t)))),
     mkWorld (settings w) (refuses w)
             (<[name := mkTable (schema t) (Spec.merged df t)]> (tables w))
             None tr).
Proof.
  intros Hw Hst Hload Hnd.
  pose proof Hst as (_ & Hids & Htk).
  pose proof Hload as (_ & Hid & _ & _ & Hkeys).
  destruct (upsert_merges df name t w _ _ Hw Hst Hload
              (merge_rows_staged df t Hids Hid Htk Hkeys Hnd)) as (tr & Hrun).
  assert (Hlen : length (Spec.merged df t) =
                 (length (body t) +
                  length (not_matched (Spec.staged df t) (body t)))%nat).
  { unfold Spec.merged. now rewrite length_app, !length_map. }
  rewrite Hlen in Hrun. exists tr. rewrite Hrun.
  apply pair_equal_spec. split; [|reflexivity].
  do 2 f_equal; [f_equal|]; lia.
Qed.

Lemma delete_rows_nil (l : list (gmap string Cell)) : delete_rows [] l = l.
Proof.
  unfold delete_rows. induction l as [|r l IH]; [reflexivity|].
  cbn. unfold in_ids at 1. destruct (key r); cbn; now rewrite IH.
Qed.

Lemma delete_rows_app (a b : list Z) (l : list (gmap string Cell)) :
  delete_rows b (delete_rows a l) = delete_rows (a ++ b) l.
Proof.
  unfold delete_rows. induction l as [|r l IH]; [reflexivity|].
  cbn. assert (H : in_ids (a ++ b) r = in_ids a r || in_ids b r).
  { unfold in_ids. destruct (key r) as [k|]; [|reflexivity].
    apply eq_true_iff_eq.
    rewrite orb_true_iff, !bool_decide_eq_true, elem_of_app. reflexivity. }
  rewrite H. destruct (in_ids a r); cbn; [assumption|].
  destruct (in_ids b r); cbn; now rewrite IH.
Qed.

Lemma delete_ok (name : string) (ids : list Z) (t : Table) (w : World) :
  (forall s, refuses w s = false) -> tables w !! name = Some t ->
  ID ∈ schema t ->
  begin (FA_load.delete name ids) w =
  (Ret (Z.of_nat (length (body t) - length (delete_rows ids (body t)))),
   set_tables (<[name := mkTable (schema t) (delete_rows ids (body t))]>
                 (tables w))
              (log Delete (log Connect w))).
Proof.
  intros Hr Ht Hid. apply begin_ok; [apply Hr|].
  unfold FA_load.delete. rewrite execute_ok by apply Hr.
  erewrite bind_ok by (unfold FA_load.table; cbn; now rewrite Ht).
  now rewrite bool_decide_eq_true_2 by assumption.
Qed.

Lemma delete_in_batches_ok (n : nat) (name : string) (size : nat) :
  (0 < size)%nat ->
  forall (ids : list Z) (acc : Z) (t : Table) (w : World),
    (forall s, refuses w s = false) -> tables w !! name = Some t ->
    ID ∈ schema t -> (length ids <= n)%nat ->
    exists c w',
      FA_load.delete_in_batches n name size ids acc w = (Ret c, w') /\
      settings w' = settings w /\ refuses w' = refuses w /\
      staging w' = staging w /\
      tables w' !! name =
        Some (mkTable (schema t) (delete_rows ids (body t))) /\
      forall x, <[name := x]> (tables w') = <[name := x]> (tables w).
Proof.
  intros Hsize. induction n as [|n IH]; intros ids acc t w Hr Ht Hid Hlen.
  - destruct ids; [|cbn in Hlen; lia]. exists acc, w. cbn.
    rewrite delete_rows_nil. destruct t. auto 10.
  - destruct ids as [|i ids].
    + exists acc, w. cbn. rewrite delete_rows_nil. destruct t. auto 10.
    + cbn [FA_load.delete_in_batches].
      erewrite bind_ok by now apply (delete_ok name _ t).
      set (t1 := mkTable (schema t) (delete_rows (take size (i :: ids)) (body t))).
      set (w1 := set_tables (<[name := t1]> (tables w))
                            (log Delete (log Connect w))).
      destruct (IH (drop size (i :: ids))
                   (acc + Z.of_nat (length (body t) - length (body t1))) t1 w1)
        as (c & w' & Hrun & Hs & Hrf & Hst & Htb & Hins).
      * exact Hr.
      * cbn. apply lookup_insert_eq.
      * exact Hid.
      * rewrite length_drop. cbn [length] in *. lia.
      * exists c, w'. split; [exact Hrun|].
        split; [exact Hs|]. split; [exact Hrf|]. split; [exact Hst|].
        split.
        -- rewrite Htb. unfold t1. cbn [schema body].
           now rewrite delete_rows_app, take_drop.
        -- intros x. rewrite Hins. apply insert_insert_eq.
Qed.

(** The delete-then-insert path on a healthy warehouse. *)
Lemma upsert_alternative_ok (df : DataFrame) (name : string) (t : Table)
    (w : World) :
  Spec.healthy w -> Spec.stored w name t -> Spec.loadable df t ->
  exists tr,
    FA_load.upsert_to_snowflake_alternative df name w =
    (Ret (true,
          Z.of_nat (length (List.filter
                      (fun r => negb (in_ids (Spec.keys (body t)) r))
                      (rows df))),
          Z.of_nat (length (List.filter
                      (fun r => negb (negb (in_ids (Spec.keys (body t)) r)))
                      (rows df)))),
     mkWorld (settings w) (refuses w)
             (<[name := mkTable (schema t) (Spec.replaced df t)]> (tables w))
             None tr).
Proof.
  intros Hw Hst (Hrows & Hid & Hex & Hsub & Hkeys).
  pose proof Hw as [Hc Hr]. pose proof Hst as (Ht & Hids & Htk).
  unfold FA_load.upsert_to_snowflake_alternative.
  rewrite (empty_false df ID) by assumption.
  rewrite (bind_ok _ _ w w df)
    by (unfold lift; now rewrite convert_integer_keys).
  rewrite (bind_ok _ _ w w tt) by now apply connection_ok.
  unfold try_finally, try_except.
  erewrite bind_ok by now apply (count_records_ok name t).
  erewrite bind_ok.
  2:{ apply (fetch_existing_ids_ok name t); [split; [|exact Hr]|].
      - rewrite <- Hc. now apply connection_settings.
      - split; [exact Ht|auto]. }
  erewrite bind_ok by (unfold lift; now rewrite column_present).
  rewrite split_records_rows.
  unfold len, FA_load.concat, select, FA_load.isin, FA_load.keys_of.
  cbn [rows columns].
  set (w0 := log SelectIds
               (log Connect (dispose (log SelectCount (log Connect w))))).
  set (U := List.filter (fun r => negb (negb (in_ids (Spec.keys (body t)) r)))
                        (rows df)).
  set (N := List.filter (fun r => negb (in_ids (Spec.keys (body t)) r))
                        (rows df)).
  assert (Hdel : exists c w',
            (if (0 <? length U)%nat
             then FA_load.delete_in_batches
                    (length (FA_load.unique (omap key U))) name 500
                    (FA_load.unique (omap key U)) 0
             else ret 0) w0 = (Ret c, w') /\
            settings w' = settings w /\ refuses w' = refuses w /\
            staging w' = None /\
            tables w' !! name =
              Some (mkTable (schema t)
                      (delete_rows (FA_load.unique (omap key U)) (body t))) /\
            forall x, <[name := x]> (tables w') = <[name := x]> (tables w)).
  { destruct (0 <? length U)%nat eqn:HU.
    - destruct (delete_in_batches_ok
                  (length (FA_load.unique (omap key U))) name 500
                  ltac:(lia) (FA_load.unique (omap key U)) 0 t w0)
        as (c & w' & Hrun & H1 & H2 & H3 & H4 & H5);
        [exact Hr|exact Ht|exact Hids|lia|].
      exists c, w'. auto 10.
    - exists 0, w0. apply Nat.ltb_ge in HU.
      assert (HUnil : U = []) by (destruct U; [reflexivity|cbn in HU; lia]).
      rewrite HUnil. cbn [omap list_omap FA_load.unique].
      rewrite delete_rows_nil. unfold ret. destruct t.
      repeat split; auto. }
  destruct Hdel as (c & w' & Hrun & Hs' & Hr' & Hsg' & Htb' & Hins').
  erewrite bind_ok by exact Hrun.
  assert (Hlen : (0 <? length (N ++ U))%nat = true).
  { apply Nat.ltb_lt.
    pose proof (Permutation_length (batch_split (Spec.keys (body t)) (rows df)))
      as Hp. fold N U in Hp. rewrite Hp.
    destruct (rows df); [congruence|cbn; lia]. }
  rewrite Hlen.
  assert (Hr'' : forall s, refuses w' s = false)
    by (intros s; rewrite Hr'; apply Hr).
  erewrite bind_ok.
  2:{ apply (insert_rows_ok name _ _ w' Hr'' Htb'). exact Hsub. }
  cbn [schema body columns rows].
  erewrite bind_ok.
  2:{ eapply count_records_ok.
      - split; [|exact Hr''].
        rewrite <- Hc. apply connection_settings. exact Hs'.
      - cbn. apply lookup_insert_eq. }
  cbn [ret]. destruct w' as [st rf tb sg tr]. cbn in *. subst.
  rewrite Hins'. eexists. reflexivity.
Qed.

(** ** The reconciler *)

Lemma keys_length (l : list (gmap string Cell)) :
  Forall Spec.integer_key l -> length (Spec.keys l) = length l.
Proof.
  induction 1 as [|r l Hr Hl IH]; [reflexivity|].
  destruct (integer_key_get r Hr) as (k & Hk & _).
  rewrite (keys_cons r l k Hk). cbn. now rewrite IH.
Qed.

Lemma remove_dups_distinct {A} `{EqDecision A} (l : list A) :
  NoDup l -> remove_dups l = l.
Proof.
  induction 1 as [|x l Hx Hl IH]; [reflexivity|].
  cbn. destruct (decide_rel elem_of x l) as [Hin|_]; [contradiction|].
  now rewrite IH.
Qed.

Lemma distinct_count (l : list (gmap string Cell)) :
  Forall Spec.integer_key l -> Spec.distinct_keys l ->
  Spec.count_distinct l = length l.
Proof.
  intros Hk Hd. unfold Spec.count_distinct.
  rewrite remove_dups_distinct by exact Hd. now apply keys_length.
Qed.

Lemma content_inserted (w : World) (name : string) (sch : list string)
    (l : list (gmap string Cell)) (tr : list Stmt) :
  Spec.content
    (mkWorld (settings w) (refuses w)
             (<[name := mkTable sch l]> (tables w)) None tr) name = Some l.
Proof. unfold Spec.content. cbn. now rewrite lookup_insert_eq. Qed.

(** C4, with the conditions the code relies on.  When the table holds
    at most one row per delivery_id and the batch names every
    delivery_id once, the merge path and the delete-then-insert path
    both succeed and leave at most one row per delivery_id:
    COUNT(DISTINCT delivery_id) = COUNT( * ). *)
Theorem reconciliation_keeps_keys_distinct (df : DataFrame)
    (name : string) (t : Table) (w : World) :
  Spec.healthy w -> Spec.stored w name t -> Spec.loadable df t ->
  Spec.distinct_keys (body t) -> Spec.distinct_keys (rows df) ->
  (exists new_count updated_count w' l,
     FA_load.upsert_to_snowflake df name w =
       (Ret (true, new_count, updated_count), w') /\
     Spec.content w' name = Some l /\
     Spec.distinct_keys l /\ Spec.count_distinct l = length l) /\
  (exists new_count updated_count w' l,
     FA_load.upsert_to_snowflake_alternative df name w =
       (Ret (true, new_count, updated_count), w') /\
     Spec.content w' name = Some l /\
     Spec.distinct_keys l /\ Spec.count_distinct l = length l).
Proof.
  intros Hw Hst Hload Hdt Hdb.
  pose proof Hst as (_ & Hids & Htk).
  pose proof Hload as (_ & Hid & _ & _ & Hbk).
  split.
  - destruct (upsert_ok df name t w Hw Hst Hload Hdb) as (tr & Hrun).
    do 4 eexists. split; [exact Hrun|].
    split; [apply content_inserted|].
    split; [now apply merged_distinct|].
    apply distinct_count;
      [now apply merged_integer_keys|now apply merged_distinct].
  - destruct (upsert_alternative_ok df name t w Hw Hst Hload) as (tr & Hrun).
    do 4 eexists. split; [exact Hrun|].
    split; [apply content_inserted|].
    split; [now apply replaced_distinct|].
    apply distinct_count;
      [now apply replaced_integer_keys|now apply replaced_distinct].
Qed.

Lemma healthy_holding (t : Table) : Spec.healthy (Sample.holding t).
Proof. split; [reflexivity|]. intros s. reflexivity. Qed.

Lemma reconciliation_keeps_keys_distinct_witness :
  Spec.healthy (Sample.holding Sample.stock) /\
  Spec.stored (Sample.holding Sample.stock) "FACT_DELIVERIES" Sample.stock /\
  Spec.loadable Sample.incoming Sample.stock /\
  Spec.distinct_keys (body Sample.stock) /\
  Spec.distinct_keys (rows Sample.incoming) /\
  (exists new_count updated_count w' l,
     FA_load.upsert_to_snowflake Sample.incoming "FACT_DELIVERIES"
                                 (Sample.holding Sample.stock) =
       (Ret (true, new_count, updated_count), w') /\
     Spec.content w' "FACT_DELIVERIES" = Some l /\
     Spec.count_distinct l = length l).
Proof.
  assert (Hw := healthy_holding Sample.stock).
  assert (Hst : Spec.stored (Sample.holding Sample.stock)
                            "FACT_DELIVERIES" Sample.stock).
  { split; [reflexivity|]. evaluate. }
  assert (Hload : Spec.loadable Sample.incoming Sample.stock).
  { split; [discriminate|]. evaluate. }
  assert (Hdt : Spec.distinct_keys (body Sample.stock)) by evaluate.
  assert (Hdb : Spec.distinct_keys (rows Sample.incoming)) by evaluate.
  repeat (split; [assumption|]).
  destruct (reconciliation_keeps_keys_distinct
              Sample.incoming "FACT_DELIVERIES" Sample.stock
              (Sample.holding Sample.stock) Hw Hst Hload Hdt Hdb)
    as [(n & u & w' & l & Hrun & Hc & _ & Hcount) _].
  exists n, u, w', l. auto.
Defined.

(** A batch that names a new delivery_id twice is merged as two inserts:
    the merge path succeeds and leaves two rows with that key. *)
Lemma repeated_key_is_inserted_twice :
  let '(result, w') :=
    FA_load.upsert_to_snowflake Sample.repeated "FACT_DELIVERIES"
                                (Sample.holding Sample.bare) in
  result = Ret (true, 2, 0) /\
  exists l, Spec.content w' "FACT_DELIVERIES" = Some l /\
            Spec.keys l = [7; 7] /\
            Spec.count_distinct l <> length l.
Proof.
  vm_compute. split; [reflexivity|]. eexists. split; [reflexivity|].
  vm_compute. split; [reflexivity|discriminate].
Qed.

Section Overwrite.

Variables (df : DataFrame) (t : Table).
Hypothesis key_stored : ID ∈ schema t.
Hypothesis key_given : ID ∈ columns df.
Hypothesis columns_stored : columns df ⊆ schema t.
Hypothesis table_keys : Forall Spec.integer_key (body t).
Hypothesis batch_keys : Forall Spec.integer_key (rows df).
Hypothesis batch_distinct : Spec.distinct_keys (rows df).

Let stage := insert_values (schema t) (columns df).

Lemma batch_key_in (b x : gmap string Cell) :
  b ∈ rows df -> key x = key b -> in_ids (Spec.keys (rows df)) x = true.
Proof.
  intros Hb Hk.
  destruct (batch_row_key df batch_keys b Hb) as (k & Hkb & _).
  apply (in_ids_iff _ x k); [congruence|]. now apply (key_elem_keys b).
Qed.

Lemma staged_values (b : gmap string Cell) (c : string) :
  c ∈ columns df -> get (stage b) c = get b c.
Proof. intros Hc. apply get_insert_values; auto. Qed.

Lemma updated_values (b t0 : gmap string Cell) (c : string) :
  b ∈ rows df -> t0 ∈ body t -> key b = key t0 -> c ∈ columns df ->
  get (update_set (schema t) (columns df) (stage b) t0) c = get b c.
Proof.
  intros Hb Ht0 Hk Hc. destruct (decide (c = ID)) as [->|Hne].
  - rewrite get_update_set_key by assumption.
    destruct (batch_row_key df batch_keys b Hb) as (k & Hkb & ->).
    destruct (table_row_key t table_keys t0 Ht0) as (k' & Hkt & ->).
    congruence.
  - rewrite get_update_set by auto. now apply staged_values.
Qed.

Lemma key_staged (b : gmap string Cell) : key (stage b) = key b.
Proof. now apply key_insert_values. Qed.

Lemma key_updated (s t0 : gmap string Cell) :
  key (update_set (schema t) (columns df) s t0) = key t0.
Proof. now apply key_update_set. Qed.

Lemma merged_reconciled : Spec.reconciled df t (Spec.merged df t).
Proof.
  pose proof (elem_merged df t key_stored key_given table_keys batch_keys
                          batch_distinct) as Helem.
  fold stage in Helem. repeat split.
  - intros (x & [Hx | [Hx | Hx]]%Helem & Hk)%elem_keys.
    + left. apply (key_elem_keys x); [apply Hx|assumption].
    + destruct Hx as (t0 & b & Ht0 & Hb & Hkb & ->).
      left. apply (key_elem_keys t0); [assumption|].
      now rewrite <- key_updated with (s := stage b).
    + destruct Hx as (b & Hb & _ & ->). right.
      apply (key_elem_keys b); [assumption|]. now rewrite <- key_staged.
  - intros Hk.
    assert (Hboth : forall t0 b, t0 ∈ body t -> b ∈ rows df ->
                      key b = key t0 -> key t0 = Some k ->
                      k ∈ Spec.keys (Spec.merged df t)).
    { intros t0 b Ht0 Hb Hkb Hkt.
      apply (key_elem_keys
               (update_set (schema t) (columns df) (stage b) t0)).
      - apply Helem. right. left. eauto 10.
      - now rewrite key_updated. }
    destruct Hk as [(t0 & Ht0 & Hkt)%elem_keys | (b & Hb & Hkb)%elem_keys].
    + destruct (in_ids (Spec.keys (rows df)) t0) eqn:Hin.
      * apply (in_ids_iff _ t0 k Hkt), elem_keys in Hin.
        destruct Hin as (b & Hb & Hkb).
        apply (Hboth t0 b); auto. congruence.
      * apply (key_elem_keys t0); [|assumption]. apply Helem. now left.
    + destruct (in_ids (Spec.keys (body t)) b) eqn:Hin.
      * apply (in_ids_iff _ b k Hkb), elem_keys in Hin.
        destruct Hin as (t0 & Ht0 & Hkt).
        apply (Hboth t0 b); auto. congruence.
      * apply (key_elem_keys (stage b)); [|now rewrite key_staged].
        apply Helem. right. right. eauto.
  - intros x b c [Hx | [Hx | Hx]]%Helem Hb Hk Hc.
    + destruct Hx as [_ Hout].
      rewrite (batch_key_in b x Hb Hk) in Hout. discriminate.
    + destruct Hx as (t0 & b' & Ht0 & Hb' & Hkb & ->).
      rewrite key_updated in Hk.
      assert (b' = b) as ->
        by (apply (distinct_keys_inj (rows df)); auto; congruence).
      now apply updated_values.
    + destruct Hx as (b' & Hb' & _ & ->). rewrite key_staged in Hk.
      assert (b' = b) as ->
        by (apply (distinct_keys_inj (rows df)); auto).
      now apply staged_values.
  - intros [Hx | [Hx | Hx]]%Helem.
    + apply Hx.
    + destruct Hx as (t0 & b & Ht0 & Hb & Hkb & ->).
      rewrite (batch_key_in b _ Hb) in H; [discriminate|].
      rewrite key_updated. congruence.
    + destruct Hx as (b & Hb & _ & ->).
      rewrite (batch_key_in b _ Hb) in H; [discriminate|].
      apply key_staged.
  - intros Hx. apply Helem. now left.
  - intros Hsub x b [Hx | [Hx | Hx]]%Helem Hb Hk.
    + destruct Hx as [_ Hout].
      rewrite (batch_key_in b x Hb Hk) in Hout. discriminate.
    + destruct Hx as (t0 & b' & Ht0 & Hb' & Hkb & ->).
      rewrite key_updated in Hk.
      assert (b' = b) as ->
        by (apply (distinct_keys_inj (rows df)); auto; congruence).
      apply update_is_insert; auto.
      * now apply (batch_row_integer df batch_keys).
      * now apply (table_row_integer t table_keys).
    + destruct Hx as (b' & Hb' & _ & ->). rewrite key_staged in Hk.
      f_equal. apply (distinct_keys_inj (rows df)); auto.
Qed.

Lemma replaced_reconciled : Spec.reconciled df t (Spec.replaced df t).
Proof.
  pose proof (elem_replaced df t table_keys) as Helem.
  fold stage in Helem. repeat split.
  - intros (x & [Hx | Hx]%Helem & Hk)%elem_keys.
    + left. apply (key_elem_keys x); [apply Hx|assumption].
    + destruct Hx as (b & Hb & ->). right.
      apply (key_elem_keys b); [assumption|]. now rewrite <- key_staged.
  - intros Hk.
    assert (Hbatch : k ∈ Spec.keys (rows df) ->
                     k ∈ Spec.keys (Spec.replaced df t)).
    { intros (b & Hb & Hkb)%elem_keys.
      apply (key_elem_keys (stage b)); [|now rewrite key_staged].
      apply Helem. right. eauto. }
    destruct Hk as [(t0 & Ht0 & Hkt)%elem_keys | Hk]; [|auto].
    destruct (in_ids (Spec.keys (rows df)) t0) eqn:Hin.
    + apply Hbatch. now apply (in_ids_iff _ t0 k Hkt).
    + apply (key_elem_keys t0); [|assumption]. apply Helem. now left.
  - intros x b c [Hx | Hx]%Helem Hb Hk Hc.
    + destruct Hx as [_ Hout].
      rewrite (batch_key_in b x Hb Hk) in Hout. discriminate.
    + destruct Hx as (b' & Hb' & ->). rewrite key_staged in Hk.
      assert (b' = b) as ->
        by (apply (distinct_keys_inj (rows df)); auto).
      now apply staged_values.
  - intros [Hx | Hx]%Helem.
    + apply Hx.
    + destruct Hx as (b & Hb & ->).
      rewrite (batch_key_in b _ Hb) in H; [discriminate|].
      apply key_staged.
  - intros Hx. apply Helem. now left.
  - intros Hsub x b [Hx | Hx]%Helem Hb Hk.
    + destruct Hx as [_ Hout].
      rewrite (batch_key_in b x Hb Hk) in Hout. discriminate.
    + destruct Hx as (b' & Hb' & ->). rewrite key_staged in Hk.
      f_equal. apply (distinct_keys_inj (rows df)); auto.
Qed.

End Overwrite.

Lemma split_records_classifies (ids : list Z) (df : DataFrame)
    (r : gmap string Cell) :
  Forall Spec.integer_key (rows df) ->
  (r ∈ rows (FA_load.split_records ids df).1 <->
   r ∈ rows df /\ exists k, key r = Some k /\ k ∉ ids) /\
  (r ∈ rows (FA_load.split_records ids df).2 <->
   r ∈ rows df /\ exists k, key r = Some k /\ k ∈ ids).
Proof.
  intros Hk. rewrite split_records_rows. cbn.
  rewrite !list_elem_of_In, !List.filter_In, <- !list_elem_of_In.
  unfold FA_load.isin.
  split; split.
  - intros [Hr Hout]. split; [assumption|].
    destruct (batch_row_key df Hk r Hr) as (k & Hkr & _).
    exists k. split; [assumption|].
    apply negb_true_iff in Hout. now apply (in_ids_false ids r k).
  - intros [Hr (k & Hkr & Hout)]. split; [assumption|].
    apply negb_true_iff. now apply (in_ids_false ids r k).
  - intros [Hr Hin]. split; [assumption|].
    destruct (batch_row_key df Hk r Hr) as (k & Hkr & _).
    exists k. split; [assumption|].
    rewrite negb_involutive in Hin. now apply (in_ids_iff ids r k).
  - intros [Hr (k & Hkr & Hin)]. split; [assumption|].
    rewrite negb_involutive. now apply (in_ids_iff ids r k).
Qed.

(** X27.  What either path leaves.  On a warehouse that is configured
    and turns no statement down, take a stored table with the
    DELIVERY_ID column and integer keys without null, and a batch that
    has rows, integer keys without null that it names once each, columns
    that are all columns of the table, and at least one column besides
    the key.  Against the keys E of the table, the batch rows with a key
    outside E are the new records and those with a key in E the records
    to update.  Either path succeeds and leaves a table whose keys are E
    and the batch's keys, where a row whose key is in the batch holds
    the batch's value in every column of the batch (the whole row is the
    batch's when the batch has all the columns of the table) and the
    other rows are untouched. *)
Theorem reconciler_partitions_and_overwrites (df : DataFrame)
    (name : string) (t : Table) (w : World) :
  Spec.healthy w -> Spec.stored w name t -> Spec.loadable df t ->
  Spec.distinct_keys (rows df) ->
  (forall r,
     (r ∈ rows (FA_load.split_records (Spec.keys (body t)) df).1 <->
      r ∈ rows df /\ exists k, key r = Some k /\ k ∉ Spec.keys (body t)) /\
     (r ∈ rows (FA_load.split_records (Spec.keys (body t)) df).2 <->
      r ∈ rows df /\ exists k, key r = Some k /\ k ∈ Spec.keys (body t))) /\
  (exists new_count updated_count w' l,
     FA_load.upsert_to_snowflake df name w =
       (Ret (true, new_count, updated_count), w') /\
     Spec.content w' name = Some l /\ Spec.reconciled df t l) /\
  (exists new_count updated_count w' l,
     FA_load.upsert_to_snowflake_alternative df name w =
       (Ret (true, new_count, updated_count), w') /\
     Spec.content w' name = Some l /\ Spec.reconciled df t l).
Proof.
  intros Hw Hst Hload Hdb.
  pose proof Hst as (_ & Hids & Htk).
  pose proof Hload as (_ & Hid & _ & Hsub & Hbk).
  split; [intros r; now apply split_records_classifies|]. split.
  - destruct (upsert_ok df name t w Hw Hst Hload Hdb) as (tr & Hrun).
    do 4 eexists. split; [exact Hrun|].
    split; [apply content_inserted|]. now apply merged_reconciled.
  - destruct (upsert_alternative_ok df name t w Hw Hst Hload) as (tr & Hrun).
    do 4 eexists. split; [exact Hrun|].
    split; [apply content_inserted|]. now apply replaced_reconciled.
Qed.

Lemma stored_stock :
  Spec.stored (Sample.holding Sample.stock) "FACT_DELIVERIES" Sample.stock.
Proof. split; [reflexivity|]. evaluate. Qed.

Lemma loadable_incoming : Spec.loadable Sample.incoming Sample.stock.
Proof. split; [discriminate|]. evaluate. Qed.

Lemma reconciler_partitions_and_overwrites_witness :
  Spec.healthy (Sample.holding Sample.stock) /\
  Spec.stored (Sample.holding Sample.stock) "FACT_DELIVERIES" Sample.stock /\
  Spec.loadable Sample.incoming Sample.stock /\
  Spec.distinct_keys (rows Sample.incoming) /\
  Spec.keys (body Sample.stock) = [1; 2; 3] /\
  Spec.keys (rows Sample.incoming) = [2; 3; 4; 5] /\
  Spec.keys (rows (FA_load.split_records (Spec.keys (body Sample.stock))
                                         Sample.incoming).1) = [4; 5] /\
  Spec.keys (rows (FA_load.split_records (Spec.keys (body Sample.stock))
                                         Sample.incoming).2) = [2; 3] /\
  exists new_count updated_count w' l,
    FA_load.upsert_to_snowflake Sample.incoming "FACT_DELIVERIES"
                                (Sample.holding Sample.stock) =
      (Ret (true, new_count, updated_count), w') /\
    Spec.content w' "FACT_DELIVERIES" = Some l /\
    Spec.keys l = [1; 2; 3; 4; 5] /\
    Spec.reconciled Sample.incoming Sample.stock l.
Proof.
  assert (Hw := healthy_holding Sample.stock).
  assert (Hst := stored_stock).
  assert (Hload := loadable_incoming).
  assert (Hdb : Spec.distinct_keys (rows Sample.incoming)) by evaluate.
  repeat (split; [assumption || reflexivity|]).
  destruct (reconciler_partitions_and_overwrites
              Sample.incoming "FACT_DELIVERIES" Sample.stock
              (Sample.holding Sample.stock) Hw Hst Hload Hdb)
    as (_ & (n & u & w' & l & Hrun & Hc & Hrec) & _).
  assert (Hkeys : Spec.keys <$>
                    Spec.content
                      (FA_load.upsert_to_snowflake
                         Sample.incoming "FACT_DELIVERIES"
                         (Sample.holding Sample.stock)).2 "FACT_DELIVERIES"
                  = Some [1; 2; 3; 4; 5]) by (vm_compute; reflexivity).
  rewrite Hrun in Hkeys. cbn [snd] in Hkeys. rewrite Hc in Hkeys.
  injection Hkeys as Hkeys.
  exists n, u, w', l. auto.
Defined.

(** C3.  A column of the table that the batch does not have keeps its
    stored value in the merge, whose UPDATE SET lists the columns of the
    batch: the row with the batch's key is updated in part, not
    replaced.  On the same table the delete-then-insert path replaces
    the row, and leaves null in that column. *)
Lemma merge_keeps_columns_outside_batch :
  let w0 := Sample.holding Sample.wide in
  let merge := FA_load.upsert_to_snowflake Sample.single
                                           "FACT_DELIVERIES" w0 in
  let fallback := FA_load.upsert_to_snowflake_alternative
                    Sample.single "FACT_DELIVERIES" w0 in
  let stored w :=
    map (fun x => (get x "DELIVERY_ID", get x "DELIVERY_STATUS",
                   get x "TRIP_STATUS"))
      <$> Spec.content w "FACT_DELIVERIES" in
  stored w0 = Some [(Num 1, Str "pending", Str "completed")] /\
  columns Sample.single = ["DELIVERY_ID"; "DELIVERY_STATUS"] /\
  merge.1 = Ret (true, 0, 1) /\
  stored merge.2 = Some [(Num 1, Str "delivered", Str "completed")] /\
  fallback.1 = Ret (true, 0, 1) /\
  stored fallback.2 = Some [(Num 1, Str "delivered", NA)].
Proof.
  cbv zeta.
  split; [vm_compute; reflexivity|].
  split; [reflexivity|].
  split; [vm_compute; reflexivity|].
  split; [vm_compute; reflexivity|].
  split; vm_compute; reflexivity.
Qed.

Lemma filter_all {A} (f : A -> bool) (l : list A) :
  (forall x, x ∈ l -> f x = true) -> List.filter f l = l.
Proof.
  induction l as [|a l IH]; intros H; [reflexivity|].
  cbn. rewrite H by apply list_elem_of_here. f_equal. apply IH.
  intros x Hx. apply H. now apply list_elem_of_further.
Qed.

Lemma filter_none {A} (f : A -> bool) (l : list A) :
  (forall x, x ∈ l -> f x = false) -> List.filter f l = [].
Proof.
  induction l as [|a l IH]; intros H; [reflexivity|].
  cbn. rewrite H by apply list_elem_of_here. apply IH.
  intros x Hx. apply H. now apply list_elem_of_further.
Qed.

Lemma map_unchanged {A} (g : A -> A) (l : list A) :
  (forall x, x ∈ l -> g x = x) -> map g l = l.
Proof.
  induction l as [|a l IH]; intros H; [reflexivity|].
  cbn. rewrite H by apply list_elem_of_here. f_equal. apply IH.
  intros x Hx. apply H. now apply list_elem_of_further.
Qed.

(** When every key of the batch is in the table, and keys are distinct
    on both sides, the rows matched are as many as the batch's. *)
Lemma matched_count (tgt src : list (gmap string Cell)) :
  Forall Spec.integer_key tgt -> Spec.distinct_keys tgt ->
  Forall Spec.integer_key src -> Spec.distinct_keys src ->
  (forall k, k ∈ Spec.keys src -> k ∈ Spec.keys tgt) ->
  length (List.filter (in_ids (Spec.keys src)) tgt) = length src.
Proof.
  intros Ht Hdt Hs Hds Hsub.
  rewrite <- (keys_length (List.filter _ tgt))
    by now apply Forall_filter_preserved.
  rewrite <- (keys_length src) by assumption.
  apply Permutation_length, NoDup_Permutation;
    [now apply distinct_filter|assumption|].
  intros k. split.
  - intros (r & _ & Hin & Hk)%filtered_key. now apply (in_ids_iff _ r k).
  - intros Hk. destruct (proj1 (elem_keys _ _) (Hsub k Hk)) as (r & Hr & Hkr).
    apply (key_elem_keys r); [|assumption].
    apply list_elem_of_In, List.filter_In.
    split; [now apply list_elem_of_In|]. now apply (in_ids_iff _ r k).
Qed.

Lemma update_set_idem (sch cols : list string) (s t0 : gmap string Cell) :
  update_set sch cols s (update_set sch cols s t0) =
  update_set sch cols s t0.
Proof.
  unfold update_set at 1 3. apply tabulate_ext. intros c Hc.
  destruct (bool_decide (c ∈ cols) && negb (String.eqb c ID)) eqn:Hupd;
    [reflexivity|].
  unfold update_set. rewrite get_tabulate.
  now rewrite bool_decide_eq_true_2, Hupd by assumption.
Qed.

Lemma update_set_staged (sch cols : list string) (b : gmap string Cell) :
  update_set sch cols (insert_values sch cols b) (insert_values sch cols b) =
  insert_values sch cols b.
Proof.
  unfold update_set, insert_values at 3. apply tabulate_ext. intros c Hc.
  replace (if bool_decide (c ∈ cols) && negb (String.eqb c ID)
           then get (insert_values sch cols b) c
           else get (insert_values sch cols b) c)
    with (get (insert_values sch cols b) c) by now destruct (_ && _).
  unfold insert_values. rewrite get_tabulate.
  now rewrite bool_decide_eq_true_2 by assumption.
Qed.

Section Again.

Variables (df : DataFrame) (t : Table).
Hypothesis key_stored : ID ∈ schema t.
Hypothesis key_given : ID ∈ columns df.
Hypothesis columns_stored : columns df ⊆ schema t.
Hypothesis table_keys : Forall Spec.integer_key (body t).
Hypothesis batch_keys : Forall Spec.integer_key (rows df).
Hypothesis table_distinct : Spec.distinct_keys (body t).
Hypothesis batch_distinct : Spec.distinct_keys (rows df).

Let stage := insert_values (schema t) (columns df).

(** The table after the merge path, and after the other path. *)
Let t1 := mkTable (schema t) (Spec.merged df t).
Let t2 := mkTable (schema t) (Spec.replaced df t).

Lemma batch_keys_merged (k : Z) :
  k ∈ Spec.keys (rows df) -> k ∈ Spec.keys (Spec.merged df t).
Proof.
  intros Hk.
  apply (merged_reconciled df t key_stored key_given columns_stored
                           table_keys batch_keys batch_distinct). auto.
Qed.

Lemma batch_keys_replaced (k : Z) :
  k ∈ Spec.keys (rows df) -> k ∈ Spec.keys (Spec.replaced df t).
Proof.
  intros Hk.
  apply (replaced_reconciled df t key_stored key_given columns_stored
                             table_keys batch_keys batch_distinct). auto.
Qed.

Lemma merged_again : Spec.merged df t1 = Spec.merged df t.
Proof.
  assert (Hk1 : Forall Spec.integer_key (body t1))
    by now apply merged_integer_keys.
  unfold Spec.merged at 1.
  rewrite not_matched_filter;
    [|now apply (staged_integer_keys df t1)|assumption].
  rewrite (filter_none _ (Spec.staged df t1)).
  - cbn [map]. rewrite app_nil_r. apply map_unchanged. intros x Hx.
    destruct (merged_row_cases df t1 key_stored key_given Hk1 batch_keys
                               batch_distinct x Hx)
      as [[_ Heq] | (b & Hb & Hkb & Heq)]; [exact Heq|].
    rewrite Heq. cbn [schema t1].
    apply (elem_merged df t key_stored key_given table_keys batch_keys
                       batch_distinct) in Hx.
    destruct Hx as [[_ Hout] | [(t0 & b' & Ht0 & Hb' & Hkb' & ->)
                               | (b' & Hb' & _ & ->)]].
    + rewrite (batch_key_in df batch_keys b x Hb) in Hout by congruence.
      discriminate.
    + rewrite key_update_set in Hkb by assumption.
      assert (b' = b) as ->
        by (apply (distinct_keys_inj (rows df)); auto; congruence).
      apply update_set_idem.
    + rewrite key_insert_values in Hkb by assumption.
      assert (b' = b) as ->
        by (apply (distinct_keys_inj (rows df)); auto).
      apply update_set_staged.
  - intros s (b & Hb & ->)%elem_staged. apply negb_false_iff.
    destruct (batch_row_key df batch_keys b Hb) as (k & Hk & _).
    apply (in_ids_iff _ _ k).
    + cbn [schema t1]. now rewrite key_insert_values.
    + apply batch_keys_merged. now apply (key_elem_keys b).
Qed.

Lemma merged_again_counts :
  length (not_matched (Spec.staged df t1) (body t1)) = 0%nat /\
  length (List.filter (in_ids (Spec.keys (rows df))) (body t1)) = len df.
Proof.
  assert (Hk1 : Forall Spec.integer_key (body t1))
    by now apply merged_integer_keys.
  split.
  - rewrite not_matched_filter;
      [|now apply (staged_integer_keys df t1)|assumption].
    rewrite filter_none; [reflexivity|].
    intros s (b & Hb & ->)%elem_staged. apply negb_false_iff.
    destruct (batch_row_key df batch_keys b Hb) as (k & Hk & _).
    apply (in_ids_iff _ _ k).
    + cbn [schema t1]. now rewrite key_insert_values.
    + apply batch_keys_merged. now apply (key_elem_keys b).
  - apply matched_count; auto.
    + now apply merged_distinct.
    + apply batch_keys_merged.
Qed.

Lemma replaced_again_counts :
  length (List.filter (fun r => negb (in_ids (Spec.keys (body t2)) r))
                      (rows df)) = 0%nat /\
  length (List.filter
            (fun r => negb (negb (in_ids (Spec.keys (body t2)) r)))
            (rows df)) = len df.
Proof.
  assert (Hin : forall b, b ∈ rows df ->
                  in_ids (Spec.keys (body t2)) b = true).
  { intros b Hb. destruct (batch_row_key df batch_keys b Hb) as (k & Hk & _).
    apply (in_ids_iff _ b k Hk). apply batch_keys_replaced.
    now apply (key_elem_keys b). }
  split.
  - rewrite filter_none; [reflexivity|].
    intros b Hb. now rewrite Hin.
  - rewrite filter_all; [reflexivity|].
    intros b Hb. now rewrite Hin.
Qed.

Lemma replaced_again : Spec.replaced df t2 ≡ₚ Spec.replaced df t.
Proof.
  assert (Hk2 : Forall Spec.integer_key (body t2))
    by now apply replaced_integer_keys.
  assert (Hd2 : Spec.distinct_keys (body t2))
    by now apply replaced_distinct.
  apply NoDup_Permutation.
  - apply distinct_rows.
    + now apply (replaced_integer_keys df t2).
    + now apply (replaced_distinct df t2).
  - now apply distinct_rows.
  - intros x.
    rewrite (elem_replaced df t2 Hk2 x), (elem_replaced df t table_keys x).
    cbn [body schema t2].
    rewrite (elem_replaced df t table_keys x). tauto.
Qed.

End Again.

Lemma healthy_evolved (w : World) (tb : gmap string Table)
    (sg : option Table) (tr : list Stmt) :
  Spec.healthy w -> Spec.healthy (mkWorld (settings w) (refuses w) tb sg tr).
Proof.
  intros [Hc Hr]. split; [|exact Hr].
  rewrite <- Hc. now apply connection_settings.
Qed.

Lemma stored_inserted (w : World) (name : string) (sch : list string)
    (l : list (gmap string Cell)) (sg : option Table) (tr : list Stmt) :
  ID ∈ sch -> Forall Spec.integer_key l ->
  Spec.stored (mkWorld (settings w) (refuses w)
                       (<[name := mkTable sch l]> (tables w)) sg tr)
              name (mkTable sch l).
Proof.
  intros Hid Hk. split; [cbn; apply lookup_insert_eq|]. split; assumption.
Qed.

(** X25.  Reconciling the same batch again.  On a warehouse that is
    configured and turns no statement down, take a stored table with the
    DELIVERY_ID column, integer keys without null and at most one row
    per key, and a batch that has rows, integer keys without null that
    it names once each, columns that are all columns of the table, and
    at least one column besides the key.  After one reconciliation of
    the batch, reconciling it again succeeds with new_count = 0 and
    updated_count = len(batch); the merge path leaves every table as it
    was, the delete-then-insert path leaves the same rows in the
    table, up to their order. *)
Theorem reconciliation_is_idempotent (df : DataFrame) (name : string)
    (t : Table) (w : World) :
  Spec.healthy w -> Spec.stored w name t -> Spec.loadable df t ->
  Spec.distinct_keys (body t) -> Spec.distinct_keys (rows df) ->
  (exists new_count updated_count w1 w2,
     FA_load.upsert_to_snowflake df name w =
       (Ret (true, new_count, updated_count), w1) /\
     FA_load.upsert_to_snowflake df name w1 =
       (Ret (true, 0, Z.of_nat (len df)), w2) /\
     tables w2 = tables w1) /\
  (exists new_count updated_count w1 w2 l1 l2,
     FA_load.upsert_to_snowflake_alternative df name w =
       (Ret (true, new_count, updated_count), w1) /\
     FA_load.upsert_to_snowflake_alternative df name w1 =
       (Ret (true, 0, Z.of_nat (len df)), w2) /\
     Spec.content w1 name = Some l1 /\
     Spec.content w2 name = Some l2 /\
     l1 ≡ₚ l2).
Proof.
  intros Hw Hst Hload Hdt Hdb.
  pose proof Hst as (_ & Hids & Htk).
  pose proof Hload as (Hrows & Hid & Hex & Hsub & Hbk).
  split.
  - destruct (upsert_ok df name t w Hw Hst Hload Hdb) as (tr & Hrun).
    set (t1 := mkTable (schema t) (Spec.merged df t)).
    set (w1 := mkWorld (settings w) (refuses w) (<[name := t1]> (tables w))
                       None tr) in *.
    assert (Hk1 : Forall Spec.integer_key (Spec.merged df t))
      by now apply merged_integer_keys.
    destruct (upsert_ok df name t1 w1) as (tr2 & Hrun2).
    + now apply healthy_evolved.
    + now apply stored_inserted.
    + repeat split; assumption.
    + assumption.
    + destruct (merged_again_counts df t) as [Hnew Hupd]; auto.
      fold t1 in Hnew, Hupd. rewrite Hnew, Hupd in Hrun2.
      do 4 eexists. split; [exact Hrun|]. split; [exact Hrun2|].
      cbn [tables w1 schema t1]. unfold t1.
      rewrite merged_again by auto. apply insert_insert_eq.
  - destruct (upsert_alternative_ok df name t w Hw Hst Hload) as (tr & Hrun).
    set (t2 := mkTable (schema t) (Spec.replaced df t)).
    set (w1 := mkWorld (settings w) (refuses w) (<[name := t2]> (tables w))
                       None tr) in *.
    assert (Hk2 : Forall Spec.integer_key (Spec.replaced df t))
      by now apply replaced_integer_keys.
    destruct (upsert_alternative_ok df name t2 w1) as (tr2 & Hrun2).
    + now apply healthy_evolved.
    + now apply stored_inserted.
    + repeat split; assumption.
    + destruct (replaced_again_counts df t) as [Hnew Hupd]; auto.
      fold t2 in Hnew, Hupd. rewrite Hnew, Hupd in Hrun2.
      do 6 eexists. split; [exact Hrun|]. split; [exact Hrun2|].
      split; [apply content_inserted|].
      split; [apply (content_inserted w1)|].
      symmetry. cbn [schema t2]. now apply replaced_again.
Qed.

Lemma reconciliation_is_idempotent_witness :
  Spec.healthy (Sample.holding Sample.stock) /\
  Spec.stored (Sample.holding Sample.stock) "FACT_DELIVERIES" Sample.stock /\
  Spec.loadable Sample.incoming Sample.stock /\
  Spec.distinct_keys (body Sample.stock) /\
  Spec.distinct_keys (rows Sample.incoming) /\
  exists new_count updated_count w1 w2,
    FA_load.upsert_to_snowflake Sample.incoming "FACT_DELIVERIES"
                                (Sample.holding Sample.stock) =
      (Ret (true, new_count, updated_count), w1) /\
    FA_load.upsert_to_snowflake Sample.incoming "FACT_DELIVERIES" w1 =
      (Ret (true, 0, 4), w2) /\
    tables w2 = tables w1.
Proof.
  assert (Hw := healthy_holding Sample.stock).
  assert (Hst := stored_stock).
  assert (Hload := loadable_incoming).
  assert (Hdt : Spec.distinct_keys (body Sample.stock)) by evaluate.
  assert (Hdb : Spec.distinct_keys (rows Sample.incoming)) by evaluate.
  repeat (split; [assumption|]).
  destruct (reconciliation_is_idempotent
              Sample.incoming "FACT_DELIVERIES" Sample.stock
              (Sample.holding Sample.stock) Hw Hst Hload Hdt Hdb)
    as [(n & u & w1 & w2 & Hrun1 & Hrun2 & Htables) _].
  exists n, u, w1, w2. auto.
Defined.

(** C1.  On a table that holds delivery_id 1 twice, a batch of one row
    with that key is reconciled by the merge path with updated_count =
    2, on the first run and on the second: the count is taken from the
    row count of the MERGE, which counts rows of the table, and both
    rows stay.  On the same table the delete-then-insert path reports
    updated_count = 1 = len(batch) on both runs, and leaves one row. *)
Lemma duplicate_in_table_is_counted_twice :
  let merge w := FA_load.upsert_to_snowflake Sample.single
                                             "FACT_DELIVERIES" w in
  let fallback w := FA_load.upsert_to_snowflake_alternative
                      Sample.single "FACT_DELIVERIES" w in
  let stored w := length <$> Spec.content w "FACT_DELIVERIES" in
  let w0 := Sample.holding Sample.doubled in
  Spec.distinct_keys (rows Sample.single) /\
  Spec.keys (body Sample.doubled) = [1; 1] /\
  Z.of_nat (len Sample.single) = 1 /\
  (merge w0).1 = Ret (true, 0, 2) /\
  (merge (merge w0).2).1 = Ret (true, 0, 2) /\
  stored (merge w0).2 = Some 2%nat /\
  (fallback w0).1 = Ret (true, 0, 1) /\
  (fallback (fallback w0).2).1 = Ret (true, 0, 1) /\
  stored (fallback w0).2 = Some 1%nat.
Proof.
  cbv zeta.
  split; [vm_compute; apply NoDup_singleton|].
  split; [vm_compute; reflexivity|].
  split; [reflexivity|].
  split; [vm_compute; reflexivity|].
  split; [vm_compute; reflexivity|].
  split; [vm_compute; reflexivity|].
  split; [vm_compute; reflexivity|].
  split; vm_compute; reflexivity.
Qed.

Section Agreement.

Variables (df : DataFrame) (t : Table).
Hypothesis key_stored : ID ∈ schema t.
Hypothesis key_given : ID ∈ columns df.
Hypothesis columns_stored : columns df ⊆ schema t.
Hypothesis columns_given : schema t ⊆ columns df.
Hypothesis table_keys : Forall Spec.integer_key (body t).
Hypothesis batch_keys : Forall Spec.integer_key (rows df).
Hypothesis table_distinct : Spec.distinct_keys (body t).
Hypothesis batch_distinct : Spec.distinct_keys (rows df).

(** With the same columns on both sides and distinct keys, the two
    paths leave the same rows. *)
Lemma merged_is_replaced : Spec.merged df t ≡ₚ Spec.replaced df t.
Proof.
  apply NoDup_Permutation.
  - apply distinct_rows;
      [now apply merged_integer_keys|now apply merged_distinct].
  - apply distinct_rows;
      [now apply replaced_integer_keys|now apply replaced_distinct].
  - intros x.
    rewrite (elem_merged df t key_stored key_given table_keys batch_keys
                         batch_distinct x),
            (elem_replaced df t table_keys x).
    apply or_iff_compat_l. split.
    + intros [(t0 & b & Ht0 & Hb & Hk & ->) | (b & Hb & _ & ->)].
      * exists b. split; [assumption|]. apply update_is_insert; auto.
        -- now apply (batch_row_integer df batch_keys).
        -- now apply (table_row_integer t table_keys).
      * eauto.
    + intros (b & Hb & ->).
      destruct (in_ids (Spec.keys (body t)) b) eqn:Hin; [|right; eauto].
      left. destruct (batch_row_key df batch_keys b Hb) as (k & Hk & _).
      apply (in_ids_iff _ b k Hk), elem_keys in Hin.
      destruct Hin as (t0 & Ht0 & Hkt). exists t0, b.
      repeat split; try assumption; [congruence|].
      symmetry. apply update_is_insert; auto.
      * now apply (batch_row_integer df batch_keys).
      * now apply (table_row_integer t table_keys).
      * congruence.
Qed.

End Agreement.

(** X26.  Where the two paths agree.  On a warehouse that is configured
    and turns no statement down, take a stored table with the
    DELIVERY_ID column, integer keys without null and at most one row
    per key, and a batch that has rows, integer keys without null that
    it names once each, exactly the columns of the table, and at least
    one column besides the key.  Run from the same state, the merge path
    and the delete-then-insert path both succeed and leave the same rows
    in the table, up to their order; a row whose key is in the batch is
    the batch's row, and the rows whose key is not in the batch are
    those of before. *)
Theorem merge_and_fallback_agree (df : DataFrame) (name : string)
    (t : Table) (w : World) :
  Spec.healthy w -> Spec.stored w name t -> Spec.loadable df t ->
  Spec.distinct_keys (body t) -> Spec.distinct_keys (rows df) ->
  schema t ⊆ columns df ->
  exists new_count updated_count w1 l1 new_count' updated_count' w2 l2,
    FA_load.upsert_to_snowflake df name w =
      (Ret (true, new_count, updated_count), w1) /\
    FA_load.upsert_to_snowflake_alternative df name w =
      (Ret (true, new_count', updated_count'), w2) /\
    Spec.content w1 name = Some l1 /\
    Spec.content w2 name = Some l2 /\
    l1 ≡ₚ l2 /\
    (forall x b, x ∈ l1 -> b ∈ rows df -> key x = key b ->
                 x = insert_values (schema t) (columns df) b) /\
    (forall x, in_ids (Spec.keys (rows df)) x = false ->
               (x ∈ l1 <-> x ∈ body t)).
Proof.
  intros Hw Hst Hload Hdt Hdb Hall.
  pose proof Hst as (_ & Hids & Htk).
  pose proof Hload as (Hrows & Hid & Hex & Hsub & Hbk).
  destruct (upsert_ok df name t w Hw Hst Hload Hdb) as (tr & Hrun).
  destruct (upsert_alternative_ok df name t w Hw Hst Hload) as (tr' & Hrun').
  destruct (merged_reconciled df t Hids Hid Hsub Htk Hbk Hdb)
    as (_ & _ & Hother & Hfull).
  do 8 eexists. split; [exact Hrun|]. split; [exact Hrun'|].
  split; [apply content_inserted|]. split; [apply content_inserted|].
  split; [now apply merged_is_replaced|]. split; [now apply Hfull|].
  exact Hother.
Qed.

Lemma merge_and_fallback_agree_witness :
  Spec.healthy (Sample.holding Sample.stock) /\
  Spec.stored (Sample.holding Sample.stock) "FACT_DELIVERIES" Sample.stock /\
  Spec.loadable Sample.incoming Sample.stock /\
  Spec.distinct_keys (body Sample.stock) /\
  Spec.distinct_keys (rows Sample.incoming) /\
  schema Sample.stock ⊆ columns Sample.incoming /\
  exists w1 l1 w2 l2,
    (FA_load.upsert_to_snowflake Sample.incoming "FACT_DELIVERIES"
                                 (Sample.holding Sample.stock)).2 = w1 /\
    (FA_load.upsert_to_snowflake_alternative
       Sample.incoming "FACT_DELIVERIES" (Sample.holding Sample.stock)).2
      = w2 /\
    Spec.content w1 "FACT_DELIVERIES" = Some l1 /\
    Spec.content w2 "FACT_DELIVERIES" = Some l2 /\
    l1 ≡ₚ l2.
Proof.
  assert (Hw := healthy_holding Sample.stock).
  assert (Hst := stored_stock).
  assert (Hload := loadable_incoming).
  assert (Hdt : Spec.distinct_keys (body Sample.stock)) by evaluate.
  assert (Hdb : Spec.distinct_keys (rows Sample.incoming)) by evaluate.
  assert (Hall : schema Sample.stock ⊆ columns Sample.incoming)
    by evaluate.
  repeat (split; [assumption|]).
  destruct (merge_and_fallback_agree
              Sample.incoming "FACT_DELIVERIES" Sample.stock
              (Sample.holding Sample.stock) Hw Hst Hload Hdt Hdb Hall)
    as (n & u & w1 & l1 & n' & u' & w2 & l2 & Hrun & Hrun' & Hc & Hc'
        & Hperm & _).
  exists w1, l1, w2, l2. rewrite Hrun, Hrun'. auto.
Defined.

(** C2.  The two paths part ways on a table that holds a key twice (the
    merge updates both rows, the other path deletes both and inserts
    one) and on a table with a column the batch does not have (the merge
    keeps its value, the other path leaves it null): run from the same
    state, both succeed and the tables they leave are not the same
    multiset of rows. *)
Lemma merge_and_fallback_differ :
  (let w1 := (FA_load.upsert_to_snowflake
                Sample.single "FACT_DELIVERIES"
                (Sample.holding Sample.doubled)).2 in
   let w2 := (FA_load.upsert_to_snowflake_alternative
                Sample.single "FACT_DELIVERIES"
                (Sample.holding Sample.doubled)).2 in
   length <$> Spec.content w1 "FACT_DELIVERIES" = Some 2%nat /\
   length <$> Spec.content w2 "FACT_DELIVERIES" = Some 1%nat /\
   forall l1 l2, Spec.content w1 "FACT_DELIVERIES" = Some l1 ->
                 Spec.content w2 "FACT_DELIVERIES" = Some l2 ->
                 ~ l1 ≡ₚ l2) /\
  (let w1 := (FA_load.upsert_to_snowflake
                Sample.single "FACT_DELIVERIES"
                (Sample.holding Sample.wide)).2 in
   let w2 := (FA_load.upsert_to_snowflake_alternative
                Sample.single "FACT_DELIVERIES"
                (Sample.holding Sample.wide)).2 in
   let trip_status := map (fun x => get x "TRIP_STATUS") in
   trip_status <$> Spec.content w1 "FACT_DELIVERIES"
     = Some [Str "completed"] /\
   trip_status <$> Spec.content w2 "FACT_DELIVERIES" = Some [NA] /\
   forall l1 l2, Spec.content w1 "FACT_DELIVERIES" = Some l1 ->
                 Spec.content w2 "FACT_DELIVERIES" = Some l2 ->
                 ~ l1 ≡ₚ l2).
Proof.
  split.
  - intros w1 w2.
    assert (H1 : length <$> Spec.content w1 "FACT_DELIVERIES" = Some 2%nat)
      by (vm_compute; reflexivity).
    assert (H2 : length <$> Spec.content w2 "FACT_DELIVERIES" = Some 1%nat)
      by (vm_compute; reflexivity).
    repeat split; try assumption.
    intros l1 l2 Hl1 Hl2 Hp%Permutation_length.
    rewrite Hl1 in H1. rewrite Hl2 in H2. cbn in H1, H2. congruence.
  - intros w1 w2 trip_status.
    assert (H1 : trip_status <$> Spec.content w1 "FACT_DELIVERIES"
                 = Some [Str "completed"]) by (vm_compute; reflexivity).
    assert (H2 : trip_status <$> Spec.content w2 "FACT_DELIVERIES"
                 = Some [NA]) by (vm_compute; reflexivity).
    repeat split; try assumption.
    intros l1 l2 Hl1 Hl2 Hp.
    apply (Permutation_map (fun x => get x "TRIP_STATUS")) in Hp.
    rewrite Hl1 in H1. rewrite Hl2 in H2. cbn in H1, H2.
    injection H1 as H1. injection H2 as H2. unfold trip_status in H1, H2.
    rewrite H1, H2 in Hp. apply Permutation_singleton_r in Hp.
    discriminate.
Qed.

(** ** Failures *)

Section Keeps.

Context {S : Type} (R : S -> S -> Prop) `{!PreOrder R}.

Lemma keeps_ret {A} (a : A) : Spec.keeps R (ret a).
Proof. intros s o s' [= _ <-]. reflexivity. Qed.

Lemma keeps_raise {A} (e : Exn) : Spec.keeps R (raise (A := A) e).
Proof. intros s o s' [= _ <-]. reflexivity. Qed.

Lemma keeps_lift {A} (x : outcome A) : Spec.keeps R (lift x).
Proof. intros s o s' [= _ <-]. reflexivity. Qed.

Lemma keeps_bind {A B} (m : St S A) (k : A -> St S B) :
  Spec.keeps R m -> (forall a, Spec.keeps R (k a)) ->
  Spec.keeps R (bind m k).
Proof.
  intros Hm Hk s o s' H. unfold bind in H.
  destruct (m s) as [[a|e] s1] eqn:Hs.
  - transitivity s1; [now apply (Hm s _ _ Hs)|now apply (Hk a s1 _ _ H)].
  - injection H as _ <-. now apply (Hm s _ _ Hs).
Qed.

Lemma keeps_try_except {A} (m : St S A) (h : Exn -> St S A) :
  Spec.keeps R m -> (forall e, Spec.keeps R (h e)) ->
  Spec.keeps R (try_except m h).
Proof.
  intros Hm Hh s o s' H. unfold try_except in H.
  destruct (m s) as [[a|e] s1] eqn:Hs.
  - injection H as _ <-. now apply (Hm s _ _ Hs).
  - transitivity s1; [now apply (Hm s _ _ Hs)|now apply (Hh e s1 _ _ H)].
Qed.

Lemma keeps_try_finally {A} (m : St S A) (f : S -> S) :
  Spec.keeps R m -> (forall s, R s (f s)) ->
  Spec.keeps R (try_finally m f).
Proof.
  intros Hm Hf s o s' H. unfold try_finally in H.
  destruct (m s) as [o1 s1] eqn:Hs. injection H as _ <-.
  transitivity s1; [now apply (Hm s _ _ Hs)|apply Hf].
Qed.

End Keeps.

#[local] Instance same_environment_preorder :
  PreOrder Spec.same_environment.
Proof.
  split.
  - intros w. split; reflexivity.
  - intros w1 w2 w3 [H1 H2] [H3 H4]. split; congruence.
Qed.

#[local] Instance untouched_preorder : PreOrder Spec.untouched.
Proof.
  split.
  - intros w. repeat split; reflexivity.
  - intros w1 w2 w3 (He & Ht & Hm) (He' & Ht' & Hm').
    split; [now transitivity w2|]. split; congruence.
Qed.

Lemma total_try_except {S A} (m : St S A) (h : Exn -> St S A) (s : S) :
  (forall e s1, exists a s2, h e s1 = (Ret a, s2)) ->
  exists a s', try_except m h s = (Ret a, s').
Proof.
  intros Hh. unfold try_except. destruct (m s) as [[a|e] s1]; eauto.
Qed.

Lemma total_try_finally {S A} (m : St S A) (f : S -> S) (s : S) :
  (exists a s', m s = (Ret a, s')) ->
  exists a s', try_finally m f s = (Ret a, s').
Proof.
  intros (a & s' & H). unfold try_finally. rewrite H. eauto.
Qed.

(** *** The environment does not change *)

Lemma environment_log (s : Stmt) (w : World) :
  Spec.same_environment w (log s w).
Proof. split; reflexivity. Qed.

Lemma environment_set_staging (s : option Table) (w : World) :
  Spec.same_environment w (set_staging s w).
Proof. split; reflexivity. Qed.

Lemma environment_set_tables (t : gmap string Table) (w : World) :
  Spec.same_environment w (set_tables t w).
Proof. split; reflexivity. Qed.

Lemma environment_dispose (w : World) :
  Spec.same_environment w (dispose w).
Proof. split; reflexivity. Qed.

Lemma environment_execute {A} (s : Stmt) (m : M A) :
  Spec.keeps Spec.same_environment m ->
  Spec.keeps Spec.same_environment (execute s m).
Proof.
  intros Hm w o w' H. unfold execute in H.
  destruct (refuses (log s w) s).
  - injection H as _ <-. apply environment_log.
  - transitivity (log s w); [apply environment_log|exact (Hm _ _ _ H)].
Qed.

Lemma environment_begin {A} (m : M A) :
  Spec.keeps Spec.same_environment m ->
  Spec.keeps Spec.same_environment (begin m).
Proof.
  intros Hm w o w' H. unfold begin in H.
  destruct (execute Connect m w) as [[a|e] w1] eqn:Hrun;
    injection H as _ <-;
    apply (environment_execute Connect m Hm) in Hrun; [assumption|].
  destruct Hrun. split; assumption.
Qed.

Lemma environment_connect {A} (m : M A) :
  Spec.keeps Spec.same_environment m ->
  Spec.keeps Spec.same_environment (connect m).
Proof. apply environment_execute. Qed.

(** A step written on the world itself: every branch returns the world
    with its tables or its temporary table changed. *)
Ltac branches H :=
  repeat match type of H with
         | context [match ?x with _ => _ end] => destruct x
         | context [if ?x then _ else _] => destruct x
         end.

Ltac on_world :=
  let H := fresh "H" in
  intros ? ? ? H; cbv beta delta [FA_load.put_table ret raise] in H;
  branches H; injection H as _ <-; split; reflexivity.

Ltac keeping lemmas :=
  repeat first
    [ apply keeps_ret; typeclasses eauto
    | apply keeps_raise; typeclasses eauto
    | apply keeps_lift; typeclasses eauto
    | apply keeps_bind; [typeclasses eauto| |intros ?]
    | apply keeps_try_except; [typeclasses eauto| |intros ?]
    | apply keeps_try_finally; [typeclasses eauto| |]
    | lemmas
    | match goal with
      | |- Spec.keeps _ (if ?b then _ else _) => destruct b
      | |- Spec.keeps _ (let '(_, _) := ?x in _) => destruct x
      | |- Spec.keeps _ (match ?x with _ => _ end) => destruct x
      end ].

Ltac environment_step :=
  first [ apply environment_execute | apply environment_begin
        | apply environment_connect | apply environment_dispose ].

Lemma environment_table (name : string) :
  Spec.keeps Spec.same_environment (FA_load.table name).
Proof. unfold FA_load.table. on_world. Qed.

Lemma environment_put_table (name : string) (t : Table) :
  Spec.keeps Spec.same_environment (FA_load.put_table name t).
Proof. on_world. Qed.

Lemma environment_connection :
  Spec.keeps Spec.same_environment FA_load.get_snowflake_connection.
Proof. unfold FA_load.get_snowflake_connection. on_world. Qed.

Lemma environment_select_count (name : string) :
  Spec.keeps Spec.same_environment (FA_load.select_count name).
Proof.
  unfold FA_load.select_count.
  keeping ltac:(first [environment_step | apply environment_table]).
Qed.

Lemma environment_select_ids (name : string) :
  Spec.keeps Spec.same_environment (FA_load.select_ids name).
Proof.
  unfold FA_load.select_ids.
  keeping ltac:(first [environment_step | apply environment_table]).
Qed.

Lemma environment_create_temp (name : string) :
  Spec.keeps Spec.same_environment (FA_load.create_temp name).
Proof.
  unfold FA_load.create_temp.
  keeping ltac:(first [environment_step | apply environment_table]).
  on_world.
Qed.

Lemma environment_stage_rows (df : DataFrame) :
  Spec.keeps Spec.same_environment (FA_load.stage_rows df).
Proof.
  unfold FA_load.stage_rows. keeping environment_step. on_world.
Qed.

Lemma environment_insert_rows (name : string) (df : DataFrame) :
  Spec.keeps Spec.same_environment (FA_load.insert_rows name df).
Proof.
  unfold FA_load.insert_rows. keeping environment_step. on_world.
Qed.

Lemma environment_merge (name : string) (cols : list string) :
  Spec.keeps Spec.same_environment (FA_load.merge name cols).
Proof.
  unfold FA_load.merge.
  keeping ltac:(first [environment_step | apply environment_table]).
  on_world.
Qed.

Lemma environment_drop_temp :
  Spec.keeps Spec.same_environment FA_load.drop_temp.
Proof. unfold FA_load.drop_temp. keeping environment_step. on_world. Qed.

Lemma environment_delete (name : string) (ids : list Z) :
  Spec.keeps Spec.same_environment (FA_load.delete name ids).
Proof.
  unfold FA_load.delete.
  keeping ltac:(first [ environment_step | apply environment_table
                      | apply environment_put_table ]).
Qed.

Ltac environment_statement :=
  first [ apply environment_table
        | apply environment_put_table | apply environment_connection
        | apply environment_select_count | apply environment_select_ids
        | apply environment_create_temp | apply environment_stage_rows
        | apply environment_insert_rows | apply environment_merge
        | apply environment_drop_temp | apply environment_delete
        | environment_step ].

Lemma environment_verify :
  Spec.keeps Spec.same_environment FA_load.verify_snowflake_connection.
Proof.
  unfold FA_load.verify_snowflake_connection.
  keeping environment_statement. on_world.
Qed.

Lemma environment_count_records (name : string) :
  Spec.keeps Spec.same_environment (FA_load.count_records_in_snowflake name).
Proof.
  unfold FA_load.count_records_in_snowflake. keeping environment_statement.
Qed.

Lemma environment_create_table (name : string) (df : DataFrame) :
  Spec.keeps Spec.same_environment
             (FA_load.create_table_if_not_exists name df).
Proof.
  unfold FA_load.create_table_if_not_exists.
  keeping environment_statement. on_world.
Qed.

Lemma environment_fetch (name : string) :
  Spec.keeps Spec.same_environment (FA_load.fetch_existing_ids name).
Proof.
  unfold FA_load.fetch_existing_ids. keeping environment_statement.
Qed.

Lemma environment_delete_in_batches (n : nat) (name : string)
    (size : nat) (ids : list Z) (count : Z) :
  Spec.keeps Spec.same_environment
             (FA_load.delete_in_batches n name size ids count).
Proof.
  revert ids count. induction n as [|n IH]; intros [|k ids] count; cbn;
    try (apply keeps_ret; typeclasses eauto).
  apply keeps_bind; [typeclasses eauto| |intros ?; apply IH].
  apply environment_begin, environment_delete.
Qed.

Ltac environment_call :=
  first [ apply environment_verify
        | apply environment_count_records | apply environment_create_table
        | apply environment_fetch | apply environment_delete_in_batches
        | environment_statement ].

Lemma environment_upsert (df : DataFrame) (name : string) :
  Spec.keeps Spec.same_environment (FA_load.upsert_to_snowflake df name).
Proof.
  unfold FA_load.upsert_to_snowflake, FA_load.failed.
  keeping environment_call.
Qed.

Lemma environment_alternative (df : DataFrame) (name : string) :
  Spec.keeps Spec.same_environment
             (FA_load.upsert_to_snowflake_alternative df name).
Proof.
  unfold FA_load.upsert_to_snowflake_alternative, FA_load.failed.
  keeping environment_call.
Qed.

Lemma environment_analyze (df : DataFrame) (name : string) :
  Spec.keeps Spec.same_environment
             (FA_load.analyze_upsert_performance df name).
Proof.
  unfold FA_load.analyze_upsert_performance. keeping environment_call.
Qed.

(** *** Where the load module returns *)

Lemma connection_pure (w w' : World) (o : outcome unit) :
  FA_load.get_snowflake_connection w = (o, w') -> w' = w.
Proof.
  unfold FA_load.get_snowflake_connection. intros H.
  branches H; now injection H as _ <-.
Qed.

Lemma configured_connection (w : World) :
  Spec.configured w -> FA_load.get_snowflake_connection w = (Ret tt, w).
Proof. apply connection_ok. Qed.

Lemma configured_kept (w w' : World) :
  Spec.same_environment w w' -> Spec.configured w -> Spec.configured w'.
Proof.
  intros [Hs _] H. unfold Spec.configured.
  now rewrite (connection_settings w w' Hs).
Qed.

(** A program that keeps the environment and returns wherever the
    settings are in order. *)
Lemma returns_kept {A} (m : M A) :
  Spec.keeps Spec.same_environment m ->
  (forall w, Spec.configured w -> exists a w', m w = (Ret a, w')) ->
  Spec.returns Spec.configured m.
Proof.
  intros Hkeep Hret w Hw. destruct (Hret w Hw) as (a & w' & Hrun).
  exists a, w'. split; [assumption|].
  apply (configured_kept w); [exact (Hkeep _ _ _ Hrun)|assumption].
Qed.

Lemma returns_ret {S A} (P : S -> Prop) (a : A) : Spec.returns P (ret a).
Proof. intros s Hs. exists a, s. now split. Qed.

Lemma returns_bind {S A B} (P : S -> Prop) (m : St S A) (k : A -> St S B) :
  Spec.returns P m -> (forall a, Spec.returns P (k a)) ->
  Spec.returns P (bind m k).
Proof.
  intros Hm Hk s Hs. destruct (Hm s Hs) as (a & s1 & Hrun & Hs1).
  destruct (Hk a s1 Hs1) as (b & s2 & Hrun2 & Hs2).
  exists b, s2. split; [|assumption]. unfold bind. now rewrite Hrun.
Qed.

(** The shape of the functions that open a connection before their
    [try]: with the settings in order, the handler turns every error of
    the body into a result. *)
Lemma guarded_returns {A} (body : M A) (a : A) (w : World) :
  Spec.configured w ->
  exists x w',
    (run FA_load.get_snowflake_connection ;
     try_finally (try_except body (fun _ => ret a)) dispose) w
    = (Ret x, w').
Proof.
  intros Hw. rewrite (bind_ok _ _ w w tt) by now apply configured_connection.
  apply total_try_finally, total_try_except. intros e s1. now exists a, s1.
Qed.

Lemma count_records_returns (name : string) :
  Spec.returns Spec.configured (FA_load.count_records_in_snowflake name).
Proof.
  apply returns_kept; [apply environment_count_records|].
  intros w Hw. now apply guarded_returns.
Qed.

Lemma analyze_returns (df : DataFrame) (name : string) :
  Spec.returns Spec.configured (FA_load.analyze_upsert_performance df name).
Proof.
  apply returns_kept; [apply environment_analyze|].
  intros w Hw. now apply guarded_returns.
Qed.

Lemma connection_returns :
  Spec.returns Spec.configured FA_load.get_snowflake_connection.
Proof.
  intros w Hw. exists tt, w. split; [|assumption].
  now apply configured_connection.
Qed.

Lemma create_table_returns (name : string) (df : DataFrame) :
  Spec.returns Spec.configured (FA_load.create_table_if_not_exists name df).
Proof.
  apply returns_kept; [apply environment_create_table|].
  intros w Hw. apply total_try_except. intros e s1. now exists false, s1.
Qed.

Lemma upsert_returns (df : DataFrame) (name : string) :
  Spec.castable df ->
  Spec.returns Spec.configured (FA_load.upsert_to_snowflake df name).
Proof.
  intros [df_fixed Hcast].
  apply returns_kept; [apply environment_upsert|].
  intros w Hw. unfold FA_load.upsert_to_snowflake.
  destruct (empty df); [now exists (false, 0, 0), w|].
  rewrite (bind_ok _ _ w w df_fixed) by (unfold lift; now rewrite Hcast).
  now apply guarded_returns.
Qed.

Lemma alternative_returns (df : DataFrame) (name : string) :
  Spec.castable df ->
  Spec.returns Spec.configured
               (FA_load.upsert_to_snowflake_alternative df name).
Proof.
  intros [df_fixed Hcast].
  apply returns_kept; [apply environment_alternative|].
  intros w Hw. unfold FA_load.upsert_to_snowflake_alternative.
  destruct (empty df); [now exists (false, 0, 0), w|].
  rewrite (bind_ok _ _ w w df_fixed) by (unfold lift; now rewrite Hcast).
  now apply guarded_returns.
Qed.

Lemma verify_returns (w : World) :
  exists connected w',
    FA_load.verify_snowflake_connection w = (Ret connected, w').
Proof. apply total_try_except. intros e s1. now exists false, s1. Qed.

(** The check succeeds only where the settings are in order and the
    warehouse answers. *)
Lemma verify_reachable (w w' : World) :
  FA_load.verify_snowflake_connection w = (Ret true, w') ->
  Spec.reachable w.
Proof.
  unfold FA_load.verify_snowflake_connection, try_except. intros H.
  unfold bind at 1 in H.
  destruct (FA_load.get_snowflake_connection w) as [[[]|e] w0] eqn:Hc;
    [|discriminate].
  assert (w0 = w) as -> by exact (connection_pure _ _ _ Hc).
  split; [unfold Spec.configured; now rewrite Hc|].
  unfold bind, connect, execute, ret in H. cbn [refuses log] in H.
  destruct (refuses w Connect); [discriminate|].
  destruct (refuses w SelectCurrent); [discriminate|]. now split.
Qed.

(** The pipeline after the connection check. *)
Lemma load_returns_once_connected (df : DataFrame) (name : string) :
  Spec.castable df ->
  Spec.returns Spec.configured (
    records_before <- FA_load.count_records_in_snowflake name ;
    upsert_analysis <- FA_load.analyze_upsert_performance df name ;
    run FA_load.get_snowflake_connection ;
    created <- FA_load.create_table_if_not_exists name df ;
    if negb created then ret false else
    result <- FA_load.upsert_to_snowflake df name ;
    let '(success, new_records, updated_records) := result in
    result <- (if negb success
               then FA_load.upsert_to_snowflake_alternative df name
               else ret result) ;
    let '(success, new_records, updated_records) := result in
    if negb success then ret false else
    records_after <- FA_load.count_records_in_snowflake name ;
    let expected_total := records_before + new_records in
    if records_after =? expected_total then ret true else ret true).
Proof.
  intros Hcast.
  apply returns_bind; [apply count_records_returns|intros records_before].
  apply returns_bind; [apply analyze_returns|intros upsert_analysis].
  apply returns_bind; [apply connection_returns|intros _].
  apply returns_bind; [apply create_table_returns|intros [|]];
    [|apply returns_ret].
  apply returns_bind; [now apply upsert_returns|intros [[success n] u]].
  apply returns_bind.
  { destruct success; [apply returns_ret|now apply alternative_returns]. }
  intros [[[|] n'] u']; [|apply returns_ret].
  apply returns_bind; [apply count_records_returns|intros records_after].
  cbn zeta. destruct (_ =? _); apply returns_ret.
Qed.

Lemma load_returns (df : DataFrame) (name : string) (w : World) :
  Spec.castable df ->
  exists success w',
    FA_load.load_complete_pipeline df name w = (Ret success, w').
Proof.
  intros Hcast. unfold FA_load.load_complete_pipeline.
  destruct (verify_returns w) as ([|] & w1 & Hv).
  - rewrite (bind_ok _ _ w w1 true Hv). cbn [negb].
    assert (Hw1 : Spec.configured w1).
    { apply (configured_kept w); [exact (environment_verify _ _ _ Hv)|].
      apply (verify_reachable w w1 Hv). }
    destruct (load_returns_once_connected df name Hcast w1 Hw1)
      as (b & w' & Hrun & _).
    now exists b, w'.
  - rewrite (bind_ok _ _ w w1 false Hv). now exists false, w1.
Qed.

Lemma load_success_reachable (df : DataFrame) (name : string)
    (w w' : World) :
  FA_load.load_complete_pipeline df name w = (Ret true, w') ->
  Spec.reachable w.
Proof.
  unfold FA_load.load_complete_pipeline. intros H. unfold bind at 1 in H.
  destruct (FA_load.verify_snowflake_connection w) as [[[|]|e] w1] eqn:Hv;
    try discriminate.
  exact (verify_reachable w w1 Hv).
Qed.

Lemma orchestrator_returns (h : Host.Host) :
  exists success h', FA_main.run_complete_etl h = (Ret success, h').
Proof. apply total_try_except. intros e s1. now exists false, s1. Qed.

(** X28.  Where the load module returns a result.  For a batch whose
    DELIVERY_ID column can be cast to int64 (or that has no such
    column), the load pipeline returns a boolean in every state of the
    warehouse and of the configuration, and returns True only where the
    configuration is in order and the warehouse answers.  For such a
    batch, wherever the configuration is in order, counting the records
    and either upsert return a result, whatever the warehouse turns
    down.  The orchestrator returns a boolean from every state of the
    host. *)
Theorem load_failures_surface_as_results (df : DataFrame) (name : string)
    (w : World) (h : Host.Host) :
  Spec.castable df ->
  (exists success w',
     FA_load.load_complete_pipeline df name w = (Ret success, w') /\
     (success = true -> Spec.reachable w)) /\
  (Spec.configured w ->
   Spec.surfaces (FA_load.count_records_in_snowflake name) w /\
   Spec.surfaces (FA_load.upsert_to_snowflake df name) w /\
   Spec.surfaces (FA_load.upsert_to_snowflake_alternative df name) w) /\
  Spec.surfaces FA_main.run_complete_etl h.
Proof.
  intros Hcast. split; [|split].
  - destruct (load_returns df name w Hcast) as (success & w' & Hrun).
    exists success, w'. split; [assumption|]. intros ->.
    exact (load_success_reachable df name w w' Hrun).
  - intros Hw. split; [|split].
    + destruct (count_records_returns name w Hw) as (a & w' & Hrun & _).
      now exists a, w'.
    + destruct (upsert_returns df name Hcast w Hw) as (a & w' & Hrun & _).
      now exists a, w'.
    + destruct (alternative_returns df name Hcast w Hw)
        as (a & w' & Hrun & _).
      now exists a, w'.
  - apply orchestrator_returns.
Qed.

Lemma load_failures_surface_as_results_witness :
  Spec.castable Sample.incoming /\
  ~ Spec.configured Sample.unconfigured /\
  (exists w',
     FA_load.load_complete_pipeline Sample.incoming "FACT_DELIVERIES"
                                    Sample.unconfigured = (Ret false, w')) /\
  Spec.configured (Sample.holding Sample.stock) /\
  Spec.surfaces (FA_load.count_records_in_snowflake "FACT_DELIVERIES")
                (Sample.holding Sample.stock) /\
  Spec.surfaces (FA_load.upsert_to_snowflake Sample.incoming
                                             "FACT_DELIVERIES")
                (Sample.holding Sample.stock).
Proof.
  assert (Hcast : Spec.castable Sample.incoming).
  { eexists. vm_compute. reflexivity. }
  assert (Hconf : ~ Spec.configured Sample.unconfigured).
  { intros H. vm_compute in H. discriminate. }
  assert (Hstock : Spec.configured (Sample.holding Sample.stock))
    by reflexivity.
  split; [exact Hcast|]. split; [exact Hconf|]. split.
  - destruct (load_failures_surface_as_results
                Sample.incoming "FACT_DELIVERIES" Sample.unconfigured
                Sample.idle Hcast)
      as ((success & w' & Hrun & Hreach) & _).
    exists w'. destruct success; [|exact Hrun].
    destruct Hconf. now apply Hreach.
  - split; [exact Hstock|].
    destruct (load_failures_surface_as_results
                Sample.incoming "FACT_DELIVERIES"
                (Sample.holding Sample.stock) Sample.idle Hcast)
      as (_ & Hsurfaces & _).
    destruct (Hsurfaces Hstock) as (Hcount & Hupsert & _). now split.
Defined.

(** C7.  With the configuration file missing, counting the records
    raises FileNotFoundError to its caller, and so do both upserts on a
    batch with rows: they open their connection before their [try].  At
    the same input the connection check, which opens it inside its
    [try], returns False.  On a warehouse in order, a batch whose
    DELIVERY_ID is null makes the load pipeline itself raise ValueError:
    the upsert casts the column before its [try]. *)
Lemma count_raises_without_configuration :
  FA_load.count_records_in_snowflake "FACT_DELIVERIES" Sample.unconfigured
    = (Raise FileNotFoundError, Sample.unconfigured) /\
  FA_load.upsert_to_snowflake Sample.incoming "FACT_DELIVERIES"
                              Sample.unconfigured
    = (Raise FileNotFoundError, Sample.unconfigured) /\
  FA_load.upsert_to_snowflake_alternative Sample.incoming "FACT_DELIVERIES"
                                          Sample.unconfigured
    = (Raise FileNotFoundError, Sample.unconfigured) /\
  FA_load.verify_snowflake_connection Sample.unconfigured
    = (Ret false, Sample.unconfigured) /\
  Spec.healthy (Sample.holding Sample.stock) /\
  fst (FA_load.load_complete_pipeline Sample.unkeyed "FACT_DELIVERIES"
                                      (Sample.holding Sample.stock))
    = Raise ValueError.
Proof.
  split; [reflexivity|]. split; [reflexivity|]. split; [reflexivity|].
  split; [reflexivity|].
  split; [apply healthy_holding|]. vm_compute. reflexivity.
Qed.

(** ** The orchestrator *)

(** *** Queries change nothing *)

Lemma untouched_log (s : Stmt) (w : World) :
  mutation s = false -> Spec.untouched w (log s w).
Proof.
  intros H. split; [apply environment_log|]. split; [reflexivity|].
  cbn. rewrite List.filter_app. cbn. rewrite H. apply app_nil_r.
Qed.

Lemma untouched_dispose (w : World) : Spec.untouched w (dispose w).
Proof. repeat split; reflexivity. Qed.

Lemma untouched_execute {A} (s : Stmt) (m : M A) :
  mutation s = false -> Spec.keeps Spec.untouched m ->
  Spec.keeps Spec.untouched (execute s m).
Proof.
  intros Hs Hm w o w' H. unfold execute in H.
  destruct (refuses (log s w) s).
  - injection H as _ <-. now apply untouched_log.
  - transitivity (log s w); [now apply untouched_log|exact (Hm _ _ _ H)].
Qed.

Lemma untouched_connect {A} (m : M A) :
  Spec.keeps Spec.untouched m -> Spec.keeps Spec.untouched (connect m).
Proof. now apply untouched_execute. Qed.

Lemma untouched_connection :
  Spec.keeps Spec.untouched FA_load.get_snowflake_connection.
Proof. intros w o w' ->%connection_pure. reflexivity. Qed.

Lemma untouched_postgres :
  Spec.keeps Spec.untouched FA_extract.get_postgres_connection.
Proof.
  intros w o w' H. unfold FA_extract.get_postgres_connection in H.
  branches H; injection H as _ <-; reflexivity.
Qed.

Lemma untouched_disposed {A} (a : A) :
  Spec.keeps Spec.untouched (fun w => (Ret a, dispose w)).
Proof. intros w o w' [= _ <-]. apply untouched_dispose. Qed.

Ltac untouched_step :=
  first [ apply untouched_connection | apply untouched_postgres
        | apply untouched_disposed
        | apply untouched_connect
        | apply untouched_execute; [reflexivity|] ].

Lemma untouched_verify :
  Spec.keeps Spec.untouched FA_load.verify_snowflake_connection.
Proof.
  unfold FA_load.verify_snowflake_connection. keeping untouched_step.
Qed.

Lemma untouched_connectivity :
  Spec.keeps Spec.untouched FA_extract.check_snowflake_connectivity.
Proof.
  unfold FA_extract.check_snowflake_connectivity,
         FA_extract.get_snowflake_connection.
  keeping untouched_step.
Qed.

(** *** On the host *)

#[local] Instance quiet_preorder : PreOrder Spec.quiet.
Proof.
  split.
  - intros h. unfold Spec.quiet. reflexivity.
  - intros h1 h2 h3. unfold Spec.quiet. apply transitivity.
Qed.

Lemma quiet_on_warehouse {A} (m : M A) :
  Spec.keeps Spec.untouched m ->
  Spec.keeps Spec.quiet (Host.on_warehouse m).
Proof.
  intros Hm h o h' H. unfold Host.on_warehouse in H.
  destruct (m (Host.warehouse h)) as [o1 w1] eqn:Hrun.
  injection H as _ <-. exact (Hm _ _ _ Hrun).
Qed.

Lemma quiet_save (df : DataFrame) :
  Spec.keeps Spec.quiet (FA_extract.save_to_parquet df).
Proof. intros h o h' [= _ <-]. unfold Spec.quiet. reflexivity. Qed.

Lemma quiet_read (name : string) :
  Spec.keeps Spec.quiet (FA_main.read_parquet name).
Proof.
  intros h o h' H. unfold FA_main.read_parquet in H.
  branches H; injection H as _ <-; unfold Spec.quiet; reflexivity.
Qed.

Lemma quiet_main : Spec.keeps Spec.quiet FA_extract.main.
Proof.
  unfold FA_extract.main.
  apply keeps_bind; [typeclasses eauto| |intros [|]].
  - apply quiet_on_warehouse, untouched_connectivity.
  - apply keeps_bind; [typeclasses eauto| |intros _].
    + apply quiet_on_warehouse, untouched_postgres.
    + intros h o h' H. destruct (Host.source h) as [combined_df|].
      * revert H. apply keeps_bind; [typeclasses eauto| |intros _].
        -- apply quiet_save.
        -- apply keeps_ret. typeclasses eauto.
      * injection H as _ <-. reflexivity.
  - apply keeps_ret. typeclasses eauto.
Qed.

Lemma quiet_initial_checks : Spec.keeps Spec.quiet FA_main.initial_checks.
Proof.
  unfold FA_main.initial_checks.
  apply keeps_bind; [typeclasses eauto| |intros [|]].
  - apply keeps_try_except; [typeclasses eauto| |intros e].
    + intros h o h' H. destruct (FA_main.parquet_files h) as [[|f files]|].
      * revert H. apply keeps_bind; [typeclasses eauto| |intros _].
        -- apply quiet_on_warehouse, untouched_postgres.
        -- apply keeps_ret. typeclasses eauto.
      * injection H as _ <-. reflexivity.
      * injection H as _ <-. reflexivity.
    + apply keeps_ret. typeclasses eauto.
  - apply quiet_on_warehouse, untouched_verify.
  - apply keeps_ret. typeclasses eauto.
Qed.

Lemma quiet_read_latest : Spec.keeps Spec.quiet FA_main.read_latest.
Proof.
  unfold FA_main.read_latest.
  apply keeps_bind; [typeclasses eauto|apply quiet_main|].
  intros extract_result. destruct (negb _).
  - apply keeps_ret. typeclasses eauto.
  - intros h o h' H.
    destruct (FA_main.parquet_files h) as [files|];
      [|injection H as _ <-; reflexivity].
    destruct (Py.max_name files) as [latest_file|];
      [|injection H as _ <-; reflexivity].
    revert H. apply keeps_bind; [typeclasses eauto|apply quiet_read|].
    intros raw_data. apply keeps_ret. typeclasses eauto.
Qed.

(** The reconciler does nothing with a batch that has no row. *)
Lemma upsert_empty (df : DataFrame) (name : string) (w : World) :
  empty df = true ->
  FA_load.upsert_to_snowflake df name w = (Ret (false, 0, 0), w) /\
  FA_load.upsert_to_snowflake_alternative df name w = (Ret (false, 0, 0), w).
Proof.
  intros H.
  unfold FA_load.upsert_to_snowflake, FA_load.upsert_to_snowflake_alternative.
  rewrite H. now split.
Qed.

(** C8. When the batch read from the staging directory has no row, the
    orchestrator returns False.  Up to there it has only checked the
    connections: no statement of the mutation interface (table creation,
    temporary table, staged rows, merge, delete, insert) was sent and the
    tables of the warehouse are those of before.  The reconciler itself
    returns (False, 0, 0) on a batch with no row, leaving the warehouse
    as it is. *)
Theorem empty_batch_stops_the_run (h h1 h2 : Host.Host)
    (raw_data : DataFrame) :
  FA_main.initial_checks h = (Ret true, h1) ->
  FA_main.read_latest h1 = (Ret (Some raw_data), h2) ->
  empty raw_data = true ->
  FA_main.run_complete_etl h = (Ret false, h2) /\
  Spec.quiet h h2 /\
  (forall name w,
     FA_load.upsert_to_snowflake raw_data name w = (Ret (false, 0, 0), w) /\
     FA_load.upsert_to_snowflake_alternative raw_data name w
       = (Ret (false, 0, 0), w)).
Proof.
  intros Hchecks Hread Hempty. split; [|split].
  - unfold FA_main.run_complete_etl, try_except.
    rewrite (bind_ok _ _ h h1 true Hchecks). cbn [negb].
    unfold FA_main.extraction. unfold bind at 1, try_except.
    rewrite (bind_ok _ _ h1 h2 (Some raw_data) Hread).
    rewrite Hempty. reflexivity.
  - transitivity h1.
    + exact (quiet_initial_checks _ _ _ Hchecks).
    + exact (quiet_read_latest _ _ _ Hread).
  - intros name w. now apply upsert_empty.
Qed.

Lemma empty_batch_stops_the_run_witness :
  exists h1 h2 raw_data,
    FA_main.initial_checks Sample.idle = (Ret true, h1) /\
    FA_main.read_latest h1 = (Ret (Some raw_data), h2) /\
    empty raw_data = true /\
    FA_main.run_complete_etl Sample.idle = (Ret false, h2) /\
    tables (Host.warehouse h2) = tables (Host.warehouse Sample.idle) /\
    trace (Host.warehouse h2) =
      [Connect; SelectCurrent; Connect; SelectCurrent; Connect;
       SelectTables].
Proof.
  set (h1 := (FA_main.initial_checks Sample.idle).2).
  set (h2 := (FA_main.read_latest h1).2).
  set (raw_data := mkFrame Sample.extracted_columns []).
  assert (Hchecks : FA_main.initial_checks Sample.idle = (Ret true, h1)).
  { apply injective_projections; [vm_compute; reflexivity|reflexivity]. }
  assert (Hread : FA_main.read_latest h1 = (Ret (Some raw_data), h2)).
  { apply injective_projections; [vm_compute; reflexivity|reflexivity]. }
  destruct (empty_batch_stops_the_run Sample.idle h1 h2 raw_data
                                      Hchecks Hread eq_refl)
    as (Hrun & (_ & Htables & _) & _).
  exists h1, h2, raw_data.
  split; [exact Hchecks|]. split; [exact Hread|]. split; [reflexivity|].
  split; [exact Hrun|]. split; [exact Htables|]. vm_compute. reflexivity.
Defined.

(** The short-circuit is the orchestrator's.  Called on its own with a
    batch that has no row, the load pipeline returns False as well, but
    only after it has created the table when the warehouse did not have
    it. *)
Remark load_pipeline_creates_table_first :
  let df := mkFrame Sample.fact_columns [] in
  let w := mkWorld Sample.settings_ini (fun _ => false) ∅ None [] in
  let '(result, w') := FA_load.load_complete_pipeline df "FACT_DELIVERIES" w in
  empty df = true /\ result = Ret false /\
  List.filter mutation (trace w') = [CreateTable] /\
  is_Some (tables w' !! "FACT_DELIVERIES").
Proof. vm_compute. repeat split; eauto. Qed.

(** * Further properties of the code *)

(** ** The quality score *)

Lemma nat_Q_le (a b : nat) :
  (a <= b)%nat -> (FA_transform.nat_Q a <= FA_transform.nat_Q b)%Q.
Proof. intros H. unfold FA_transform.nat_Q. rewrite <- Zle_Qle. lia. Qed.

Lemma share_bounds (a b : nat) :
  (a <= b)%nat ->
  (0 <= FA_transform.nat_Q a / FA_transform.nat_Q b <= 1)%Q.
Proof.
  intros H. destruct b as [|b].
  - assert (a = 0%nat) as -> by lia. split; discriminate.
  - assert (Hb : (0 < FA_transform.nat_Q (S b))%Q).
    { unfold FA_transform.nat_Q. rewrite <- (Zlt_Qlt 0). lia. }
    split.
    + apply Qle_shift_div_l; [exact Hb|]. rewrite Qmult_0_l.
      apply (nat_Q_le 0). lia.
    + apply Qle_shift_div_r; [exact Hb|]. rewrite Qmult_1_l.
      now apply nat_Q_le.
Qed.

Lemma count_le (p : gmap string Cell -> bool) (df : DataFrame) :
  (count p df <= len df)%nat.
Proof. apply List.filter_length_le. Qed.

Lemma null_cells_le (df : DataFrame) :
  (null_cells df <= len df * length (columns df))%nat.
Proof.
  unfold null_cells, len. induction (rows df) as [|r l IH]; [cbn; lia|].
  cbn [map length].
  change (list_sum (?x :: ?xs)) with (x + list_sum xs)%nat.
  pose proof (List.filter_length_le (fun c => isnull (get r c)) (columns df)).
  rewrite Nat.mul_succ_l. lia.
Qed.

Lemma penalty_bounds (df : DataFrame) (c : string)
    (extreme : gmap string Cell -> bool) (weight score score' : Q) :
  (0 <= weight)%Q ->
  FA_transform.penalty df c extreme weight score = Ret score' ->
  (score - weight <= score' <= score)%Q.
Proof.
  intros Hw. unfold FA_transform.penalty.
  destruct (has_column df c); [|intros [= <-]; lra].
  destruct (FA_transform.numeric_column df c) as [[]|e]; [|discriminate].
  cbn. intros [= <-].
  pose proof (share_bounds (count extreme df) (len df) (count_le _ _)).
  nra.
Qed.

(** X1.  Whatever the batch, a score that [calculate_quality_score]
    returns lies between 5 and 100: the four penalties take at most 50,
    20, 15 and 10 points, so the lower bound 0 of the final clamp is
    never reached. *)
Theorem quality_score_between_5_and_100 (df : DataFrame) (score : Q) :
  FA_transform.calculate_quality_score df = Ret score ->
  (5 <= score <= 100)%Q.
Proof.
  unfold FA_transform.calculate_quality_score.
  destruct (empty df); [intros [= <-]; split; discriminate|].
  cbv zeta.
  pose proof (share_bounds _ _ (null_cells_le df)) as Hnull.
  set (nulls := (_ / _)%Q) in *. clearbody nulls.
  set (s0 := (100 - nulls * 50)%Q) in *.
  destruct (FA_transform.penalty df "fuel_efficiency_km_per_liter" _ 20 s0)
    as [s1|e] eqn:H1; [|discriminate].
  apply penalty_bounds in H1; [|discriminate]. cbn [obind].
  destruct (FA_transform.penalty df "delivery_duration_minutes" _ 15 s1)
    as [s2|e] eqn:H2; [|discriminate].
  apply penalty_bounds in H2; [|discriminate]. cbn [obind].
  destruct (FA_transform.penalty df "delay_minutes" _ 10 s2)
    as [s3|e] eqn:H3; [|discriminate].
  apply penalty_bounds in H3; [|discriminate]. cbn [obind].
  intros [= <-].
  assert (Hs3 : (5 <= s3 <= 100)%Q) by (subst s0; lra).
  destruct (Q.min_spec 100 s3) as [[Hlt Hmin]|[Hlt Hmin]];
    destruct (Q.max_spec 0 (Qmin 100 s3)) as [[Hlt' Hmax]|[Hlt' Hmax]];
    rewrite Hmax; lra.
Qed.

Lemma quality_score_between_5_and_100_witness :
  exists score,
    FA_transform.calculate_quality_score (Spec.validated 7 Sample.extracted)
      = Ret score /\
    (5 <= score <= 100)%Q /\ ~ (score == 100)%Q.
Proof.
  eexists. split; [vm_compute; reflexivity|]. split.
  - apply (quality_score_between_5_and_100
             (Spec.validated 7 Sample.extracted)).
    vm_compute. reflexivity.
  - vm_compute. discriminate.
Defined.

(** ** The validator *)

Lemma need_ret {A} (m : outcome unit) (k : outcome A) (a : A) :
  (need m ;; k) = Ret a -> m = Ret tt /\ k = Ret a.
Proof. destruct m as [[]|e]; cbn; [auto|discriminate]. Qed.

Lemma column_ret (df : DataFrame) (c : string) :
  FA_transform.column df c = Ret tt -> c ∈ columns df.
Proof.
  unfold FA_transform.column, has_column.
  destruct (bool_decide_reflect (c ∈ columns df)); [auto|discriminate].
Qed.

Lemma numeric_column_ret (df : DataFrame) (c : string) :
  FA_transform.numeric_column df c = Ret tt ->
  Spec.typed df c FA_transform.numeric_cell.
Proof.
  unfold FA_transform.numeric_column. intros [Hc H]%need_ret.
  split; [now apply column_ret|].
  destruct (forallb _ _) eqn:Hall; [|discriminate].
  rewrite forallb_forall in Hall. apply Forall_forall.
  intros r Hr. now apply Hall, list_elem_of_In.
Qed.

Lemma datetime_column_ret (df : DataFrame) (c : string) :
  FA_transform.datetime_column df c = Ret tt ->
  Spec.typed df c FA_transform.datetime_cell.
Proof.
  unfold FA_transform.datetime_column. intros [Hc H]%need_ret.
  split; [now apply column_ret|].
  destruct (forallb _ _) eqn:Hall; [|discriminate].
  rewrite forallb_forall in Hall. apply Forall_forall.
  intros r Hr. now apply Hall, list_elem_of_In.
Qed.

(** The validator returns on the homogeneous batches only. *)
Lemma validate_ret (df clean : DataFrame) :
  FA_transform.validate_data_quality df = Ret clean ->
  Spec.validator_input df /\ clean = select FA_transform.valid_mask df.
Proof.
  unfold FA_transform.validate_data_quality.
  intros [H1%numeric_column_ret [H2%numeric_column_ret
           [H3%numeric_column_ret [H4%numeric_column_ret
           [H5%datetime_column_ret [H6%datetime_column_ret
           [H7%column_ret [H8%column_ret [H9%column_ret
           [= <-]]%need_ret]%need_ret]%need_ret]%need_ret]%need_ret]%need_ret
           ]%need_ret]%need_ret]%need_ret.
  split; [|reflexivity]. unfold Spec.validator_input.
  repeat lazymatch goal with |- _ /\ _ => split end; assumption.
Qed.

Lemma filter_sublist {A} (f : A -> bool) (l : list A) :
  List.filter f l `sublist_of` l.
Proof.
  induction l as [|a l IH]; [constructor|].
  cbn. destruct (f a); now constructor.
Qed.

Lemma filter_filter {A} (f : A -> bool) (l : list A) :
  List.filter f (List.filter f l) = List.filter f l.
Proof.
  induction l as [|a l IH]; [reflexivity|].
  cbn. destruct (f a) eqn:Ha; [|exact IH]. cbn. now rewrite Ha, IH.
Qed.

Lemma validator_input_select (df : DataFrame)
    (mask : gmap string Cell -> bool) :
  Spec.validator_input df -> Spec.validator_input (select mask df).
Proof.
  intros (H1 & H2 & H3 & H4 & H5 & H6 & H7 & H8 & H9).
  unfold Spec.validator_input.
  repeat lazymatch goal with |- _ /\ _ => split end;
    try assumption; now apply typed_select.
Qed.

(** X2.  Validation only removes rows: the batch it returns has the
    columns of the input and a sublist of its rows, in their order, and
    validating it again returns it unchanged. *)
Theorem validation_is_idempotent (df clean : DataFrame) :
  FA_transform.validate_data_quality df = Ret clean ->
  columns clean = columns df /\
  rows clean `sublist_of` rows df /\
  (len clean + FA_transform.removed_count df clean = len df)%nat /\
  FA_transform.validate_data_quality clean = Ret clean.
Proof.
  intros [Hin ->]%validate_ret. split; [reflexivity|].
  split; [apply filter_sublist|]. split.
  - unfold FA_transform.removed_count, len. cbn [rows select].
    pose proof (List.filter_length_le FA_transform.valid_mask (rows df)).
    lia.
  - rewrite validate_returns by now apply validator_input_select.
    unfold select. cbn [rows columns]. now rewrite filter_filter.
Qed.

Lemma validation_is_idempotent_witness :
  exists clean,
    FA_transform.validate_data_quality Sample.measured = Ret clean /\
    len Sample.measured = 4%nat /\ len clean = 1%nat /\
    FA_transform.validate_data_quality clean = Ret clean.
Proof.
  exists (select FA_transform.valid_mask Sample.measured).
  split; [vm_compute; reflexivity|].
  split; [vm_compute; reflexivity|]. split; [vm_compute; reflexivity|].
  apply (validation_is_idempotent Sample.measured). vm_compute. reflexivity.
Defined.

(** ** The transformation *)

Lemma columns_assign_inv (df : DataFrame) (c c' : string)
    (f : gmap string Cell -> Cell) :
  c <> c' -> c ∈ columns (assign c' f df) -> c ∈ columns df.
Proof.
  intros Hne. cbn. destruct (has_column df c'); [auto|].
  intros [H|H%list_elem_of_singleton]%elem_of_app; [exact H|contradiction].
Qed.

Lemma typed_assign_inv (df : DataFrame) (c c' : string)
    (f : gmap string Cell -> Cell) (kind : Cell -> bool) :
  c <> c' -> Spec.typed (assign c' f df) c kind -> Spec.typed df c kind.
Proof.
  intros Hne [Hc Hk]. split; [now apply (columns_assign_inv df c c' f)|].
  cbn in Hk. apply List.Forall_map in Hk.
  apply (List.Forall_impl _ (P := fun r => kind (get (<[c' := f r]> r) c)
                                           = true)); [|assumption].
  intros r Hr. rewrite get_insert_ne in Hr by congruence. exact Hr.
Qed.

Ltac untyped_step H :=
  first [ apply typed_assign_inv in H; [|discriminate]
        | apply columns_assign_inv in H; [|discriminate] ].

(** The transformation returns on the homogeneous batches only. *)
Lemma transform_ret (now : Z) (raw out : DataFrame) :
  empty raw = false ->
  FA_transform.transform_delivery_data now raw = Ret out ->
  Spec.transform_input raw.
Proof.
  intros Hempty. unfold FA_transform.transform_delivery_data.
  rewrite Hempty. cbv zeta.
  intros [Hd%datetime_column_ret [Hs%datetime_column_ret
           [Hl%numeric_column_ret [Hf%numeric_column_ret
           [Hk%numeric_column_ret [Hst%column_ret [Hrv%column_ret H
           ]%need_ret]%need_ret]%need_ret]%need_ret]%need_ret]%need_ret
           ]%need_ret.
  destruct (FA_transform.validate_data_quality _) as [clean|e] eqn:Hval;
    [|discriminate].
  apply validate_ret in Hval as [(_ & _ & Hw & He & _ & _ & _ & Hv & Hr) _].
  repeat untyped_step Hl. repeat untyped_step Hf. repeat untyped_step Hk.
  repeat untyped_step Hst. repeat untyped_step Hrv.
  repeat untyped_step Hw. repeat untyped_step He.
  repeat untyped_step Hv. repeat untyped_step Hr.
  unfold Spec.transform_input.
  repeat lazymatch goal with |- _ /\ _ => split end; assumption.
Qed.

(** The transformed batch is the validated batch with its score. *)
Lemma transform_shape (now : Z) (raw out : DataFrame) :
  empty raw = false ->
  FA_transform.transform_delivery_data now raw = Ret out ->
  exists score,
    out = assign "data_quality_score" (fun _ => Num score)
                 (Spec.validated now raw).
Proof.
  intros Hempty Hrun.
  destruct (transform_returns now raw (transform_ret now raw out Hempty Hrun)
                              Hempty) as (score & _ & Hout & _).
  exists score. congruence.
Qed.

(** X3.  On a batch with rows the transformation raises whenever one of
    the columns it reads is missing: it returns no partial result. *)
Theorem transformation_needs_its_columns (now : Z) (raw : DataFrame)
    (c : string) :
  empty raw = false -> c ∈ Facts.required_columns -> c ∉ columns raw ->
  exists e, FA_transform.transform_delivery_data now raw = Raise e.
Proof.
  intros Hempty Hc Hmiss.
  destruct (FA_transform.transform_delivery_data now raw) as [out|e] eqn:Hrun;
    [|now exists e].
  exfalso. apply Hmiss.
  destruct (transform_ret now raw out Hempty Hrun)
    as ([Hd _] & [Hs _] & [Hl _] & [Hf _] & [Hk _] & [Hw _] & [He _]
        & Hst & Hrv & Hv & Hr).
  unfold Facts.required_columns in Hc.
  repeat (apply elem_of_cons in Hc as [->|Hc]; [assumption|]).
  now apply elem_of_nil in Hc.
Qed.

Lemma transformation_needs_its_columns_witness :
  empty Sample.measured = false /\
  "delay_minutes" ∈ columns Sample.measured /\
  "revenue_per_delivery" ∈ columns Sample.measured /\
  "delivery_fuel_consumed" ∈ columns Sample.measured /\
  exists e,
    FA_transform.transform_delivery_data
      7 (mkFrame (List.filter (fun c => negb (String.eqb c "delay_minutes"))
                              (columns Sample.measured))
                 (rows Sample.measured)) = Raise e.
Proof.
  split; [reflexivity|].
  split; [apply list_elem_of_In; vm_compute; auto 20|].
  split; [apply list_elem_of_In; vm_compute; auto 20|].
  split; [apply list_elem_of_In; vm_compute; auto 20|].
  apply (transformation_needs_its_columns _ _ "delay_minutes").
  - reflexivity.
  - apply list_elem_of_In. vm_compute. auto 20.
  - intros H%list_elem_of_In. vm_compute in H. intuition discriminate.
Defined.

Lemma enriched_row (raw : DataFrame) (r : gmap string Cell) :
  r ∈ rows (Spec.enriched raw) ->
  exists r0,
    r0 ∈ rows raw /\
    get r "delivery_duration_minutes" =
      FA_transform.minutes_between (get r0 "delivered_datetime")
                                   (get r0 "scheduled_datetime") /\
    forall c, c ∉ Facts.derived_columns -> get r c = get r0 c.
Proof.
  unfold Spec.enriched. cbn. rewrite !List.map_map.
  intros Hr. apply list_elem_of_In, List.in_map_iff in Hr.
  destruct Hr as (r0 & <- & Hr0). exists r0.
  split; [now apply list_elem_of_In|]. split; [now read_cells|].
  intros c Hc. unfold Facts.derived_columns in Hc.
  rewrite !not_elem_of_cons in Hc.
  destruct Hc as (H1 & H2 & H3 & H4 & H5 & _).
  now rewrite !get_insert_ne by congruence.
Qed.

Lemma minutes_positive (delivered scheduled : Z) (q : Q) :
  FA_transform.minutes_between (Stamp delivered) (Stamp scheduled) = Num q ->
  ((0 < q)%Q <-> scheduled < delivered) /\
  ((q < 1440)%Q <-> delivered < scheduled + Facts.day_ns).
Proof.
  cbn. intros [= <-]. unfold Qlt, Facts.day_ns. cbn. split; lia.
Qed.

(** X4.  Every delivery of the transformed batch was delivered strictly
    after its scheduled time and less than one day after it: a delivery
    made at the scheduled instant is removed, although the validator
    compares the two datetimes with [>=]. *)
Theorem transformed_deliveries_take_time (now : Z) (raw out : DataFrame) :
  empty raw = false ->
  FA_transform.transform_delivery_data now raw = Ret out ->
  forall r, r ∈ rows out ->
    exists scheduled delivered,
      get r "scheduled_datetime" = Stamp scheduled /\
      get r "delivered_datetime" = Stamp delivered /\
      scheduled < delivered < scheduled + Facts.day_ns.
Proof.
  intros Hempty Hrun r Hr.
  destruct (transform_shape now raw out Hempty Hrun) as (score & ->).
  apply transformed_rows in Hr as (r' & Hr' & Hmask & ->).
  apply valid_mask_acceptable in Hmask
    as ((q & Hq & Hlo & Hhi) & _ & _ & _ & (d & s & Hd & Hs & _) & _).
  apply enriched_row in Hr' as (r0 & _ & Hdur & Hsame).
  rewrite <- !Hsame, Hd, Hs in Hdur
    by (intros H%list_elem_of_In; vm_compute in H; intuition discriminate).
  rewrite Hdur in Hq. cbn in Hq. injection Hq as Hq.
  exists s, d. read_cells. split; [exact Hs|]. split; [exact Hd|].
  destruct (minutes_positive d s q) as [H1 H2]; [cbn; now rewrite Hq|].
  split; [now apply H1|now apply H2].
Qed.

Lemma transformed_deliveries_take_time_witness :
  empty Sample.punctual = false /\
  len Sample.punctual = 2%nat /\
  exists out,
    FA_transform.transform_delivery_data 7 Sample.punctual = Ret out /\
    len out = 1%nat /\
    forall r, r ∈ rows out ->
      exists scheduled delivered,
        get r "scheduled_datetime" = Stamp scheduled /\
        get r "delivered_datetime" = Stamp delivered /\
        scheduled < delivered < scheduled + Facts.day_ns.
Proof.
  split; [reflexivity|]. split; [reflexivity|].
  destruct (FA_transform.transform_delivery_data 7 Sample.punctual)
    as [out|e] eqn:Hrun; [|vm_compute in Hrun; discriminate Hrun].
  exists out. split; [reflexivity|]. split.
  - assert (H : (len <$> Some out) = Some 1%nat);
      [|injection H as H; exact H].
    change (Some out) with
      (match Ret out with Ret x => Some x | Raise _ => None end).
    rewrite <- Hrun. vm_compute. reflexivity.
  - now apply (transformed_deliveries_take_time 7 Sample.punctual).
Defined.

Lemma assign_prefix (c : string) (f : gmap string Cell -> Cell)
    (df : DataFrame) :
  columns df `prefix_of` columns (assign c f df).
Proof.
  cbn. destruct (has_column df c); [reflexivity|]. now exists [c].
Qed.

Lemma assign_columns (c c' : string) (f : gmap string Cell -> Cell)
    (df : DataFrame) :
  c ∈ columns (assign c' f df) <-> c ∈ columns df \/ c = c'.
Proof.
  cbn. unfold has_column. case_bool_decide as Hc.
  - split; [auto|]. intros [H| ->]; assumption.
  - rewrite elem_of_app, list_elem_of_singleton. reflexivity.
Qed.

Lemma assign_len (c : string) (f : gmap string Cell -> Cell)
    (df : DataFrame) :
  len (assign c f df) = len df.
Proof. unfold len. cbn. apply length_map. Qed.

Lemma assign_NoDup (c : string) (f : gmap string Cell -> Cell)
    (df : DataFrame) :
  NoDup (columns df) -> NoDup (columns (assign c f df)).
Proof.
  intros H. cbn. unfold has_column. case_bool_decide as Hc; [assumption|].
  apply NoDup_app. split; [assumption|]. split.
  - intros x Hx ->%list_elem_of_singleton. contradiction.
  - apply NoDup_singleton.
Qed.

Lemma enriched_len (raw : DataFrame) : len (Spec.enriched raw) = len raw.
Proof. unfold Spec.enriched. now rewrite !assign_len. Qed.

(** X5.  The transformation keeps the columns of the extracted batch in
    their places and appends the columns it computes; it adds no row and
    no duplicate of a column name. *)
Theorem transformation_appends_columns (now : Z) (raw out : DataFrame) :
  empty raw = false ->
  FA_transform.transform_delivery_data now raw = Ret out ->
  columns raw `prefix_of` columns out /\
  (forall c, c ∈ columns out <->
             c ∈ columns raw \/ c ∈ Facts.derived_columns) /\
  (NoDup (columns raw) -> NoDup (columns out)) /\
  (len out <= len raw)%nat.
Proof.
  intros Hempty Hrun.
  destruct (transform_shape now raw out Hempty Hrun) as (score & ->).
  split; [|split; [|split]].
  - unfold Spec.validated, Spec.enriched.
    repeat (etransitivity; [|apply assign_prefix]). reflexivity.
  - unfold Spec.validated, Spec.enriched.
    intros c. rewrite !assign_columns. cbn [columns select].
    rewrite !assign_columns. unfold Facts.derived_columns.
    rewrite !elem_of_cons, elem_of_nil. tauto.
  - unfold Spec.validated, Spec.enriched.
    intros H. repeat apply assign_NoDup. cbn [columns select].
    now repeat apply assign_NoDup.
  - unfold Spec.validated. rewrite !assign_len.
    rewrite <- (enriched_len raw). apply List.filter_length_le.
Qed.

Lemma transformation_appends_columns_witness :
  empty Sample.punctual = false /\
  exists out,
    FA_transform.transform_delivery_data 7 Sample.punctual = Ret out /\
    columns out = columns Sample.punctual ++ Facts.derived_columns /\
    (len out <= len Sample.punctual)%nat.
Proof.
  split; [reflexivity|].
  destruct (FA_transform.transform_delivery_data 7 Sample.punctual)
    as [out|e] eqn:Hrun; [|vm_compute in Hrun; discriminate Hrun].
  exists out. split; [reflexivity|].
  destruct (transformation_appends_columns 7 Sample.punctual out
                                           eq_refl Hrun)
    as (_ & _ & _ & Hlen).
  split; [|exact Hlen].
  assert (H : (columns <$> Some out) =
              Some (columns Sample.punctual ++ Facts.derived_columns));
    [|injection H as H; exact H].
  change (Some out) with
    (match Ret out with Ret x => Some x | Raise _ => None end).
  rewrite <- Hrun. vm_compute. reflexivity.
Defined.

(** ** The transformation pipeline *)

Lemma has_column_true (df : DataFrame) (c : string) :
  has_column df c = true <-> c ∈ columns df.
Proof. apply bool_decide_eq_true. Qed.

Lemma has_column_false (df : DataFrame) (c : string) :
  has_column df c = false <-> c ∉ columns df.
Proof. apply bool_decide_eq_false. Qed.

(** X6.  A batch without the [is_on_time] column passes the
    transformation, which computes [on_time_status], and then makes the
    pipeline raise KeyError as soon as one of its rows is valid: the
    analysis of the transformed batch reads [is_on_time]. *)
Theorem pipeline_needs_is_on_time (now : Z) (raw out : DataFrame) :
  FA_transform.transform_delivery_data now raw = Ret out ->
  empty out = false ->
  "is_on_time" ∉ columns raw ->
  FA_transform.transform_complete_pipeline now raw = Raise KeyError.
Proof.
  intros Hrun Hout Hmiss.
  assert (Hempty : empty raw = false).
  { destruct (empty raw) eqn:He; [|reflexivity].
    unfold FA_transform.transform_delivery_data in Hrun. rewrite He in Hrun.
    injection Hrun as <-. congruence. }
  assert (Hcol : has_column out "is_on_time" = false).
  { apply has_column_false. intros Hc.
    apply (transformation_appends_columns now raw out Hempty Hrun) in Hc.
    destruct Hc as [Hc|Hc%list_elem_of_In]; [contradiction|].
    vm_compute in Hc. intuition discriminate. }
  unfold FA_transform.transform_complete_pipeline. rewrite Hrun. cbn [obind].
  rewrite Hout. unfold FA_transform.analyze_transformed_data. rewrite Hout.
  unfold FA_transform.numeric_column at 1, FA_transform.column.
  now rewrite Hcol.
Qed.

Lemma pipeline_needs_is_on_time_witness :
  (exists out,
     FA_transform.transform_delivery_data 7 Sample.punctual = Ret out /\
     len out = 1%nat /\
     exists r, rows out = [r] /\ get r "on_time_status" = Flag false) /\
  ("is_on_time" ∉ columns Sample.punctual) /\
  FA_transform.transform_complete_pipeline 7 Sample.punctual
    = Raise KeyError.
Proof.
  destruct (FA_transform.transform_delivery_data 7 Sample.punctual)
    as [out|e] eqn:Hrun; [|vm_compute in Hrun; discriminate Hrun].
  assert (Hrows : (fun df => map (fun r => get r "on_time_status") (rows df)) <$> Some out
                  = Some [Flag false]).
  { change (Some out) with
      (match Ret out with Ret x => Some x | Raise _ => None end).
    rewrite <- Hrun. vm_compute. reflexivity. }
  cbn in Hrows. injection Hrows as Hrows.
  destruct (rows out) as [|r [|r' l]] eqn:Hout;
    [discriminate Hrows| |discriminate Hrows].
  injection Hrows as Hr.
  assert (Hmiss : "is_on_time" ∉ columns Sample.punctual).
  { clear. intros H%list_elem_of_In. vm_compute in H. intuition discriminate. }
  split; [|split; [exact Hmiss|]].
  - exists out. split; [reflexivity|]. unfold len. rewrite Hout.
    split; [reflexivity|]. exists r. split; [reflexivity|exact Hr].
  - apply (pipeline_needs_is_on_time 7 Sample.punctual out Hrun);
      [|exact Hmiss].
    apply (empty_false out "delivery_status").
    + apply (transformation_appends_columns 7 Sample.punctual out eq_refl
                                            Hrun).
      left. apply list_elem_of_In. vm_compute. auto 20.
    + rewrite Hout. intros [=].
Defined.

(** ** The projection on the warehouse's columns *)

Lemma upper_final_NoDup :
  NoDup (map Py.upper FA_transform.get_final_columns).
Proof. refine (bool_decide_unpack _ _). vm_compute. exact I. Qed.

Lemma map_filter_sublist {A B} (f : A -> B) (p : A -> bool) (l : list A) :
  map f (List.filter p l) `sublist_of` map f l.
Proof.
  induction l as [|a l IH]; [constructor|].
  cbn. destruct (p a); now constructor.
Qed.

Lemma NoDup_map_inj {A B} (f : A -> B) (l : list A) (x y : A) :
  NoDup (map f l) -> x ∈ l -> y ∈ l -> f x = f y -> x = y.
Proof.
  induction l as [|a l IH]; [intros _ []%elem_of_nil|].
  cbn. intros [Ha Hl]%NoDup_cons [->|Hx]%elem_of_cons [->|Hy]%elem_of_cons Heq.
  - reflexivity.
  - exfalso. apply Ha. rewrite Heq. apply list_elem_of_In, List.in_map.
    now apply list_elem_of_In.
  - exfalso. apply Ha. rewrite <- Heq. apply list_elem_of_In, List.in_map.
    now apply list_elem_of_In.
  - now apply IH.
Qed.

Lemma tabulated_lookup (f : string -> string) (v : string -> Cell)
    (l : list string) (c : string) :
  NoDup (map f l) -> c ∈ l ->
  (list_to_map (map (fun c => (f c, v c)) l) : gmap string Cell) !! f c
  = Some (v c).
Proof.
  intros Hnd Hc. apply elem_of_list_to_map_1.
  - rewrite <- list_fmap_compose. exact Hnd.
  - apply list_elem_of_In, List.in_map_iff. exists c.
    split; [reflexivity|now apply list_elem_of_In].
Qed.

Lemma tabulated_none (f : string -> string) (v : string -> Cell)
    (l : list string) (k : string) :
  k ∉ map f l ->
  (list_to_map (map (fun c => (f c, v c)) l) : gmap string Cell) !! k = None.
Proof.
  intros Hk. apply not_elem_of_list_to_map_1.
  now rewrite <- list_fmap_compose.
Qed.

Lemma available_NoDup (df : DataFrame) :
  NoDup (map Py.upper (List.filter (has_column df)
                                   FA_transform.get_final_columns)).
Proof.
  eapply sublist_NoDup; [apply upper_final_NoDup|].
  apply map_filter_sublist.
Qed.

Lemma available_iff (df : DataFrame) (c : string) :
  c ∈ List.filter (has_column df) FA_transform.get_final_columns <->
  c ∈ FA_transform.get_final_columns /\ c ∈ columns df.
Proof.
  rewrite list_elem_of_In, List.filter_In, <- list_elem_of_In.
  now rewrite has_column_true.
Qed.

(** X7.  The projection keeps every row and, of the columns, those of
    the final list that the batch has, under their upper-case names and
    in the order of the list; a row of the result holds these columns
    and nothing else, so the other columns of the transformed batch
    (the quality score among them) do not reach the warehouse. *)
Theorem projection_keeps_final_columns (df : DataFrame) :
  len (FA_transform.prepare_for_snowflake df) = len df /\
  columns (FA_transform.prepare_for_snowflake df)
    `sublist_of` map Py.upper FA_transform.get_final_columns /\
  NoDup (columns (FA_transform.prepare_for_snowflake df)) /\
  (forall c, c ∈ columns (FA_transform.prepare_for_snowflake df) <->
             exists c0, c0 ∈ FA_transform.get_final_columns /\
                        c0 ∈ columns df /\ c = Py.upper c0) /\
  (forall r c, r ∈ rows (FA_transform.prepare_for_snowflake df) ->
               (is_Some (r !! c) <->
                c ∈ columns (FA_transform.prepare_for_snowflake df))).
Proof.
  unfold FA_transform.prepare_for_snowflake. cbv zeta. cbn [columns rows].
  split; [unfold len; cbn [rows]; apply length_map|].
  split; [apply map_filter_sublist|].
  split; [apply available_NoDup|]. split.
  - intros c. rewrite list_elem_of_In, List.in_map_iff. split.
    + intros (c0 & <- & Hc0%list_elem_of_In%available_iff).
      exists c0. tauto.
    + intros (c0 & H1 & H2 & ->). exists c0. split; [reflexivity|].
      now apply list_elem_of_In, available_iff.
  - intros r c Hr. apply list_elem_of_In, List.in_map_iff in Hr.
    destruct Hr as (r0 & <- & _). split.
    + intros Hsome.
      destruct (decide (c ∈ map Py.upper
                          (List.filter (has_column df)
                                       FA_transform.get_final_columns)))
        as [Hin|Hout]; [exact Hin|].
      rewrite tabulated_none in Hsome by exact Hout.
      now destruct Hsome.
    + intros Hc. apply list_elem_of_In, List.in_map_iff in Hc.
      destruct Hc as (c0 & <- & Hc0%list_elem_of_In).
      rewrite tabulated_lookup by (apply available_NoDup || exact Hc0).
      eauto.
Qed.

(** X8.  Row [i] of the result of the projection is made of row [i] of
    the batch alone.  In a final column that the batch has, a dimension
    key is left as it is, and so is every cell that is not a number and
    every cell of a column that holds something else than numbers and
    nulls (a column of object dtype); a number stays a number.  (The
    numbers of the other columns are rounded to two decimals.) *)
Theorem projection_changes_numbers_only (df : DataFrame) (i : nat)
    (r : gmap string Cell) (c : string) :
  rows df !! i = Some r ->
  c ∈ FA_transform.get_final_columns -> c ∈ columns df ->
  exists r',
    rows (FA_transform.prepare_for_snowflake df) !! i = Some r' /\
    (c ∈ Facts.key_columns -> get r' (Py.upper c) = get r c) /\
    ((forall q, get r c <> Num q) -> get r' (Py.upper c) = get r c) /\
    (FA_transform.number_dtype df c = false ->
     get r' (Py.upper c) = get r c) /\
    (forall q, get r c = Num q -> exists q', get r' (Py.upper c) = Num q').
Proof.
  intros Hr Hc Hcol.
  unfold FA_transform.prepare_for_snowflake. cbv zeta. cbn [rows].
  eexists. split.
  { rewrite list_lookup_fmap, Hr. reflexivity. }
  assert (Hav : c ∈ List.filter (has_column df)
                                FA_transform.get_final_columns)
    by now apply available_iff.
  assert (Hget : forall v : string -> Cell,
            get (list_to_map
                   (map (fun c => (Py.upper c, v c))
                        (List.filter (has_column df)
                                     FA_transform.get_final_columns)))
                (Py.upper c) = v c).
  { intros v. unfold get.
    now rewrite (tabulated_lookup Py.upper v _ c (available_NoDup df) Hav). }
  rewrite !Hget. fold (Facts.key_columns).
  split; [|split; [|split]].
  - intros Hkey. destruct (get r c) as [|q| | |]; try reflexivity.
    cbv beta iota. case_bool_decide as Hnum; [|reflexivity].
    apply list_elem_of_In, List.filter_In in Hnum as [_ Hnum].
    apply andb_true_iff in Hnum as [_ Hnum].
    apply negb_true_iff, bool_decide_eq_false in Hnum. contradiction.
  - intros Hn. destruct (get r c) as [|q| | |]; try reflexivity.
    now destruct (Hn q).
  - intros Hdtype. destruct (get r c) as [|q| | |]; try reflexivity.
    cbv beta iota. case_bool_decide as Hnum; [|reflexivity].
    apply list_elem_of_In, List.filter_In in Hnum as [_ Hnum].
    apply andb_true_iff in Hnum as [Hnum _]. congruence.
  - intros q ->. cbv beta iota. case_bool_decide; eauto.
Qed.

Lemma projection_changes_numbers_only_witness :
  exists r r',
    rows Sample.measured !! 0%nat = Some r /\
    rows (FA_transform.prepare_for_snowflake Sample.measured) !! 0%nat
      = Some r' /\
    get r "delivery_distance_km" = Num 4999.99 /\
    (exists q', get r' "DELIVERY_DISTANCE_KM" = Num q') /\
    get r' "VEHICLE_ID" = get r "vehicle_id" /\
    get r' "DELIVERY_STATUS" = Str "delivered".
Proof.
  exists (Sample.on_road 1 4999.99).
  destruct (projection_changes_numbers_only
              Sample.measured 0 (Sample.on_road 1 4999.99)
              "delivery_distance_km" eq_refl)
    as (r' & Hr' & _ & _ & _ & Hnum).
  { apply list_elem_of_In. vm_compute. auto 30. }
  { apply list_elem_of_In. vm_compute. auto 30. }
  exists r'. split; [reflexivity|]. split; [exact Hr'|].
  split; [vm_compute; reflexivity|].
  split; [apply (Hnum 4999.99%Q); vm_compute; reflexivity|].
  assert (Hrow : (fun x => (get x "VEHICLE_ID", get x "DELIVERY_STATUS"))
                   <$> Some r'
                 = Some (get (Sample.on_road 1 4999.99) "vehicle_id",
                         Str "delivered")).
  { rewrite <- Hr'. vm_compute. reflexivity. }
  cbn in Hrow. injection Hrow as -> ->. auto.
Defined.

(** ** The whole transformation *)

Lemma transform_len (now : Z) (raw td : DataFrame) :
  FA_transform.transform_delivery_data now raw = Ret td ->
  (len td <= len raw)%nat.
Proof.
  intros Hrun. destruct (empty raw) eqn:He.
  - unfold FA_transform.transform_delivery_data in Hrun.
    rewrite He in Hrun. injection Hrun as <-. lia.
  - destruct (transform_shape now raw td He Hrun) as (score & ->).
    rewrite assign_len. unfold Spec.validated. rewrite assign_len.
    rewrite <- (enriched_len raw). unfold len, select. cbn [rows].
    apply List.filter_length_le.
Qed.

(** The pipeline gives up with an empty frame, or hands over the
    projection of a batch that passed the compatibility check. *)
Lemma pipeline_ret (now : Z) (raw out : DataFrame) :
  FA_transform.transform_complete_pipeline now raw = Ret out ->
  out = no_frame \/
  exists td,
    FA_transform.transform_delivery_data now raw = Ret td /\
    FA_transform.validate_snowflake_compatibility td = Ret true /\
    out = FA_transform.prepare_for_snowflake td /\ empty out = false.
Proof.
  unfold FA_transform.transform_complete_pipeline.
  destruct (FA_transform.transform_delivery_data now raw) as [td|e];
    [|discriminate].
  cbn [obind]. destruct (empty td); [intros [= <-]; now left|].
  intros [_ Hrun]%need_ret. revert Hrun.
  destruct (FA_transform.validate_snowflake_compatibility td)
    as [[|]|e] eqn:Hvalid;
    cbn [obind negb]; [|intros [= <-]; now left|discriminate].
  cbv zeta.
  destruct (empty (FA_transform.prepare_for_snowflake td)) eqn:He;
    intros [= <-]; [now left|].
  right. now exists td.
Qed.

Lemma critical_not_null (td : DataFrame) (c : string)
    (r : gmap string Cell) :
  FA_transform.validate_snowflake_compatibility td = Ret true ->
  c ∈ ["delivery_id"; "vehicle_id"; "driver_id"; "date_key"] ->
  c ∈ columns td -> r ∈ rows td -> get r c <> NA.
Proof.
  unfold FA_transform.validate_snowflake_compatibility. cbv zeta.
  destruct (existsb _ _) eqn:Hnull; [discriminate|].
  intros _ Hc Hcol Hr Hna.
  apply not_true_iff_false in Hnull. apply Hnull.
  apply existsb_exists. exists c. split.
  - apply filter_In. split; [now apply list_elem_of_In|].
    now apply has_column_true.
  - unfold FA_transform.has_null. apply existsb_exists. exists r.
    split; [now apply list_elem_of_In|]. now rewrite Hna.
Qed.

Lemma critical_is_final (c0 : string) :
  c0 ∈ FA_transform.get_final_columns ->
  Py.upper c0 ∈ Facts.critical_keys ->
  c0 ∈ ["delivery_id"; "vehicle_id"; "driver_id"; "date_key"].
Proof.
  intros Hfinal Hc.
  assert (Hup : Facts.critical_keys =
                map Py.upper ["delivery_id"; "vehicle_id"; "driver_id";
                              "date_key"]) by (vm_compute; reflexivity).
  rewrite Hup in Hc. clear Hup.
  apply list_elem_of_In, List.in_map_iff in Hc.
  destruct Hc as (k & Hk & Hin%list_elem_of_In).
  assert (Hkf : k ∈ FA_transform.get_final_columns).
  { revert Hin. clear. intros Hin.
    repeat (apply elem_of_cons in Hin as [->|Hin]; [evaluate|]).
    now apply elem_of_nil in Hin. }
  rewrite <- (NoDup_map_inj Py.upper _ k c0 upper_final_NoDup Hkf Hfinal Hk).
  exact Hin.
Qed.

Lemma prepared_row (td : DataFrame) (r : gmap string Cell) :
  r ∈ rows (FA_transform.prepare_for_snowflake td) ->
  exists r0 (v : string -> Cell),
    r0 ∈ rows td /\
    r = list_to_map
          (map (fun c => (Py.upper c, v c))
               (List.filter (has_column td) FA_transform.get_final_columns)) /\
    forall c, get r0 c <> NA -> v c <> NA.
Proof.
  intros (r0 & <- & Hr0%list_elem_of_In)%list_elem_of_In%List.in_map_iff.
  eexists r0, _. split; [exact Hr0|]. split; [reflexivity|].
  intros c Hc. cbv beta. destruct (get r0 c); [congruence| |discriminate..].
  case_bool_decide; discriminate.
Qed.

Lemma prepared_columns (td : DataFrame) :
  columns (FA_transform.prepare_for_snowflake td) =
  map Py.upper (List.filter (has_column td) FA_transform.get_final_columns).
Proof. reflexivity. Qed.

Lemma prepared_column (td : DataFrame) (c : string) :
  c ∈ columns (FA_transform.prepare_for_snowflake td) ->
  exists c0,
    c0 ∈ List.filter (has_column td) FA_transform.get_final_columns /\
    c = Py.upper c0.
Proof.
  rewrite prepared_columns.
  intros (c0 & <- & Hc0%list_elem_of_In)%list_elem_of_In%List.in_map_iff.
  exists c0. split; [exact Hc0|reflexivity].
Qed.

Lemma prepared_key_not_null (td : DataFrame) (r : gmap string Cell)
    (c : string) :
  FA_transform.validate_snowflake_compatibility td = Ret true ->
  r ∈ rows (FA_transform.prepare_for_snowflake td) ->
  c ∈ Facts.critical_keys ->
  c ∈ columns (FA_transform.prepare_for_snowflake td) ->
  get r c <> NA.
Proof.
  intros Hvalid (r0 & v & Hr0 & -> & Hv)%prepared_row Hc
         (c0 & Hc0 & ->)%prepared_column.
  pose proof Hc0 as [Hfinal Htdc]%available_iff.
  pose proof (critical_is_final c0 Hfinal Hc) as Hlow.
  unfold get at 1.
  rewrite (tabulated_lookup Py.upper v _ c0 (available_NoDup td) Hc0).
  apply Hv. now apply (critical_not_null td).
Qed.

(** X9.  What the transformation hands to the load: the empty frame
    [pd.DataFrame()] when it gave up, and otherwise a batch with rows,
    no more of them than the extracted batch had, whose columns are
    among the final columns under their upper-case names, and in which
    no row has a null DELIVERY_ID, VEHICLE_ID, DRIVER_ID or DATE_KEY:
    one null in one of these keys makes the pipeline give up the whole
    batch. *)
Theorem transformed_batch_is_keyed (now : Z) (raw out : DataFrame) :
  FA_transform.transform_complete_pipeline now raw = Ret out ->
  (empty out = true -> out = no_frame) /\
  (len out <= len raw)%nat /\
  columns out `sublist_of` map Py.upper FA_transform.get_final_columns /\
  (forall r c, r ∈ rows out -> c ∈ Facts.critical_keys ->
               c ∈ columns out -> get r c <> NA).
Proof.
  intros [->|(td & Htd & Hvalid & -> & He)]%pipeline_ret.
  { split; [reflexivity|]. split; [apply Nat.le_0_l|].
    split; [apply sublist_nil_l|]. now intros r c []%elem_of_nil. }
  split; [intros He'; rewrite He' in He; discriminate He|]. split; [|split].
  - unfold FA_transform.prepare_for_snowflake, len. cbn [rows].
    rewrite length_map. now apply (transform_len now).
  - apply map_filter_sublist.
  - intros r c. now apply prepared_key_not_null.
Qed.

Lemma transformed_batch_is_keyed_witness :
  exists out,
    FA_transform.transform_complete_pipeline 1735689600 Sample.complete
      = Ret out /\
    (len out <= 2)%nat /\
    (forall r, r ∈ rows out -> "DELIVERY_ID" ∈ columns out ->
               get r "DELIVERY_ID" <> NA).
Proof.
  assert (H : match FA_transform.transform_complete_pipeline
                      1735689600 Sample.complete with
              | Ret _ => true
              | Raise _ => false
              end = true) by (vm_compute; reflexivity).
  destruct (FA_transform.transform_complete_pipeline
              1735689600 Sample.complete) as [out|e] eqn:Hrun;
    [|discriminate H].
  destruct (transformed_batch_is_keyed 1735689600 Sample.complete out Hrun)
    as (_ & Hlen & _ & Hkeys).
  exists out. split; [reflexivity|]. split; [exact Hlen|].
  intros r Hr. apply (Hkeys r "DELIVERY_ID" Hr).
  apply list_elem_of_In. vm_compute. tauto.
Defined.

(** ** The load module *)

(** *** Conversion of the key column *)

Lemma for_each_ret {A B} (f : A -> outcome B) (l : list A) (l' : list B) :
  FA_load.for_each f l = Ret l' -> Forall2 (fun a b => f a = Ret b) l l'.
Proof.
  revert l'. induction l as [|a l IH]; intros l'; cbn.
  - intros [= <-]. constructor.
  - destruct (f a) as [b|e] eqn:Hb; [|discriminate]. cbn.
    destruct (FA_load.for_each f l) as [bs|e]; [|discriminate]. cbn.
    intros [= <-]. constructor; auto.
Qed.

Lemma for_each_fixed {A} (f : A -> outcome A) (l : list A) :
  Forall (fun a => f a = Ret a) l -> FA_load.for_each f l = Ret l.
Proof.
  induction 1 as [|a l Ha Hl IH]; [reflexivity|].
  cbn. now rewrite Ha, IH.
Qed.

Lemma as_int64_key (r : gmap string Cell) (c : Cell) :
  FA_load.as_int64 (get r ID) = Ret c ->
  Spec.integer_key (<[ID := c]> r) /\
  FA_load.as_int64 c = Ret c.
Proof.
  unfold Spec.integer_key, key. rewrite get_insert_eq.
  destruct (get r ID) as [|q|s|b|ns]; cbn; try discriminate;
    intros [= <-]; cbn; rewrite lookup_insert_eq;
    now rewrite ?trunc_inject.
Qed.

(** X10.  When the conversion of the key column returns, the batch has
    its columns and its number of rows, every row has an integer that is
    not null in DELIVERY_ID, and converting again changes nothing; a
    batch without the column is returned as it is.  A null key makes the
    conversion raise. *)
Theorem conversion_makes_integer_keys (df : DataFrame) :
  (forall df_fixed,
     FA_load.convert_dataframe_types df = Ret df_fixed ->
     columns df_fixed = columns df /\
     len df_fixed = len df /\
     (ID ∈ columns df -> Forall Spec.integer_key (rows df_fixed)) /\
     (ID ∉ columns df -> df_fixed = df) /\
     FA_load.convert_dataframe_types df_fixed = Ret df_fixed) /\
  (forall r, ID ∈ columns df -> r ∈ rows df -> get r ID = NA ->
             exists e, FA_load.convert_dataframe_types df = Raise e).
Proof.
  unfold FA_load.convert_dataframe_types. split.
  - intros df_fixed.
    destruct (has_column df ID) eqn:Hcol.
    + apply has_column_true in Hcol.
      destruct (FA_load.for_each _ (rows df)) as [rows'|e] eqn:Hrows;
        [|discriminate].
      cbn. intros [= <-]. cbn [columns rows].
      apply for_each_ret in Hrows.
      split; [reflexivity|].
      split; [unfold len; cbn; symmetry; exact (Forall2_length _ _ _ Hrows)|].
      assert (Hkeys : Forall (fun r' => Spec.integer_key r' /\
                  (c <~ FA_load.as_int64 (get r' ID) ;; Ret (<[ID := c]> r'))
                  = Ret r') rows').
      { clear -Hrows. induction Hrows as [|r r' l l' Hr Hl IH];
          constructor; [|exact IH].
        destruct (FA_load.as_int64 (get r ID)) as [c|e] eqn:Hc;
          [|discriminate].
        cbn in Hr. injection Hr as <-.
        destruct (as_int64_key r c Hc) as [Hkey Hfix].
        split; [exact Hkey|]. rewrite get_insert_eq, Hfix. cbn.
        now rewrite insert_insert_eq. }
      split; [intros _; eapply List.Forall_impl; [|exact Hkeys]; now intros ? []|].
      split; [intros Hno; contradiction|].
      unfold has_column. cbn [columns].
      rewrite bool_decide_eq_true_2 by exact Hcol.
      rewrite for_each_fixed; [reflexivity|].
      eapply List.Forall_impl; [|exact Hkeys]. now intros ? [].
    + apply has_column_false in Hcol. intros [= <-].
      split; [reflexivity|]. split; [reflexivity|].
      split; [intros Hin; contradiction|]. split; [reflexivity|].
      unfold has_column. now rewrite bool_decide_eq_false_2.
  - intros r Hcol Hr Hna.
    rewrite (proj2 (has_column_true df ID) Hcol).
    destruct (FA_load.for_each _ (rows df)) as [rows'|e] eqn:Hrows;
      [|now exists e].
    exfalso. apply for_each_ret in Hrows.
    apply list_elem_of_In in Hr.
    induction Hrows as [|r0 r' l l' Hr0 Hl IH]; [destruct Hr|].
    destruct Hr as [->|Hr]; [|auto].
    rewrite Hna in Hr0. discriminate.
Qed.

(** *** Queries of the load module change nothing *)

Lemma untouched_table (name : string) :
  Spec.keeps Spec.untouched (FA_load.table name).
Proof.
  intros w o w' H. unfold FA_load.table in H.
  branches H; injection H as _ <-; reflexivity.
Qed.

Lemma untouched_select_count (name : string) :
  Spec.keeps Spec.untouched (FA_load.select_count name).
Proof.
  unfold FA_load.select_count.
  keeping ltac:(first [apply untouched_table | untouched_step]).
Qed.

Lemma untouched_select_ids (name : string) :
  Spec.keeps Spec.untouched (FA_load.select_ids name).
Proof.
  unfold FA_load.select_ids.
  keeping ltac:(first [apply untouched_table | untouched_step]).
Qed.

Ltac untouched_query :=
  first [ apply untouched_select_count | apply untouched_select_ids
        | apply untouched_table | apply untouched_dispose
        | untouched_step ].

Lemma untouched_count_records (name : string) :
  Spec.keeps Spec.untouched (FA_load.count_records_in_snowflake name).
Proof.
  unfold FA_load.count_records_in_snowflake. keeping untouched_query.
Qed.

Lemma untouched_analyze (df : DataFrame) (name : string) :
  Spec.keeps Spec.untouched (FA_load.analyze_upsert_performance df name).
Proof.
  unfold FA_load.analyze_upsert_performance. keeping untouched_query.
Qed.

(** *** Table creation *)

Lemma has_table_lookup (name : string) (w : World) :
  bool_decide (is_Some (tables w !! name)) = true <->
  exists t, tables w !! name = Some t.
Proof. now rewrite bool_decide_eq_true. Qed.

(** X11.  For a sample batch with columns, [create_table_if_not_exists]
    raises nothing and never alters a table that exists: with the table
    there, or when it returns False, the tables are those of before;
    when it creates the table, the new table is empty and has the
    columns of the sample batch, and no other table changes.  It returns
    True unless the warehouse refuses the connection, the inspection or
    the creation. *)
Theorem table_creation_spares_tables (name : string) (df : DataFrame)
    (w : World) :
  columns df <> [] ->
  exists created w',
    FA_load.create_table_if_not_exists name df w = (Ret created, w') /\
    Spec.same_environment w w' /\
    (is_Some (tables w !! name) -> Spec.untouched w w') /\
    (created = false -> tables w' = tables w) /\
    (tables w !! name = None -> created = true ->
     tables w' = <[name := mkTable (columns df) []]> (tables w) /\
     List.filter mutation (trace w') =
       List.filter mutation (trace w) ++ [CreateTable]) /\
    (created = true <->
     refuses w Connect = false /\ refuses w HasTable = false /\
     (tables w !! name = None -> refuses w CreateTable = false)).
Proof.
  intros _.
  destruct (FA_load.create_table_if_not_exists name df w) as [o w'] eqn:Hrun.
  pose proof (environment_create_table name df _ _ _ Hrun) as Henv.
  revert Hrun.
  unfold FA_load.create_table_if_not_exists, try_except, bind, connect,
    begin, execute, FA_load.put_table, ret.
  cbn [refuses log tables].
  assert (Hquery : Spec.untouched w (log HasTable (log Connect w))).
  { transitivity (log Connect w); now apply untouched_log. }
  destruct (refuses w Connect) eqn:Hc;
    [|destruct (refuses w HasTable) eqn:Hh;
      [|destruct (tables w !! name) as [t|] eqn:Ht;
        [rewrite bool_decide_eq_true_2 by eauto
        |rewrite bool_decide_eq_false_2 by (intros [? [=]]);
         destruct (refuses w CreateTable) eqn:Hcr]]];
    cbn [negb]; intros Hrun; cbv beta iota in Hrun;
    cbn [refuses log tables] in Hrun; rewrite ?Hc, ?Hcr in Hrun;
    cbv beta iota in Hrun;
    apply pair_equal_spec in Hrun as [<- <-]; eexists _, _;
    (split; [reflexivity|]); (split; [exact Henv|]);
    repeat lazymatch goal with
           | |- _ /\ _ => split
           | |- _ <-> _ => split
           | |- _ -> _ => intro
           end;
    repeat match goal with
           | H : _ /\ _ |- _ => destruct H
           | H : is_Some None |- _ => destruct H as [? [=]]
           | H : None = None -> _ |- _ => specialize (H eq_refl)
           end;
    try discriminate; try reflexivity; try assumption.
  - now apply untouched_log.
  - cbn. rewrite !List.filter_app. cbn. now rewrite !app_nil_r.
Qed.

Lemma table_creation_spares_tables_witness :
  columns Sample.incoming <> [] /\
  (exists w',
     FA_load.create_table_if_not_exists "FACT_DELIVERIES" Sample.incoming
                                        Sample.vacant = (Ret true, w') /\
     tables w' = {["FACT_DELIVERIES" :=
                     mkTable (columns Sample.incoming) []]}) /\
  (exists w',
     FA_load.create_table_if_not_exists "FACT_DELIVERIES" Sample.incoming
                                        (Sample.holding Sample.stock)
     = (Ret true, w') /\
     tables w' = tables (Sample.holding Sample.stock)).
Proof.
  assert (Hcols : columns Sample.incoming <> []) by discriminate.
  split; [exact Hcols|]. split.
  - destruct (table_creation_spares_tables "FACT_DELIVERIES" Sample.incoming
                                           Sample.vacant Hcols)
      as (created & w' & Hrun & _ & _ & _ & Hnew & Hiff).
    assert (Hcreated : created = true).
    { apply Hiff. repeat split; reflexivity. }
    subst created. exists w'. split; [exact Hrun|].
    now apply Hnew.
  - destruct (table_creation_spares_tables "FACT_DELIVERIES" Sample.incoming
                                           (Sample.holding Sample.stock)
                                           Hcols)
      as (created & w' & Hrun & _ & Hold & _ & _ & Hiff).
    assert (Hcreated : created = true).
    { apply Hiff. repeat split; reflexivity. }
    subst created. exists w'. split; [exact Hrun|].
    apply Hold. eexists. reflexivity.
Defined.

(** *** Counting *)

(** X12.  With the configuration in order, counting the records sends
    queries only and always returns a number: the number of rows of the
    table, and 0 when the table is missing or the warehouse refuses the
    connection or the query; a count of 0 does not tell an empty table
    from a failure. *)
Theorem count_is_zero_on_failure (name : string) (w : World) :
  Spec.configured w ->
  exists w',
    FA_load.count_records_in_snowflake name w =
      (Ret (match tables w !! name with
            | Some t => if refuses w Connect || refuses w SelectCount
                        then 0 else Z.of_nat (length (body t))
            | None => 0
            end), w') /\
    Spec.untouched w w'.
Proof.
  intros Hw.
  destruct (FA_load.count_records_in_snowflake name w) as [o w'] eqn:Hrun.
  pose proof (untouched_count_records name _ _ _ Hrun) as Hkeep.
  exists w'. split; [|exact Hkeep]. revert Hrun.
  unfold FA_load.count_records_in_snowflake.
  rewrite (bind_ok _ _ w w tt) by now apply configured_connection.
  unfold try_finally, try_except, connect, FA_load.select_count, execute,
    bind, FA_load.table, ret.
  cbn [refuses log tables].
  destruct (refuses w Connect), (refuses w SelectCount),
    (tables w !! name) as [t|]; cbn [orb];
    intros Hrun; apply pair_equal_spec in Hrun as [<- <-]; reflexivity.
Qed.

Lemma count_is_zero_on_failure_witness :
  Spec.configured (Sample.holding Sample.bare) /\
  Spec.configured Sample.vacant /\
  (exists w', FA_load.count_records_in_snowflake
                "FACT_DELIVERIES" (Sample.holding Sample.stock)
              = (Ret 3, w')) /\
  (exists w', FA_load.count_records_in_snowflake
                "FACT_DELIVERIES" (Sample.holding Sample.bare)
              = (Ret 0, w')) /\
  (exists w', FA_load.count_records_in_snowflake
                "FACT_DELIVERIES" Sample.vacant = (Ret 0, w')).
Proof.
  split; [reflexivity|]. split; [reflexivity|]. split; [|split].
  - destruct (count_is_zero_on_failure "FACT_DELIVERIES"
                (Sample.holding Sample.stock) eq_refl) as (w' & Hrun & _).
    now exists w'.
  - destruct (count_is_zero_on_failure "FACT_DELIVERIES"
                (Sample.holding Sample.bare) eq_refl) as (w' & Hrun & _).
    now exists w'.
  - destruct (count_is_zero_on_failure "FACT_DELIVERIES"
                Sample.vacant eq_refl) as (w' & Hrun & _).
    now exists w'.
Defined.

(** *** The analysis before the upsert *)

Lemma for_each_map {A B C} (f : B -> outcome C) (g : A -> B) (l : list A) :
  FA_load.for_each (fun a => f (g a)) l = FA_load.for_each f (map g l).
Proof.
  induction l as [|a l IH]; [reflexivity|]. cbn. now rewrite IH.
Qed.

Lemma keys_partition (ids : list Z) (l : list (gmap string Cell)) :
  Forall Spec.integer_key l ->
  length (List.filter (fun k => negb (bool_decide (k ∈ ids))) (Spec.keys l))
  = length (List.filter (fun r => negb (in_ids ids r)) l) /\
  length (List.filter (fun k => bool_decide (k ∈ ids)) (Spec.keys l))
  = length (List.filter (fun r => negb (negb (in_ids ids r))) l).
Proof.
  induction 1 as [|r l Hr Hl [IH1 IH2]]; [split; reflexivity|].
  destruct (integer_key_get r Hr) as (k & Hk & _).
  rewrite (keys_cons r l k Hk). cbn [List.filter].
  assert (Hin : in_ids ids r = bool_decide (k ∈ ids))
    by (unfold in_ids; now rewrite Hk).
  rewrite !Hin.
  destruct (bool_decide (k ∈ ids)); cbn [negb length];
    rewrite ?IH1, ?IH2; split; reflexivity.
Qed.

(** X13.  On a healthy warehouse the analysis sends queries only, and
    the counts it predicts are those of the partition both upserts make
    of the batch: the rows whose key the table does not hold, the rows
    whose key it holds, and their sum, the size of the batch. *)
Theorem analysis_predicts_partition (df : DataFrame) (name : string)
    (t : Table) (w : World) :
  Spec.healthy w -> Spec.stored w name t ->
  ID ∈ columns df -> Forall Spec.integer_key (rows df) ->
  let '(new_df, update_df) :=
    FA_load.split_records (Spec.keys (body t)) df in
  exists w',
    FA_load.analyze_upsert_performance df name w =
      (Ret (Some (len new_df, len update_df, len df)), w') /\
    Spec.untouched w w' /\
    (len new_df + len update_df = len df)%nat.
Proof.
  intros Hw Hst Hid Hkeys. rewrite split_records_rows.
  pose proof Hw as [Hc Hr]. pose proof Hst as (Ht & Hids & Htk).
  destruct (FA_load.analyze_upsert_performance df name w) as [o w'] eqn:Hrun.
  pose proof (untouched_analyze df name _ _ _ Hrun) as Hkeep.
  exists w'. split; [|split; [exact Hkeep|]].
  - revert Hrun. unfold FA_load.analyze_upsert_performance.
    rewrite (bind_ok _ _ w w tt) by now apply connection_ok.
    unfold try_finally, try_except.
    erewrite bind_ok.
    2:{ rewrite connect_ok by apply Hr. unfold FA_load.select_ids.
        erewrite bind_ok.
        2:{ rewrite execute_ok by apply Hr.
            erewrite bind_ok by (unfold FA_load.table; cbn; now rewrite Ht).
            rewrite bool_decide_eq_true_2 by assumption. reflexivity. }
        unfold lift. now rewrite for_each_keys. }
    erewrite bind_ok by (unfold lift; now rewrite column_present).
    erewrite bind_ok.
    2:{ unfold lift. rewrite for_each_map. now rewrite for_each_keys. }
    destruct (keys_partition (Spec.keys (body t)) (rows df) Hkeys)
      as [Hnew Hupd].
    unfold ret, len, select, FA_load.isin. cbn [rows].
    rewrite Hnew, Hupd. intros Hrun.
    apply pair_equal_spec in Hrun as [<- _]. reflexivity.
  - unfold len, select, FA_load.isin. cbn [rows].
    rewrite <- length_app.
    apply Permutation_length, (batch_split (Spec.keys (body t)) (rows df)).
Qed.

Lemma analysis_predicts_partition_witness :
  Spec.healthy (Sample.holding Sample.stock) /\
  Spec.stored (Sample.holding Sample.stock) "FACT_DELIVERIES" Sample.stock /\
  ID ∈ columns Sample.incoming /\
  Forall Spec.integer_key (rows Sample.incoming) /\
  exists w',
    FA_load.analyze_upsert_performance
      Sample.incoming "FACT_DELIVERIES" (Sample.holding Sample.stock)
    = (Ret (Some (2, 2, 4)%nat), w').
Proof.
  assert (Hw := healthy_holding Sample.stock).
  assert (Hst := stored_stock).
  assert (Hid : ID ∈ columns Sample.incoming)
    by (apply list_elem_of_In; left; reflexivity).
  assert (Hk : Forall Spec.integer_key (rows Sample.incoming))
    by apply loadable_incoming.
  repeat (split; [assumption|]).
  pose proof (analysis_predicts_partition
                Sample.incoming "FACT_DELIVERIES" Sample.stock
                (Sample.holding Sample.stock) Hw Hst Hid Hk) as H.
  destruct (FA_load.split_records (Spec.keys (body Sample.stock))
                                  Sample.incoming) as [new_df update_df] eqn:Hs.
  destruct H as (w' & Hrun & _ & _). exists w'. rewrite Hrun.
  assert (Hn : (len new_df, len update_df) = (2, 2)%nat).
  { change (len new_df, len update_df)
      with ((fun p => (len p.1, len p.2)) (new_df, update_df)).
    rewrite <- Hs. vm_compute. reflexivity. }
  injection Hn as -> ->. reflexivity.
Defined.

(** *** What a failed upsert leaves *)

#[local] Instance same_tables_preorder : PreOrder Facts.same_tables.
Proof.
  split; [intros w; reflexivity|].
  intros w1 w2 w3 H1 H2. unfold Facts.same_tables in *. congruence.
Qed.

Lemma keeps_weaken {S A} (R R' : S -> S -> Prop) (m : St S A) :
  (forall s s', R s s' -> R' s s') -> Spec.keeps R m -> Spec.keeps R' m.
Proof. intros Hsub Hm s o s' H. apply Hsub. exact (Hm _ _ _ H). Qed.

Lemma untouched_same_tables (w w' : World) :
  Spec.untouched w w' -> Facts.same_tables w w'.
Proof. intros (_ & H & _). exact H. Qed.

Lemma tables_execute {A} (s : Stmt) (m : M A) :
  Spec.keeps Facts.same_tables m ->
  Spec.keeps Facts.same_tables (execute s m).
Proof.
  intros Hm w o w' H. unfold execute in H.
  destruct (refuses (log s w) s).
  - injection H as _ <-. reflexivity.
  - exact (Hm _ _ _ H).
Qed.

Lemma tables_begin {A} (m : M A) :
  Spec.keeps Facts.same_tables m -> Spec.keeps Facts.same_tables (begin m).
Proof.
  intros Hm w o w' H. unfold begin in H.
  destruct (execute Connect m w) as [[a|e] w1] eqn:Hrun;
    injection H as _ <-; [|reflexivity].
  exact (tables_execute Connect m Hm _ _ _ Hrun).
Qed.

Lemma tables_create_temp (name : string) :
  Spec.keeps Facts.same_tables (FA_load.create_temp name).
Proof.
  unfold FA_load.create_temp. apply tables_execute.
  apply keeps_bind; [typeclasses eauto| |intros t].
  - apply (keeps_weaken Spec.untouched); [apply untouched_same_tables|].
    apply untouched_table.
  - intros w o w' [= _ <-]. reflexivity.
Qed.

Lemma tables_stage_rows (df : DataFrame) :
  Spec.keeps Facts.same_tables (FA_load.stage_rows df).
Proof.
  unfold FA_load.stage_rows. apply tables_begin, tables_execute.
  intros w o w' H. destruct (FA_load.appended df (staging w));
    injection H as _ <-; reflexivity.
Qed.

Lemma tables_fetch (name : string) :
  Spec.keeps Facts.same_tables (FA_load.fetch_existing_ids name).
Proof.
  unfold FA_load.fetch_existing_ids. apply tables_begin.
  apply keeps_bind; [typeclasses eauto| |intros cells].
  - apply (keeps_weaken Spec.untouched); [apply untouched_same_tables|].
    apply untouched_select_ids.
  - apply keeps_lift. typeclasses eauto.
Qed.

Lemma tables_count_records (name : string) :
  Spec.keeps Facts.same_tables (FA_load.count_records_in_snowflake name).
Proof.
  apply (keeps_weaken Spec.untouched); [apply untouched_same_tables|].
  apply untouched_count_records.
Qed.

Lemma keeps_both {S A} (R1 R2 : S -> S -> Prop) (m : St S A) :
  Spec.keeps R1 m -> Spec.keeps R2 m ->
  Spec.keeps (fun s s' => R1 s s' /\ R2 s s') m.
Proof. intros H1 H2 s o s' H. split; [exact (H1 _ _ _ H)|exact (H2 _ _ _ H)]. Qed.

Lemma left_alone_then (w1 w2 w3 : World) :
  Facts.left_alone w1 w2 -> Facts.left_alone w2 w3 -> Facts.left_alone w1 w3.
Proof.
  intros [Ht1 He1] [Ht2 He2].
  split; [now transitivity w2|now transitivity w2].
Qed.

Lemma stops_execute {A} (s : Stmt) (m : M A) :
  Facts.stops_at s (execute s m).
Proof.
  intros w Hw. unfold execute. cbn [refuses log]. rewrite Hw.
  do 2 eexists. split; [reflexivity|].
  split; [reflexivity|apply environment_log].
Qed.

Lemma stops_first {A B} (s : Stmt) (m : M A) (k : A -> M B) :
  Facts.stops_at s m -> Facts.stops_at s (bind m k).
Proof.
  intros Hm w Hw. destruct (Hm w Hw) as (e & w' & Hrun & Hrel).
  exists e, w'. split; [now apply bind_raise|exact Hrel].
Qed.

Lemma stops_bind {A B} (s : Stmt) (m : M A) (k : A -> M B) :
  Spec.keeps Facts.left_alone m -> (forall a, Facts.stops_at s (k a)) ->
  Facts.stops_at s (bind m k).
Proof.
  intros Hm Hk w Hw. destruct (m w) as [[a|e] w1] eqn:Hrun.
  - pose proof (Hm _ _ _ Hrun) as Hrel.
    destruct (Hk a w1) as (e & w' & Hrun' & Hrel').
    { destruct Hrel as [_ [_ Hr]]. now rewrite Hr. }
    exists e, w'. split; [now rewrite (bind_ok _ _ _ _ _ Hrun)|].
    now apply (left_alone_then w w1).
  - exists e, w1. split; [now apply bind_raise|exact (Hm _ _ _ Hrun)].
Qed.

Lemma stops_begin {A} (s : Stmt) (m : M A) :
  Facts.stops_at s m -> Facts.stops_at s (begin m).
Proof.
  intros Hm w Hw. unfold begin, execute. cbn [refuses log].
  destruct (refuses w Connect).
  - do 2 eexists. split; [reflexivity|]. split; split; reflexivity.
  - destruct (Hm (log Connect w) Hw) as (e & w' & Hrun & _ & Hs & Hr).
    rewrite Hrun. do 2 eexists. split; [reflexivity|].
    split; [reflexivity|]. split; [exact Hs|exact Hr].
Qed.

Lemma converted_rows (df df_fixed : DataFrame) :
  FA_load.convert_dataframe_types df = Ret df_fixed ->
  length (rows df_fixed) = length (rows df).
Proof.
  unfold FA_load.convert_dataframe_types.
  destruct (has_column df ID); [|now intros [= <-]].
  destruct (FA_load.for_each _ (rows df)) as [rows'|e] eqn:Hrows;
    [|discriminate].
  cbn. intros [= <-]. apply for_each_ret in Hrows.
  symmetry. exact (Forall2_length _ _ _ Hrows).
Qed.

Lemma stops_connecting {A} (m : M A) : Facts.stops_at Connect (begin m).
Proof.
  intros w Hw. unfold begin, execute. cbn [refuses log]. rewrite Hw.
  do 2 eexists. split; [reflexivity|]. split; split; reflexivity.
Qed.

Ltac left_alone_step :=
  apply keeps_both;
  [ first [ apply tables_count_records | apply tables_fetch
          | apply tables_stage_rows
          | apply tables_begin, tables_create_temp
          | apply keeps_lift; typeclasses eauto
          | apply (keeps_weaken Spec.untouched);
            [apply untouched_same_tables|apply untouched_select_count] ]
  | first [ apply environment_count_records | apply environment_fetch
          | apply environment_stage_rows
          | apply environment_begin, environment_create_temp
          | apply keeps_lift; typeclasses eauto
          | apply environment_select_count ] ].

(** The search for the statement at which a run stops: a step either
    stops there or leaves the tables alone and the run goes on. *)
Ltac stops_search split :=
  first
    [ apply stops_execute
    | apply stops_connecting
    | apply stops_begin; stops_search split
    | apply stops_first; stops_search split
    | apply stops_bind; [left_alone_step|intros ?; stops_search split]
    | apply split; intros ? ?; stops_search split
    | lazymatch goal with
      | |- Facts.stops_at _ (FA_load.fetch_existing_ids _) =>
          unfold FA_load.fetch_existing_ids
      | |- Facts.stops_at _ (FA_load.select_ids _) =>
          unfold FA_load.select_ids
      | |- Facts.stops_at _ (FA_load.create_temp _) =>
          unfold FA_load.create_temp
      | |- Facts.stops_at _ (FA_load.stage_rows _) =>
          unfold FA_load.stage_rows
      | |- Facts.stops_at _ (FA_load.select_count _) =>
          unfold FA_load.select_count
      | |- Facts.stops_at _ (FA_load.merge _ _) =>
          unfold FA_load.merge
      end; stops_search split ].

(** X14.  When the warehouse turns down the connection or one of the
    statements that the merge path sends up to the MERGE (the SELECT of
    the stored keys, the CREATE of the temporary table, the insert into
    it, the SELECT COUNT, the MERGE itself), the merge path returns
    (False, 0, 0) and leaves the tables of the warehouse as they were
    before the call; the temporary table is gone with the session.
    This holds with the configuration in order, for a batch that is not
    empty and whose key column can be cast to int64 (without the
    configuration, and on a null key, the call raises).  The fallback
    that the load pipeline then tries starts from the table as it
    was. *)
Theorem refused_merge_leaves_tables (df : DataFrame) (name : string)
    (w : World) (s : Stmt) :
  Spec.configured w -> Spec.castable df -> empty df = false ->
  s ∈ [Connect; SelectIds; CreateTemp; StageRows; SelectCount; Merge] ->
  refuses w s = true ->
  exists w',
    FA_load.upsert_to_snowflake df name w = (Ret (false, 0, 0), w') /\
    tables w' = tables w /\ staging w' = None /\
    Spec.same_environment w w'.
Proof.
  intros Hc [df_fixed Hcast] Hempty Hs Hrefused.
  assert (Hrows : rows df_fixed <> []).
  { intros Hnil. apply converted_rows in Hcast. rewrite Hnil in Hcast.
    unfold empty, len in Hempty. rewrite <- Hcast in Hempty.
    discriminate Hempty. }
  unfold FA_load.upsert_to_snowflake. rewrite Hempty.
  rewrite (bind_ok _ _ w w df_fixed) by (unfold lift; now rewrite Hcast).
  rewrite (bind_ok _ _ w w tt) by now apply configured_connection.
  unfold try_finally, try_except.
  match goal with
  | |- context [match ?body w with _ => _ end] =>
      assert (Hstop : Facts.stops_at s body)
  end.
  { clear Hrefused.
    assert (Hsplit : forall ids (k : DataFrame -> DataFrame -> M (bool * Z * Z))
                            (k0 : M (bool * Z * Z)),
              (forall new_df update_df, Facts.stops_at s (k new_df update_df)) ->
              Facts.stops_at s
                (let '(new_df, update_df) :=
                   FA_load.split_records ids df_fixed in
                 if (0 <? len update_df)%nat || (0 <? len new_df)%nat
                 then k new_df update_df else k0)).
    { intros ids k k0 Hk. rewrite split_records_rows.
      unfold len, select, FA_load.isin. cbn [rows].
      rewrite split_nonempty by exact Hrows. apply Hk. }
    apply list_elem_of_In in Hs. cbn in Hs.
    destruct Hs as [<-|[<-|[<-|[<-|[<-|[<-|[]]]]]]];
      stops_search Hsplit. }
  destruct (Hstop w Hrefused) as (e & w1 & Hrun & Htables & Henv).
  rewrite Hrun. exists (dispose w1). split; [reflexivity|].
  split; [exact Htables|]. split; [reflexivity|].
  destruct Henv as [Hs' Hr]. split; assumption.
Qed.

Lemma refused_merge_leaves_tables_witness :
  exists w',
    refuses Sample.without_merge Merge = true /\
    FA_load.upsert_to_snowflake Sample.incoming "FACT_DELIVERIES"
                                Sample.without_merge
      = (Ret (false, 0, 0), w') /\
    tables w' = tables Sample.without_merge /\
    trace w' = [Connect; SelectCount; Connect; SelectIds; Connect;
                CreateTemp; Connect; StageRows; Connect; SelectCount;
                Merge].
Proof.
  destruct (refused_merge_leaves_tables
              Sample.incoming "FACT_DELIVERIES" Sample.without_merge Merge)
    as (w' & Hrun & Htables & _).
  - reflexivity.
  - eexists. vm_compute. reflexivity.
  - reflexivity.
  - apply list_elem_of_In. cbn. tauto.
  - reflexivity.
  - exists w'. split; [reflexivity|]. split; [exact Hrun|].
    split; [exact Htables|].
    assert (Htrace : trace (FA_load.upsert_to_snowflake
                              Sample.incoming "FACT_DELIVERIES"
                              Sample.without_merge).2
                     = [Connect; SelectCount; Connect; SelectIds; Connect;
                        CreateTemp; Connect; StageRows; Connect; SelectCount;
                        Merge]) by (vm_compute; reflexivity).
    now rewrite Hrun in Htrace.
Defined.

(** *** The load pipeline, step by step *)

Lemma healthy_kept (w w' : World) :
  Spec.same_environment w w' -> Spec.healthy w -> Spec.healthy w'.
Proof.
  intros [Hs Hr] [Hc Hf]. split.
  - rewrite <- Hc. now apply connection_settings.
  - intros s. rewrite Hr. apply Hf.
Qed.

Lemma healthy_configured (w : World) : Spec.healthy w -> Spec.configured w.
Proof. now intros [Hc _]. Qed.

Lemma verify_ok (w : World) :
  Spec.healthy w ->
  FA_load.verify_snowflake_connection w =
  (Ret true, dispose (log SelectCurrent (log Connect w))).
Proof.
  intros [Hc Hr]. unfold FA_load.verify_snowflake_connection, try_except.
  rewrite (bind_ok _ _ w w tt) by now apply connection_ok.
  erewrite bind_ok.
  2:{ rewrite connect_ok by apply Hr. rewrite execute_ok by apply Hr.
      reflexivity. }
  reflexivity.
Qed.

(** A query of the load module on a healthy warehouse: it returns, and
    leaves the warehouse healthy with the tables it had. *)
Lemma query_returns {A} (m : M A) (w : World) :
  Spec.returns Spec.configured m -> Spec.keeps Spec.untouched m ->
  Spec.healthy w ->
  exists a w', m w = (Ret a, w') /\ Spec.healthy w' /\
               tables w' = tables w.
Proof.
  intros Hret Hkeep Hw.
  destruct (Hret w (healthy_configured w Hw)) as (a & w' & Hrun & _).
  destruct (Hkeep _ _ _ Hrun) as (Henv & Htables & _).
  exists a, w'. split; [exact Hrun|]. split; [|exact Htables].
  now apply (healthy_kept w).
Qed.

Lemma create_table_existing (name : string) (df : DataFrame) (t : Table)
    (w : World) :
  Spec.healthy w -> tables w !! name = Some t ->
  FA_load.create_table_if_not_exists name df w =
  (Ret true, log HasTable (log Connect w)).
Proof.
  intros [Hc Hr] Ht. unfold FA_load.create_table_if_not_exists, try_except.
  erewrite bind_ok.
  2:{ rewrite connect_ok by apply Hr. rewrite execute_ok by apply Hr.
      reflexivity. }
  cbn [tables log]. rewrite Ht.
  now rewrite bool_decide_eq_true_2 by eauto.
Qed.

Lemma create_table_missing (name : string) (df : DataFrame) (w : World) :
  Spec.healthy w -> tables w !! name = None ->
  FA_load.create_table_if_not_exists name df w =
  (Ret true,
   set_tables (<[name := mkTable (columns df) []]> (tables w))
              (log CreateTable (log Connect (log HasTable (log Connect w))))).
Proof.
  intros [Hc Hr] Ht. unfold FA_load.create_table_if_not_exists, try_except.
  erewrite bind_ok.
  2:{ rewrite connect_ok by apply Hr. rewrite execute_ok by apply Hr.
      reflexivity. }
  cbn [tables log]. rewrite Ht.
  rewrite bool_decide_eq_false_2 by (intros [? [=]]). cbn [negb].
  erewrite bind_ok.
  2:{ apply begin_ok; [apply Hr|]. rewrite execute_ok by apply Hr.
      reflexivity. }
  reflexivity.
Qed.

(** The pipeline up to the upsert: the connection check, the count and
    the analysis leave a healthy warehouse with the tables it had. *)
Lemma load_checks (df : DataFrame) (name : string) (w : World) :
  Spec.healthy w ->
  exists records_before w3,
    Spec.healthy w3 /\ tables w3 = tables w /\
    FA_load.load_complete_pipeline df name w =
    (created <- FA_load.create_table_if_not_exists name df ;
     if negb created then ret false else
     result <- FA_load.upsert_to_snowflake df name ;
     let '(success, new_records, updated_records) := result in
     result <- (if negb success
                then FA_load.upsert_to_snowflake_alternative df name
                else ret result) ;
     let '(success, new_records, updated_records) := result in
     if negb success then ret false else
     records_after <- FA_load.count_records_in_snowflake name ;
     let expected_total := records_before + new_records in
     if records_after =? expected_total then ret true else ret true) w3.
Proof.
  intros Hw. unfold FA_load.load_complete_pipeline.
  rewrite (bind_ok _ _ _ _ true (verify_ok w Hw)). cbn [negb].
  set (w1 := dispose (log SelectCurrent (log Connect w))).
  assert (Hw1 : Spec.healthy w1)
    by (apply (healthy_kept w); [split; reflexivity|exact Hw]).
  destruct (query_returns (FA_load.count_records_in_snowflake name) w1
              (count_records_returns name) (untouched_count_records name)
              Hw1) as (records_before & w2 & Hcount & Hw2 & Ht2).
  rewrite (bind_ok _ _ _ _ _ Hcount).
  destruct (query_returns (FA_load.analyze_upsert_performance df name) w2
              (analyze_returns df name) (untouched_analyze df name) Hw2)
    as (upsert_analysis & w3 & Hanalyze & Hw3 & Ht3).
  rewrite (bind_ok _ _ _ _ _ Hanalyze).
  rewrite (bind_ok _ _ w3 w3 tt) by (apply connection_ok, Hw3).
  exists records_before, w3. split; [exact Hw3|].
  split; [now rewrite Ht3, Ht2|reflexivity].
Qed.

(** The pipeline from the upsert on, when the merge path succeeds. *)
Lemma load_merged (df : DataFrame) (name : string) (t : Table)
    (records_before : Z) (w : World) (l : list (gmap string Cell))
    (n : nat) :
  Spec.healthy w -> Spec.stored w name t -> Spec.loadable df t ->
  merge_rows (schema t) (columns df) (Spec.staged df t) (body t)
    = Some (l, n) ->
  exists w',
    (result <- FA_load.upsert_to_snowflake df name ;
     let '(success, new_records, updated_records) := result in
     result <- (if negb success
                then FA_load.upsert_to_snowflake_alternative df name
                else ret result) ;
     let '(success, new_records, updated_records) := result in
     if negb success then ret false else
     records_after <- FA_load.count_records_in_snowflake name ;
     let expected_total := records_before + new_records in
     if records_after =? expected_total then ret true else ret true) w
    = (Ret true, w') /\
    Spec.healthy w' /\
    tables w' = <[name := mkTable (schema t) l]> (tables w).
Proof.
  intros Hw Hst Hload Hmerge.
  destruct (upsert_merges df name t w l n Hw Hst Hload Hmerge)
    as (tr & Hrun).
  rewrite (bind_ok _ _ _ _ _ Hrun). cbv beta iota. cbn [negb].
  unfold bind at 1, ret at 1. cbv beta iota. cbn [negb].
  match goal with
  | |- context [bind _ _ ?w5] =>
      destruct (query_returns (FA_load.count_records_in_snowflake name) w5
                  (count_records_returns name)
                  (untouched_count_records name))
        as (records_after & w6 & Hcount & Hw6 & Ht6);
      [now apply healthy_evolved|]
  end.
  rewrite (bind_ok _ _ _ _ _ Hcount). cbn zeta.
  exists w6. split; [now destruct (_ =? _)|]. split; [exact Hw6|].
  exact Ht6.
Qed.

Lemma load_merges (df : DataFrame) (name : string) (t : Table)
    (records_before : Z) (w : World) :
  Spec.healthy w -> Spec.stored w name t -> Spec.loadable df t ->
  Spec.distinct_keys (rows df) ->
  exists w',
    (result <- FA_load.upsert_to_snowflake df name ;
     let '(success, new_records, updated_records) := result in
     result <- (if negb success
                then FA_load.upsert_to_snowflake_alternative df name
                else ret result) ;
     let '(success, new_records, updated_records) := result in
     if negb success then ret false else
     records_after <- FA_load.count_records_in_snowflake name ;
     let expected_total := records_before + new_records in
     if records_after =? expected_total then ret true else ret true) w
    = (Ret true, w') /\
    Spec.healthy w' /\
    tables w' = <[name := mkTable (schema t) (Spec.merged df t)]> (tables w).
Proof.
  intros Hw Hst Hload Hnd.
  pose proof Hst as (_ & Hids & Htk).
  pose proof Hload as (_ & Hid & _ & _ & Hkeys).
  exact (load_merged df name t records_before w _ _ Hw Hst Hload
           (merge_rows_staged df t Hids Hid Htk Hkeys Hnd)).
Qed.

Lemma in_ids_nil (r : gmap string Cell) : in_ids [] r = false.
Proof.
  unfold in_ids. destruct (key r); [|reflexivity].
  apply bool_decide_eq_false_2, not_elem_of_nil.
Qed.

(** Merging into a table without rows inserts every row of the batch. *)
Lemma merge_rows_empty (df : DataFrame) :
  merge_rows (columns df) (columns df)
             (Spec.staged df (mkTable (columns df) [])) []
  = Some (map (insert_values (columns df) (columns df)) (rows df),
          length (rows df)).
Proof.
  unfold merge_rows. cbn [merge_matched app Nat.add].
  unfold not_matched. cbn [forallb].
  rewrite filter_all by reflexivity.
  rewrite staged_rows. cbn [body schema Spec.keys omap list_omap].
  rewrite (filter_all (fun r => negb (in_ids [] r)))
    by (intros; now rewrite in_ids_nil).
  rewrite (filter_none (fun r => negb (negb (in_ids [] r))))
    by (intros; now rewrite in_ids_nil).
  rewrite app_nil_r, map_map, !length_map.
  f_equal. f_equal. apply map_ext. intros b. apply insert_values_idem.
Qed.

Lemma environment_load (df : DataFrame) (name : string) :
  Spec.keeps Spec.same_environment (FA_load.load_complete_pipeline df name).
Proof.
  unfold FA_load.load_complete_pipeline.
  apply keeps_bind; [typeclasses eauto|apply environment_verify|].
  intros [|]; [|apply keeps_ret; typeclasses eauto].
  apply keeps_bind; [typeclasses eauto|apply environment_count_records|].
  intros records_before.
  apply keeps_bind; [typeclasses eauto|apply environment_analyze|].
  intros upsert_analysis.
  apply keeps_bind; [typeclasses eauto|apply environment_connection|].
  intros _.
  apply keeps_bind; [typeclasses eauto|apply environment_create_table|].
  intros [|]; [|apply keeps_ret; typeclasses eauto].
  apply keeps_bind; [typeclasses eauto|apply environment_upsert|].
  intros [[success n] u].
  apply keeps_bind; [typeclasses eauto| |].
  { destruct success; [apply keeps_ret; typeclasses eauto|].
    apply environment_alternative. }
  intros [[[|] n'] u']; [|apply keeps_ret; typeclasses eauto].
  apply keeps_bind; [typeclasses eauto|apply environment_count_records|].
  intros records_after. cbn zeta.
  destruct (_ =? _); apply keeps_ret; typeclasses eauto.
Qed.


(** X15.  On a warehouse that answers, with the table stored and a batch
    that can be loaded into it, one row per key, the load pipeline
    returns True and the table holds what the merge statement makes of
    it: the stored rows in their places, updated where the batch has
    their key, then the new rows; these rows are reconciled with the
    batch, and no other table changes. *)
Theorem load_pipeline_merges_batch (df : DataFrame) (name : string)
    (t : Table) (w : World) :
  Spec.healthy w -> Spec.stored w name t -> Spec.loadable df t ->
  Spec.distinct_keys (rows df) ->
  exists w',
    FA_load.load_complete_pipeline df name w = (Ret true, w') /\
    (tables w' =
       <[name := mkTable (schema t) (Spec.merged df t)]> (tables w)) /\
    Spec.reconciled df t (Spec.merged df t) /\
    Spec.same_environment w w'.
Proof.
  intros Hw Hst Hload Hnd.
  destruct (load_checks df name w Hw)
    as (records_before & w3 & Hw3 & Ht3 & Hchecks).
  pose proof Hst as (Ht & Hids & Htk).
  pose proof Hload as (_ & Hid & _ & Hsub & Hbk).
  destruct (load_merges df name t records_before
                        (log HasTable (log Connect w3)))
    as (w' & Hrun & Hw' & Ht'); try assumption.
  { apply (healthy_kept w3); [split; reflexivity|exact Hw3]. }
  { split; [cbn; now rewrite Ht3|auto]. }
  assert (Hall : FA_load.load_complete_pipeline df name w = (Ret true, w')).
  { rewrite Hchecks.
    rewrite (bind_ok _ _ _ _ _ (create_table_existing name df t w3 Hw3
                                  ltac:(now rewrite Ht3))).
    exact Hrun. }
  exists w'. split; [exact Hall|].
  split; [rewrite Ht'; cbn; now rewrite Ht3|].
  split; [now apply merged_reconciled|].
  exact (environment_load df name _ _ _ Hall).
Qed.

Lemma healthy_vacant : Spec.healthy Sample.vacant.
Proof. split; [reflexivity|intros s; reflexivity]. Qed.

Lemma load_pipeline_merges_batch_witness :
  Spec.healthy (Sample.holding Sample.stock) /\
  Spec.stored (Sample.holding Sample.stock) "FACT_DELIVERIES" Sample.stock /\
  Spec.loadable Sample.incoming Sample.stock /\
  Spec.distinct_keys (rows Sample.incoming) /\
  exists w',
    FA_load.load_complete_pipeline Sample.incoming "FACT_DELIVERIES"
                                   (Sample.holding Sample.stock)
      = (Ret true, w') /\
    Spec.keys <$> Spec.content w' "FACT_DELIVERIES" = Some [1; 2; 3; 4; 5].
Proof.
  assert (Hw := healthy_holding Sample.stock).
  assert (Hst := stored_stock).
  assert (Hload := loadable_incoming).
  assert (Hdb : Spec.distinct_keys (rows Sample.incoming)) by evaluate.
  repeat (split; [assumption|]).
  destruct (load_pipeline_merges_batch
              Sample.incoming "FACT_DELIVERIES" Sample.stock
              (Sample.holding Sample.stock) Hw Hst Hload Hdb)
    as (w' & Hrun & Htables & _).
  exists w'. split; [exact Hrun|].
  unfold Spec.content. rewrite Htables, lookup_insert_eq.
  vm_compute. reflexivity.
Defined.

(** X16.  The first load.  On a warehouse that is configured and turns
    no statement down, and that has no table of that name, take a batch
    that has rows, a DELIVERY_ID column that holds integers and no null,
    and at least one other column.  Then the load pipeline creates the
    table with the columns of the batch and returns True; the table
    holds one row for each row of the batch, in the order of the batch
    (a key that the batch repeats is stored as often), with the batch's
    value in every column, and no other table changes.  (Outside these
    conditions the pipeline can return False, as it does on a batch
    without rows, or raise, as it does on a null key.) *)
Theorem first_load_creates_table (df : DataFrame) (name : string)
    (w : World) :
  Spec.healthy w -> tables w !! name = None ->
  rows df <> [] -> ID ∈ columns df ->
  Exists (fun c => c <> ID) (columns df) ->
  Forall Spec.integer_key (rows df) ->
  exists w',
    FA_load.load_complete_pipeline df name w = (Ret true, w') /\
    (tables w' =
       <[name := mkTable (columns df)
                   (map (insert_values (columns df) (columns df))
                        (rows df))]> (tables w)) /\
    (forall r c, r ∈ rows df -> c ∈ columns df ->
                 get (insert_values (columns df) (columns df) r) c = get r c).
Proof.
  intros Hw Hnone Hrows Hid Hex Hbk.
  destruct (load_checks df name w Hw)
    as (records_before & w3 & Hw3 & Ht3 & Hchecks).
  set (t := mkTable (columns df) []).
  set (w4 := set_tables (<[name := t]> (tables w3))
               (log CreateTable
                    (log Connect (log HasTable (log Connect w3))))).
  destruct (load_merged df name t records_before w4
              (map (insert_values (columns df) (columns df)) (rows df))
              (length (rows df)))
    as (w' & Hrun & Hw' & Ht').
  { apply (healthy_kept w3); [split; reflexivity|exact Hw3]. }
  { split; [cbn; apply lookup_insert_eq|]. split; [exact Hid|constructor]. }
  { split; [exact Hrows|]. split; [exact Hid|]. split; [exact Hex|].
    split; [reflexivity|exact Hbk]. }
  { exact (merge_rows_empty df). }
  exists w'. split; [|split].
  - rewrite Hchecks.
    rewrite (bind_ok _ _ _ _ _ (create_table_missing name df w3 Hw3
                                  ltac:(now rewrite Ht3))).
    exact Hrun.
  - rewrite Ht'. cbn [schema t tables w4 set_tables].
    rewrite insert_insert_eq. now rewrite Ht3.
  - intros r c _ Hc. now apply get_insert_values.
Qed.

Lemma first_load_creates_table_witness :
  exists w',
    FA_load.load_complete_pipeline Sample.repeated "FACT_DELIVERIES"
                                   Sample.vacant = (Ret true, w') /\
    tables w' =
      {["FACT_DELIVERIES" :=
          mkTable (columns Sample.repeated)
                  (map (insert_values (columns Sample.repeated)
                                      (columns Sample.repeated))
                       (rows Sample.repeated))]} /\
    Spec.keys <$> Spec.content w' "FACT_DELIVERIES" = Some [7; 7].
Proof.
  destruct (first_load_creates_table
              Sample.repeated "FACT_DELIVERIES" Sample.vacant
              healthy_vacant eq_refl ltac:(discriminate)
              ltac:(evaluate) ltac:(evaluate) ltac:(evaluate))
    as (w' & Hrun & Htables & _).
  exists w'. split; [exact Hrun|].
  split; [rewrite Htables; reflexivity|].
  unfold Spec.content. rewrite Htables, lookup_insert_eq.
  vm_compute. reflexivity.
Defined.

(** *** A batch with a column the table does not have *)

Lemma subcolumns_false (cols sch : list string) :
  ~ cols ⊆ sch -> FA_load.subcolumns cols sch = false.
Proof.
  intros H. apply not_true_iff_false. now rewrite subcolumns_iff.
Qed.

Lemma stage_rows_unknown (df : DataFrame) (tmp : Table) (w : World) :
  (forall s, refuses w s = false) -> staging w = Some tmp ->
  ~ columns df ⊆ schema tmp ->
  FA_load.stage_rows df w =
  (Raise DatabaseError,
   set_staging (Some tmp) (log StageRows (log Connect w))).
Proof.
  intros Hr Hs Hsub. unfold FA_load.stage_rows, begin.
  rewrite execute_ok by apply Hr. rewrite execute_ok by apply Hr.
  cbn [staging log]. rewrite Hs. cbn [FA_load.appended].
  now rewrite subcolumns_false.
Qed.

Lemma insert_rows_unknown (name : string) (df : DataFrame) (t : Table)
    (w : World) :
  (forall s, refuses w s = false) -> tables w !! name = Some t ->
  ~ columns df ⊆ schema t ->
  FA_load.insert_rows name df w =
  (Raise DatabaseError, log Insert (log Connect w)).
Proof.
  intros Hr Ht Hsub. unfold FA_load.insert_rows, begin.
  rewrite execute_ok by apply Hr. rewrite execute_ok by apply Hr.
  cbn [tables log]. rewrite Ht. cbn [FA_load.appended].
  now rewrite subcolumns_false.
Qed.

(** The merge path stops at the temporary table, which has the columns
    of the stored one. *)
Lemma upsert_unknown_column (df : DataFrame) (name : string) (t : Table)
    (w : World) :
  Spec.healthy w -> Spec.stored w name t ->
  rows df <> [] -> ID ∈ columns df -> Forall Spec.integer_key (rows df) ->
  ~ columns df ⊆ schema t ->
  exists w',
    FA_load.upsert_to_snowflake df name w = (Ret (false, 0, 0), w') /\
    Spec.healthy w' /\ tables w' = tables w.
Proof.
  intros Hw Hst Hrows Hid Hkeys Hsub.
  pose proof Hw as [Hc Hr]. pose proof Hst as (Ht & Hids & Htk).
  unfold FA_load.upsert_to_snowflake.
  rewrite (empty_false df ID) by assumption.
  rewrite (bind_ok _ _ w w df)
    by (unfold lift; now rewrite convert_integer_keys).
  rewrite (bind_ok _ _ w w tt) by now apply connection_ok.
  unfold try_finally, try_except.
  erewrite bind_ok by now apply (count_records_ok name t).
  erewrite bind_ok.
  2:{ apply (fetch_existing_ids_ok name t); [split; [|exact Hr]|].
      - rewrite <- Hc. now apply connection_settings.
      - split; [exact Ht|auto]. }
  erewrite bind_ok by (unfold lift; now rewrite column_present).
  rewrite split_records_rows.
  unfold len, FA_load.concat, select, FA_load.isin. cbn [rows columns].
  rewrite split_nonempty by assumption.
  erewrite bind_ok by (apply (create_temp_ok name t); [exact Hr|exact Ht]).
  erewrite bind_raise.
  2:{ apply (stage_rows_unknown _ (mkTable (schema t) []));
        [exact Hr|reflexivity|exact Hsub]. }
  unfold FA_load.failed, ret. eexists.
  split; [reflexivity|]. split; [|reflexivity].
  apply (healthy_kept w); [split; reflexivity|exact Hw].
Qed.

(** The rows the fallback deletes are the stored rows whose key is in
    the batch. *)
Lemma delete_rows_updates (l body : list (gmap string Cell)) :
  delete_rows
    (FA_load.unique
       (omap key (List.filter
                    (fun r => negb (negb (in_ids (Spec.keys body) r))) l)))
    body
  = delete_rows (Spec.keys l) body.
Proof.
  unfold delete_rows. apply filter_ext_in_iff. intros x Hx%list_elem_of_In.
  f_equal. rewrite in_ids_unique.
  destruct (key x) as [k|] eqn:Hk; [|unfold in_ids; now rewrite Hk].
  apply eq_true_iff_eq. rewrite !(in_ids_iff _ x k Hk).
  change (omap key ?l) with (Spec.keys l). rewrite !elem_keys.
  split.
  - intros (r & Hr%list_elem_of_In%filter_In & Hkr). exists r.
    split; [apply list_elem_of_In, Hr|exact Hkr].
  - intros (r & Hr & Hkr). exists r. split; [|exact Hkr].
    apply list_elem_of_In, filter_In. split; [now apply list_elem_of_In|].
    rewrite negb_involutive. apply (in_ids_iff _ r k Hkr).
    apply elem_keys. now exists x.
Qed.

(** The fallback deletes first; the insert that follows is refused. *)
Lemma alternative_unknown_column (df : DataFrame) (name : string)
    (t : Table) (w : World) :
  Spec.healthy w -> Spec.stored w name t ->
  rows df <> [] -> ID ∈ columns df -> Forall Spec.integer_key (rows df) ->
  ~ columns df ⊆ schema t ->
  exists w',
    FA_load.upsert_to_snowflake_alternative df name w
      = (Ret (false, 0, 0), w') /\
    tables w' =
      <[name := mkTable (schema t)
                  (delete_rows (Spec.keys (rows df)) (body t))]> (tables w).
Proof.
  intros Hw Hst Hrows Hid Hkeys Hsub.
  pose proof Hw as [Hc Hr]. pose proof Hst as (Ht & Hids & Htk).
  unfold FA_load.upsert_to_snowflake_alternative.
  rewrite (empty_false df ID) by assumption.
  rewrite (bind_ok _ _ w w df)
    by (unfold lift; now rewrite convert_integer_keys).
  rewrite (bind_ok _ _ w w tt) by now apply connection_ok.
  unfold try_finally, try_except.
  erewrite bind_ok by now apply (count_records_ok name t).
  erewrite bind_ok.
  2:{ apply (fetch_existing_ids_ok name t); [split; [|exact Hr]|].
      - rewrite <- Hc. now apply connection_settings.
      - split; [exact Ht|auto]. }
  erewrite bind_ok by (unfold lift; now rewrite column_present).
  rewrite split_records_rows.
  unfold len, FA_load.concat, select, FA_load.isin, FA_load.keys_of.
  cbn [rows columns].
  set (w0 := log SelectIds
               (log Connect (dispose (log SelectCount (log Connect w))))).
  set (U := List.filter (fun r => negb (negb (in_ids (Spec.keys (body t)) r)))
                        (rows df)).
  set (N := List.filter (fun r => negb (in_ids (Spec.keys (body t)) r))
                        (rows df)).
  assert (Hdel : exists c w',
            (if (0 <? length U)%nat
             then FA_load.delete_in_batches
                    (length (FA_load.unique (omap key U))) name 500
                    (FA_load.unique (omap key U)) 0
             else ret 0) w0 = (Ret c, w') /\
            settings w' = settings w /\ refuses w' = refuses w /\
            staging w' = None /\
            tables w' !! name =
              Some (mkTable (schema t)
                      (delete_rows (FA_load.unique (omap key U)) (body t))) /\
            forall x, <[name := x]> (tables w') = <[name := x]> (tables w)).
  { destruct (0 <? length U)%nat eqn:HU.
    - destruct (delete_in_batches_ok
                  (length (FA_load.unique (omap key U))) name 500
                  ltac:(lia) (FA_load.unique (omap key U)) 0 t w0)
        as (c & w' & Hrun & H1 & H2 & H3 & H4 & H5);
        [exact Hr|exact Ht|exact Hids|lia|].
      exists c, w'. auto 10.
    - exists 0, w0. apply Nat.ltb_ge in HU.
      assert (HUnil : U = []) by (destruct U; [reflexivity|cbn in HU; lia]).
      rewrite HUnil. cbn [omap list_omap FA_load.unique].
      rewrite delete_rows_nil. unfold ret. destruct t.
      repeat split; auto. }
  destruct Hdel as (c & w' & Hrun & Hs' & Hr' & Hsg' & Htb' & Hins').
  erewrite bind_ok by exact Hrun.
  assert (Hlen : (0 <? length (N ++ U))%nat = true).
  { apply Nat.ltb_lt.
    pose proof (Permutation_length (batch_split (Spec.keys (body t)) (rows df)))
      as Hp. fold N U in Hp. rewrite Hp.
    destruct (rows df); [congruence|cbn; lia]. }
  rewrite Hlen.
  assert (Hr'' : forall s, refuses w' s = false)
    by (intros s; rewrite Hr'; apply Hr).
  erewrite bind_raise.
  2:{ apply (insert_rows_unknown name _ _ w' Hr'' Htb'). exact Hsub. }
  unfold FA_load.failed, ret. eexists. split; [reflexivity|].
  cbn [tables dispose set_staging log].
  rewrite <- (insert_id (tables w') name _ Htb'), Hins'.
  unfold U. now rewrite delete_rows_updates.
Qed.

(** X17.  On a warehouse that is configured and turns no statement
    down, with a stored table that has the DELIVERY_ID column and
    integer keys without null, a batch that has rows, the DELIVERY_ID
    column with integer keys without null, and a column the stored table
    does not have makes the load pipeline return False, and loses data
    on the way: the merge path fails at the temporary table and leaves
    the table as it was, but the fallback deletes the stored rows whose
    key is in the batch before its insert is refused, and those deletes
    are committed; the table is left with the stored rows whose key is
    not in the batch, and nothing else. *)
Theorem unknown_column_deletes_stored_rows (df : DataFrame)
    (name : string) (t : Table) (w : World) :
  Spec.healthy w -> Spec.stored w name t ->
  rows df <> [] -> ID ∈ columns df -> Forall Spec.integer_key (rows df) ->
  ~ columns df ⊆ schema t ->
  exists w',
    FA_load.load_complete_pipeline df name w = (Ret false, w') /\
    (tables w' =
       <[name := mkTable (schema t)
                   (delete_rows (Spec.keys (rows df)) (body t))]>
         (tables w)) /\
    (forall x, x ∈ delete_rows (Spec.keys (rows df)) (body t) <->
               x ∈ body t /\ in_ids (Spec.keys (rows df)) x = false).
Proof.
  intros Hw Hst Hrows Hid Hkeys Hsub.
  destruct (load_checks df name w Hw)
    as (records_before & w3 & Hw3 & Ht3 & Hchecks).
  pose proof Hst as (Ht & Hids & Htk).
  set (w4 := log HasTable (log Connect w3)).
  assert (Hw4 : Spec.healthy w4)
    by (apply (healthy_kept w3); [split; reflexivity|exact Hw3]).
  assert (Hst4 : Spec.stored w4 name t)
    by (split; [cbn; now rewrite Ht3|auto]).
  destruct (upsert_unknown_column df name t w4 Hw4 Hst4 Hrows Hid Hkeys Hsub)
    as (w5 & Hmerge & Hw5 & Ht5).
  assert (Hst5 : Spec.stored w5 name t)
    by (split; [rewrite Ht5; apply Hst4|auto]).
  destruct (alternative_unknown_column df name t w5 Hw5 Hst5 Hrows Hid Hkeys
                                       Hsub)
    as (w6 & Hfallback & Ht6).
  exists w6. split; [|split].
  - rewrite Hchecks.
    rewrite (bind_ok _ _ _ _ _ (create_table_existing name df t w3 Hw3
                                  ltac:(now rewrite Ht3))).
    cbn [negb]. fold w4. rewrite (bind_ok _ _ _ _ _ Hmerge).
    cbv beta iota. cbn [negb]. rewrite (bind_ok _ _ _ _ _ Hfallback).
    reflexivity.
  - rewrite Ht6, Ht5. cbn. now rewrite Ht3.
  - intros x. unfold delete_rows.
    rewrite list_elem_of_In, filter_In, <- list_elem_of_In, negb_true_iff.
    reflexivity.
Qed.

Lemma stored_wide_enough :
  ~ columns Sample.wider ⊆ schema Sample.stock.
Proof.
  intros H. specialize (H "TRIP_STATUS" ltac:(evaluate)).
  revert H. evaluate.
Qed.

Lemma unknown_column_deletes_stored_rows_witness :
  exists w',
    FA_load.load_complete_pipeline Sample.wider "FACT_DELIVERIES"
                                   (Sample.holding Sample.stock)
      = (Ret false, w') /\
    Spec.keys (body Sample.stock) = [1; 2; 3] /\
    Spec.keys (rows Sample.wider) = [2; 9] /\
    Spec.keys <$> Spec.content w' "FACT_DELIVERIES" = Some [1; 3].
Proof.
  destruct (unknown_column_deletes_stored_rows
              Sample.wider "FACT_DELIVERIES" Sample.stock
              (Sample.holding Sample.stock)
              (healthy_holding Sample.stock) stored_stock
              ltac:(discriminate) ltac:(evaluate) ltac:(evaluate)
              stored_wide_enough)
    as (w' & Hrun & Htables & _).
  exists w'. split; [exact Hrun|].
  split; [reflexivity|]. split; [reflexivity|].
  unfold Spec.content. rewrite Htables, lookup_insert_eq.
  vm_compute. reflexivity.
Defined.

(** *** The counts the two paths report *)

Lemma in_ids_updates (l body : list (gmap string Cell))
    (x : gmap string Cell) :
  x ∈ body ->
  in_ids (Spec.keys (List.filter
                       (fun r => negb (negb (in_ids (Spec.keys body) r))) l))
         x
  = in_ids (Spec.keys l) x.
Proof.
  intros Hx.
  destruct (key x) as [k|] eqn:Hk; [|unfold in_ids; now rewrite Hk].
  apply eq_true_iff_eq. rewrite !(in_ids_iff _ x k Hk), !elem_keys.
  split.
  - intros (r & Hr%list_elem_of_In%filter_In & Hkr). exists r.
    split; [apply list_elem_of_In, Hr|exact Hkr].
  - intros (r & Hr & Hkr). exists r. split; [|exact Hkr].
    apply list_elem_of_In, filter_In. split; [now apply list_elem_of_In|].
    rewrite negb_involutive. apply (in_ids_iff _ r k Hkr).
    apply elem_keys. now exists x.
Qed.

Lemma filter_map_length {A} (p : A -> bool) (g : A -> A) (l : list A) :
  (forall x, p (g x) = p x) ->
  length (List.filter p (map g l)) = length (List.filter p l).
Proof.
  intros H. induction l as [|a l IH]; [reflexivity|].
  cbn. rewrite H. destruct (p a); cbn; now rewrite IH.
Qed.

Lemma filter_permutation_length {A} (p : A -> bool) (l l' : list A) :
  l ≡ₚ l' -> length (List.filter p l) = length (List.filter p l').
Proof.
  induction 1 as [|a l l' _ IH|a b l|l l' l'' _ IH1 _ IH2];
    cbn; try reflexivity.
  - destruct (p a); cbn; now rewrite IH.
  - destruct (p a), (p b); reflexivity.
  - now rewrite IH1.
Qed.

Lemma in_ids_insert_values (ids : list Z) (sch cols : list string)
    (r : gmap string Cell) :
  ID ∈ sch -> ID ∈ cols ->
  in_ids ids (insert_values sch cols r) = in_ids ids r.
Proof. intros Hs Hc. unfold in_ids. now rewrite key_insert_values. Qed.

(** The rows the merge inserts are as many as the new records. *)
Lemma inserted_count (df : DataFrame) (t : Table) :
  ID ∈ schema t -> ID ∈ columns df ->
  Forall Spec.integer_key (body t) -> Forall Spec.integer_key (rows df) ->
  length (not_matched (Spec.staged df t) (body t)) =
  length (List.filter (fun r => negb (in_ids (Spec.keys (body t)) r))
                      (rows df)).
Proof.
  intros Hs Hc Htk Hbk.
  rewrite not_matched_filter by (try apply staged_integer_keys; assumption).
  rewrite staged_rows.
  rewrite filter_map_length
    by (intros x; now rewrite in_ids_insert_values).
  apply filter_permutation_length, batch_split.
Qed.

(** The rows the merge updates are as many as the records to update,
    when no key is repeated. *)
Lemma updated_count (df : DataFrame) (t : Table) :
  Forall Spec.integer_key (body t) -> Forall Spec.integer_key (rows df) ->
  Spec.distinct_keys (body t) -> Spec.distinct_keys (rows df) ->
  length (List.filter (in_ids (Spec.keys (rows df))) (body t)) =
  length (List.filter (fun r => negb (negb (in_ids (Spec.keys (body t)) r)))
                      (rows df)).
Proof.
  intros Htk Hbk Hdt Hdb.
  set (U := List.filter _ (rows df)).
  rewrite <- (matched_count (body t) U).
  - f_equal. apply List.filter_ext_in. intros x Hx%list_elem_of_In.
    symmetry. now apply in_ids_updates.
  - exact Htk.
  - exact Hdt.
  - now apply Forall_filter_preserved.
  - now apply distinct_filter.
  - intros k (r & Hr%list_elem_of_In%filter_In & Hkr)%elem_keys.
    destruct Hr as [_ Hin]. rewrite negb_involutive in Hin.
    now apply (in_ids_iff _ r k Hkr).
Qed.

(** X18.  On a warehouse that is configured and turns no statement
    down, take a stored table with the DELIVERY_ID column and integer
    keys without null, and a batch that has rows, integer keys without
    null, columns that are all columns of the table, and at least one
    column besides the key.  With at most one row per key in the table
    and in the batch, the merge path and the delete-then-insert path
    both succeed and report the same counts, though they compute them
    differently (from the row counts of the statements, and from the
    partition of the batch): the number of records of the batch whose
    key is new, and the number of those whose key is stored; the two add
    up to the size of the batch. *)
Theorem both_paths_report_same_counts (df : DataFrame) (name : string)
    (t : Table) (w : World) :
  Spec.healthy w -> Spec.stored w name t -> Spec.loadable df t ->
  Spec.distinct_keys (body t) -> Spec.distinct_keys (rows df) ->
  exists new_count updated_count w1 w2,
    FA_load.upsert_to_snowflake df name w =
      (Ret (true, new_count, updated_count), w1) /\
    FA_load.upsert_to_snowflake_alternative df name w =
      (Ret (true, new_count, updated_count), w2) /\
    new_count =
      Z.of_nat (len (FA_load.split_records (Spec.keys (body t)) df).1) /\
    updated_count =
      Z.of_nat (len (FA_load.split_records (Spec.keys (body t)) df).2) /\
    new_count + updated_count = Z.of_nat (len df).
Proof.
  intros Hw Hst Hload Hdt Hdb.
  pose proof Hst as (_ & Hids & Htk).
  pose proof Hload as (_ & Hid & _ & _ & Hbk).
  destruct (upsert_ok df name t w Hw Hst Hload Hdb) as (tr & Hrun).
  destruct (upsert_alternative_ok df name t w Hw Hst Hload) as (tr' & Hrun').
  rewrite (inserted_count df t Hids Hid Htk Hbk) in Hrun.
  rewrite (updated_count df t Htk Hbk Hdt Hdb) in Hrun.
  do 4 eexists. split; [exact Hrun|]. split; [exact Hrun'|].
  split; [reflexivity|]. split; [reflexivity|].
  pose proof (Permutation_length
                (batch_split (Spec.keys (body t)) (rows df))) as Hlen.
  rewrite length_app in Hlen. unfold len. lia.
Qed.

Lemma both_paths_report_same_counts_witness :
  exists w1 w2,
    FA_load.upsert_to_snowflake Sample.incoming "FACT_DELIVERIES"
                                (Sample.holding Sample.stock)
      = (Ret (true, 2, 2), w1) /\
    FA_load.upsert_to_snowflake_alternative
      Sample.incoming "FACT_DELIVERIES" (Sample.holding Sample.stock)
      = (Ret (true, 2, 2), w2).
Proof.
  destruct (both_paths_report_same_counts
              Sample.incoming "FACT_DELIVERIES" Sample.stock
              (Sample.holding Sample.stock)
              (healthy_holding Sample.stock) stored_stock loadable_incoming
              ltac:(evaluate) ltac:(evaluate))
    as (n & u & w1 & w2 & Hrun & Hrun' & -> & -> & _).
  exists w1, w2. split; [exact Hrun|exact Hrun'].
Defined.

(** *** The DELETE loop of the fallback *)

Lemma delete_rows_length (ids : list Z) (l : list (gmap string Cell)) :
  (length (delete_rows ids l) <= length l)%nat.
Proof. unfold delete_rows. apply List.filter_length_le. Qed.

Lemma deleted_count (ids : list Z) (l : list (gmap string Cell)) :
  (length l - length (delete_rows ids l))%nat
  = length (List.filter (in_ids ids) l).
Proof.
  unfold delete_rows. induction l as [|r l IH]; [reflexivity|].
  pose proof (List.filter_length_le (fun t => negb (in_ids ids t)) l).
  cbn. destruct (in_ids ids r); cbn; lia.
Qed.

Lemma delete_in_batches_count (n : nat) (name : string) (size : nat) :
  (0 < size)%nat ->
  forall (ids : list Z) (acc : Z) (t : Table) (w : World),
    (forall s, refuses w s = false) -> tables w !! name = Some t ->
    ID ∈ schema t -> (length ids <= n)%nat ->
    exists w',
      FA_load.delete_in_batches n name size ids acc w =
        (Ret (acc + Z.of_nat (length (body t)
                              - length (delete_rows ids (body t)))), w') /\
      Spec.same_environment w w' /\
      tables w' =
        <[name := mkTable (schema t) (delete_rows ids (body t))]> (tables w).
Proof.
  intros Hsize. induction n as [|n IH]; intros ids acc t w Hr Ht Hid Hlen.
  - destruct ids; [|cbn in Hlen; lia]. exists w. cbn.
    rewrite delete_rows_nil, Nat.sub_diag, Z.add_0_r.
    split; [reflexivity|]. split; [reflexivity|].
    symmetry. apply insert_id. rewrite Ht. now destruct t.
  - destruct ids as [|i ids].
    + exists w. cbn. rewrite delete_rows_nil, Nat.sub_diag, Z.add_0_r.
      split; [reflexivity|]. split; [reflexivity|].
      symmetry. apply insert_id. rewrite Ht. now destruct t.
    + cbn [FA_load.delete_in_batches].
      erewrite bind_ok by now apply (delete_ok name _ t).
      set (t1 := mkTable (schema t)
                         (delete_rows (take size (i :: ids)) (body t))).
      set (w1 := set_tables (<[name := t1]> (tables w))
                            (log Delete (log Connect w))).
      destruct (IH (drop size (i :: ids))
                   (acc + Z.of_nat (length (body t) - length (body t1))) t1 w1)
        as (w' & Hrun & Henv & Htb).
      * exact Hr.
      * cbn. apply lookup_insert_eq.
      * exact Hid.
      * rewrite length_drop. cbn [length] in *. lia.
      * exists w'. split; [|split].
        -- etransitivity; [exact Hrun|]. f_equal. f_equal. unfold t1.
           cbn [schema body]. rewrite delete_rows_app, take_drop.
           pose proof (delete_rows_length (take size (i :: ids)) (body t)).
           pose proof (delete_rows_length
                         (drop size (i :: ids))
                         (delete_rows (take size (i :: ids)) (body t))) as H2.
           rewrite delete_rows_app, take_drop in H2. lia.
        -- transitivity w1; [split; reflexivity|exact Henv].
        -- rewrite Htb. unfold t1, w1. cbn [schema body tables set_tables].
           rewrite delete_rows_app, take_drop. apply insert_insert_eq.
Qed.

(** X19.  The DELETE loop of the fallback, on a warehouse that turns
    nothing down: whatever the size of the batches, it leaves the table
    as one DELETE of all the ids would, without the rows whose key is
    among the ids and with every other row, in their order; the count it
    adds up is the number of rows removed, which is the row count of
    that one DELETE; no other table changes. *)
Theorem delete_loop_is_one_delete (name : string) (size : nat)
    (ids : list Z) (t : Table) (w : World) :
  (0 < size)%nat -> (forall s, refuses w s = false) ->
  tables w !! name = Some t -> ID ∈ schema t ->
  exists w',
    FA_load.delete_in_batches (length ids) name size ids 0 w =
      (Ret (Z.of_nat (length (List.filter (in_ids ids) (body t)))), w') /\
    (tables w' =
       <[name := mkTable (schema t) (delete_rows ids (body t))]>
         (tables w)) /\
    (exists w1,
       begin (FA_load.delete name ids) w =
         (Ret (Z.of_nat (length (List.filter (in_ids ids) (body t)))), w1) /\
       tables w1 = tables w') /\
    (forall x, x ∈ delete_rows ids (body t) <->
               x ∈ body t /\ in_ids ids x = false).
Proof.
  intros Hsize Hr Ht Hid.
  destruct (delete_in_batches_count (length ids) name size Hsize ids 0 t w
                                    Hr Ht Hid (Nat.le_refl _))
    as (w' & Hrun & _ & Htb).
  rewrite Z.add_0_l, deleted_count in Hrun.
  exists w'. split; [exact Hrun|]. split; [exact Htb|]. split.
  - eexists. split.
    + rewrite (delete_ok name ids t w Hr Ht Hid), deleted_count.
      reflexivity.
    + now rewrite Htb.
  - intros x. unfold delete_rows.
    rewrite list_elem_of_In, filter_In, <- list_elem_of_In, negb_true_iff.
    reflexivity.
Qed.

Lemma delete_loop_is_one_delete_witness :
  exists w',
    FA_load.delete_in_batches 3 "FACT_DELIVERIES" 2 [2; 3; 7] 0
                              (Sample.holding Sample.stock)
      = (Ret 2, w') /\
    Spec.keys <$> Spec.content w' "FACT_DELIVERIES" = Some [1].
Proof.
  destruct (delete_loop_is_one_delete
              "FACT_DELIVERIES" 2 [2; 3; 7] Sample.stock
              (Sample.holding Sample.stock)
              ltac:(lia) (fun _ => eq_refl) eq_refl ltac:(evaluate))
    as (w' & Hrun & Htables & _).
  exists w'. split; [exact Hrun|].
  unfold Spec.content. rewrite Htables, lookup_insert_eq.
  vm_compute. reflexivity.
Defined.

(** ** The time keys of the extraction *)

Lemma hour_range (ns : Z) : 0 <= FA_extract.hour ns < 24.
Proof. unfold FA_extract.hour. apply Z.mod_pos_bound. lia. Qed.

Lemma minute_range (ns : Z) : 0 <= FA_extract.minute ns < 60.
Proof. unfold FA_extract.minute. apply Z.mod_pos_bound. lia. Qed.

Lemma hour_next_day (ns : Z) :
  FA_extract.hour (ns + Facts.day_ns) = FA_extract.hour ns.
Proof.
  unfold FA_extract.hour, Facts.day_ns.
  replace (ns + 86400000000000) with (ns + 24 * 3600000000000) by lia.
  rewrite Z.div_add by lia.
  replace (ns / 3600000000000 + 24) with (ns / 3600000000000 + 1 * 24)
    by lia.
  apply Z.mod_add. lia.
Qed.

Lemma minute_next_day (ns : Z) :
  FA_extract.minute (ns + Facts.day_ns) = FA_extract.minute ns.
Proof.
  unfold FA_extract.minute, Facts.day_ns.
  replace (ns + 86400000000000) with (ns + 1440 * 60000000000) by lia.
  rewrite Z.div_add by lia.
  replace (ns / 60000000000 + 1440) with (ns / 60000000000 + 24 * 60)
    by lia.
  apply Z.mod_add. lia.
Qed.

(** X20.  A time key is a clock reading: for a timestamp it is the
    number hhmm of its hour and minute, so it lies between 0 and 2359
    with its last two digits under 60, the hour and the minute can be
    read back from it, and it is the same on every day; a missing
    timestamp gets the key 0, which is also the key of midnight. *)
Theorem time_key_is_clock_reading (x key : Cell) :
  FA_extract.time_key x = Ret key ->
  exists k,
    key = Num (inject_Z k) /\
    0 <= k <= 2359 /\ k mod 100 < 60 /\
    (forall ns, x = Stamp ns ->
                k / 100 = FA_extract.hour ns /\
                k mod 100 = FA_extract.minute ns /\
                FA_extract.time_key (Stamp (ns + Facts.day_ns)) = Ret key) /\
    (x = NA -> key = Num 0 /\ FA_extract.time_key (Stamp 0) = Ret key).
Proof.
  destruct x as [|q|s|b|ns]; cbn; intros [= <-].
  - exists 0. repeat split; try lia; try discriminate; reflexivity.
  - pose proof (hour_range ns) as Hh. pose proof (minute_range ns) as Hm.
    exists (FA_extract.hour ns * 100 + FA_extract.minute ns).
    assert (Hdiv : (FA_extract.hour ns * 100 + FA_extract.minute ns) / 100
                   = FA_extract.hour ns).
    { rewrite Z.add_comm, Z.div_add by lia.
      rewrite Z.div_small by lia. lia. }
    assert (Hmod : (FA_extract.hour ns * 100 + FA_extract.minute ns) mod 100
                   = FA_extract.minute ns).
    { rewrite Z.add_comm, Z.mod_add by lia. apply Z.mod_small. lia. }
    split; [reflexivity|]. split; [lia|]. split; [lia|]. split.
    + intros ns' [= <-]. split; [exact Hdiv|]. split; [exact Hmod|].
      now rewrite hour_next_day, minute_next_day.
    + discriminate.
Qed.

Lemma time_key_is_clock_reading_witness :
  FA_extract.time_key (Stamp (35100 * 1000000000))
    = Ret (Num (inject_Z 945)) /\
  FA_extract.time_key NA = Ret (Num (inject_Z 0)) /\
  exists k, Num (inject_Z 945) = Num (inject_Z k) /\ 0 <= k <= 2359.
Proof.
  split; [reflexivity|]. split; [reflexivity|].
  destruct (time_key_is_clock_reading
              (Stamp (35100 * 1000000000)) (Num (inject_Z 945)) eq_refl)
    as (k & Hk & Hrange & _).
  exists k. split; [exact Hk|exact Hrange].
Defined.

(** ** The orchestrator, phase by phase *)

Lemma quiet_extraction : Spec.keeps Spec.quiet FA_main.extraction.
Proof.
  unfold FA_main.extraction.
  apply keeps_try_except;
    [typeclasses eauto| |intros e; apply keeps_ret; typeclasses eauto].
  apply keeps_bind; [typeclasses eauto|apply quiet_read_latest|].
  intros [raw|]; [|apply keeps_ret; typeclasses eauto].
  destruct (empty raw); [apply keeps_ret; typeclasses eauto|].
  repeat (apply keeps_bind;
          [typeclasses eauto|apply keeps_lift; typeclasses eauto|intros _]).
  apply keeps_ret. typeclasses eauto.
Qed.

Lemma only_ret {S A} (P : A -> Prop) (a : A) :
  P a -> Facts.only (S := S) P (ret a).
Proof. intros Ha s a' s' [= <- _]. exact Ha. Qed.

Lemma only_bind {S A B} (P : B -> Prop) (m : St S A) (k : A -> St S B) :
  (forall a, Facts.only P (k a)) -> Facts.only P (bind m k).
Proof.
  intros Hk s b s' H. unfold bind in H.
  destruct (m s) as [[a|e] s1]; [exact (Hk a _ _ _ H)|discriminate].
Qed.

Lemma only_try_except {S A} (P : A -> Prop) (m : St S A)
    (h : Exn -> St S A) :
  Facts.only P m -> (forall e, Facts.only P (h e)) ->
  Facts.only P (try_except m h).
Proof.
  intros Hm Hh s a s' H. unfold try_except in H.
  destruct (m s) as [[a0|e] s1] eqn:Hs.
  - injection H as <- <-. exact (Hm _ _ _ Hs).
  - exact (Hh e _ _ _ H).
Qed.

(** The batch the extraction phase hands over has rows. *)
Lemma extraction_has_rows :
  Facts.only (fun batch => forall raw, batch = Some raw -> empty raw = false)
             FA_main.extraction.
Proof.
  unfold FA_main.extraction.
  apply only_try_except; [|intros e; apply only_ret; discriminate].
  apply only_bind. intros [raw|]; [|apply only_ret; discriminate].
  destruct (empty raw) eqn:He; [apply only_ret; discriminate|].
  repeat (apply only_bind; intros _).
  apply only_ret. intros raw' [= <-]. exact He.
Qed.

(** The transformation phase leaves the host as it is, and hands over
    the result of the transformation when it has rows. *)
Lemma transformation_pure (raw : DataFrame) (h h' : Host.Host)
    (o : outcome (option DataFrame)) :
  FA_main.transformation raw h = (o, h') ->
  h' = h /\
  exists batch,
    o = Ret batch /\
    forall transformed,
      batch = Some transformed ->
      FA_transform.transform_complete_pipeline (Host.now h) raw
        = Ret transformed /\
      empty transformed = false.
Proof.
  unfold FA_main.transformation, try_except, bind, lift, ret.
  destruct (FA_transform.transform_complete_pipeline (Host.now h) raw)
    as [td|e]; [destruct (empty td) eqn:He|];
    intros [= <- <-]; (split; [reflexivity|]); eexists;
    (split; [reflexivity|]); intros td' [= <-]. auto.
Qed.

Lemma load_phase_returns (transformed : DataFrame) (h : Host.Host) :
  exists loaded h', FA_main.load transformed h = (Ret loaded, h').
Proof. apply total_try_except. intros e s1. now exists false, s1. Qed.

(** X21.  The orchestrator changes nothing in the warehouse before its
    load phase, and reaches that phase only with a transformed batch
    that has rows, made from an extracted batch that has rows: a run
    that stops earlier returns False and has sent queries only; a run
    that goes on returns what the load phase returns. *)
Theorem warehouse_changes_only_in_load (h h' : Host.Host)
    (o : outcome bool) :
  FA_main.run_complete_etl h = (o, h') ->
  (o = Ret false /\ Spec.quiet h h') \/
  exists raw transformed h1,
    Spec.quiet h h1 /\ empty raw = false /\
    FA_transform.transform_complete_pipeline (Host.now h1) raw
      = Ret transformed /\
    empty transformed = false /\
    FA_main.load transformed h1 = (o, h').
Proof.
  unfold FA_main.run_complete_etl, try_except. unfold bind at 1.
  destruct (FA_main.initial_checks h) as [[ok|e] h1] eqn:Hchecks.
  2:{ intros [= <- <-]. left. split; [reflexivity|].
      exact (quiet_initial_checks _ _ _ Hchecks). }
  pose proof (quiet_initial_checks _ _ _ Hchecks) as Hq1.
  destruct ok; cbn [negb]; [|intros [= <- <-]; now left].
  unfold bind at 1.
  destruct (FA_main.extraction h1) as [[batch|e] h2] eqn:Hext.
  2:{ intros [= <- <-]. left. split; [reflexivity|].
      transitivity h1; [exact Hq1|exact (quiet_extraction _ _ _ Hext)]. }
  pose proof (quiet_extraction _ _ _ Hext) as Hq2.
  assert (Hq : Spec.quiet h h2) by (transitivity h1; assumption).
  pose proof (extraction_has_rows _ _ _ Hext) as Hrows.
  destruct batch as [raw|]; [|intros [= <- <-]; now left].
  specialize (Hrows raw eq_refl).
  unfold bind at 1.
  destruct (FA_main.transformation raw h2) as [o3 h3] eqn:Htr.
  destruct (transformation_pure _ _ _ _ Htr) as (-> & batch & -> & Htd).
  destruct batch as [transformed|]; [|intros [= <- <-]; now left].
  destruct (Htd transformed eq_refl) as [Hrun He].
  destruct (load_phase_returns transformed h2) as (loaded & h4 & Hload).
  rewrite Hload. intros [= <- <-]. right.
  exists raw, transformed, h2. auto.
Qed.

Lemma warehouse_changes_only_in_load_witness :
  exists h',
    FA_main.run_complete_etl Sample.fresh = (Ret true, h') /\
    exists raw transformed h1,
      tables (Host.warehouse h1) = tables (Host.warehouse Sample.fresh) /\
      empty raw = false /\ empty transformed = false /\
      FA_main.load transformed h1 = (Ret true, h').
Proof.
  set (call := FA_main.run_complete_etl Sample.fresh).
  assert (Hfst : call.1 = Ret true) by (vm_compute; reflexivity).
  assert (Hrun : call = (Ret true, call.2)).
  { rewrite <- Hfst. apply surjective_pairing. }
  exists call.2. split; [exact Hrun|].
  destruct (warehouse_changes_only_in_load Sample.fresh call.2 (Ret true)
                                           Hrun)
    as [[Hfalse _]|(raw & transformed & h1 & Hq & Hraw & _ & Htd & Hload)];
    [discriminate Hfalse|].
  exists raw, transformed, h1.
  split; [exact (proj1 (proj2 Hq))|]. auto.
Defined.

(** *** The test mode *)

Lemma head_len (limit : Z) (df : DataFrame) :
  0 <= limit -> Z.of_nat (len (FA_main.head limit df)) <= limit.
Proof.
  intros Hl. unfold FA_main.head, len. cbn [rows].
  rewrite (proj2 (Z.leb_le 0 limit) Hl), length_take. lia.
Qed.

Lemma pipeline_len (now : Z) (raw out : DataFrame) :
  FA_transform.transform_complete_pipeline now raw = Ret out ->
  (len out <= len raw)%nat.
Proof.
  intros [->|(td & Htd & _ & -> & _)]%pipeline_ret; [apply Nat.le_0_l|].
  unfold FA_transform.prepare_for_snowflake, len. cbn [rows].
  rewrite length_map. exact (transform_len now raw td Htd).
Qed.

(** X22.  The test mode with a limit that is not negative: nothing is
    changed in the warehouse before the load pipeline is called, and the
    batch it is called with has rows, at most [limit] of them, made from
    a batch of at most [limit] rows; a run that stops earlier returns
    False, and so does a run whose load pipeline raises. *)
Theorem test_mode_loads_at_most_limit (limit : Z) (h h' : Host.Host)
    (o : outcome bool) :
  0 <= limit ->
  FA_main.run_test_mode limit h = (o, h') ->
  (o = Ret false /\ Spec.quiet h h') \/
  exists raw transformed h1 loaded,
    Spec.quiet h h1 /\
    Z.of_nat (len raw) <= limit /\ Z.of_nat (len transformed) <= limit /\
    FA_transform.transform_complete_pipeline (Host.now h1) raw
      = Ret transformed /\
    empty transformed = false /\
    Host.on_warehouse
      (FA_load.load_complete_pipeline transformed FA_main.table_name) h1
      = (loaded, h') /\
    o = match loaded with Ret success => Ret success | Raise _ => Ret false end.
Proof.
  intros Hlimit.
  unfold FA_main.run_test_mode, try_except. unfold bind at 1.
  destruct (Host.on_warehouse FA_load.verify_snowflake_connection h)
    as [[connected|e] h1] eqn:Hverify.
  2:{ intros [= <- <-]. left. split; [reflexivity|].
      exact (quiet_on_warehouse _ untouched_verify _ _ _ Hverify). }
  pose proof (quiet_on_warehouse _ untouched_verify _ _ _ Hverify) as Hq1.
  destruct connected; cbn [negb]; [|intros [= <- <-]; now left].
  unfold bind at 1.
  destruct (FA_main.read_latest h1) as [[batch|e] h2] eqn:Hread.
  2:{ intros [= <- <-]. left. split; [reflexivity|].
      transitivity h1; [exact Hq1|exact (quiet_read_latest _ _ _ Hread)]. }
  pose proof (quiet_read_latest _ _ _ Hread) as Hq2.
  assert (Hq : Spec.quiet h h2) by (transitivity h1; assumption).
  destruct batch as [raw0|]; [|intros [= <- <-]; now left].
  cbv zeta.
  set (raw := if limit <? Z.of_nat (len raw0)
              then FA_main.head limit raw0 else raw0).
  assert (Hraw : Z.of_nat (len raw) <= limit).
  { unfold raw. destruct (Z.ltb_spec limit (Z.of_nat (len raw0)));
      [now apply head_len|assumption]. }
  unfold bind at 1, lift.
  destruct (FA_transform.transform_complete_pipeline (Host.now h2) raw)
    as [transformed|e] eqn:Hrun; [|intros [= <- <-]; now left].
  pose proof (pipeline_len _ _ _ Hrun) as Hlen.
  destruct (empty transformed) eqn:He; [intros [= <- <-]; now left|].
  destruct (Host.on_warehouse _ h2) as [loaded h3] eqn:Hload.
  intros Hout. right. exists raw, transformed, h2, loaded.
  split; [exact Hq|]. split; [exact Hraw|]. split; [lia|].
  split; [exact Hrun|]. split; [exact He|].
  destruct loaded; injection Hout as <- <-; auto.
Qed.

Lemma test_mode_loads_at_most_limit_witness :
  exists h',
    FA_main.run_test_mode 1 Sample.fresh = (Ret true, h') /\
    exists transformed h1,
      Z.of_nat (len transformed) <= 1 /\ empty transformed = false /\
      Host.on_warehouse
        (FA_load.load_complete_pipeline transformed FA_main.table_name) h1
        = (Ret true, h').
Proof.
  set (call := FA_main.run_test_mode 1 Sample.fresh).
  assert (Hfst : call.1 = Ret true) by (vm_compute; reflexivity).
  assert (Hrun : call = (Ret true, call.2)).
  { rewrite <- Hfst. apply surjective_pairing. }
  exists call.2. split; [exact Hrun|].
  destruct (test_mode_loads_at_most_limit 1 Sample.fresh call.2 (Ret true)
                                          ltac:(lia) Hrun)
    as [[Hfalse _]|(raw & transformed & h1 & loaded & _ & _ & Hlen & _ & He
                    & Hload & Hout)];
    [discriminate Hfalse|].
  exists transformed, h1. split; [exact Hlen|]. split; [exact He|].
  destruct loaded as [success|e]; [|discriminate Hout].
  injection Hout as <-. exact Hload.
Defined.

(** *** The connectivity check of the extraction *)

(** X23.  The connectivity check of the extraction raises nothing and
    sends queries only; it returns True exactly when the settings are in
    order and the warehouse answers the test query: a failure to list
    the tables is caught inside and does not change the result. *)
Theorem connectivity_check_ignores_table_listing (w : World) :
  exists connected w',
    FA_extract.check_snowflake_connectivity w = (Ret connected, w') /\
    Spec.untouched w w' /\
    (connected = true <-> Spec.reachable w).
Proof.
  destruct (FA_extract.check_snowflake_connectivity w) as [o w'] eqn:Hrun.
  pose proof (untouched_connectivity _ _ _ Hrun) as Hkeep.
  revert Hrun.
  unfold FA_extract.check_snowflake_connectivity,
    FA_extract.get_snowflake_connection, try_except, Spec.reachable,
    Spec.configured.
  unfold bind at 1.
  destruct (FA_load.get_snowflake_connection w) as [[[]|e] w0] eqn:Hc.
  2:{ unfold ret. intros [= <- <-]. exists false, w0.
      split; [reflexivity|]. split; [exact Hkeep|].
      split; [discriminate|]. intros [Hconf _]. discriminate Hconf. }
  apply connection_pure in Hc as ->.
  unfold bind, connect, execute, ret. cbn [refuses log fst].
  destruct (refuses w Connect) eqn:H1, (refuses w SelectCurrent) eqn:H2,
    (refuses w SelectTables) eqn:H3;
    intros Hrun;
    repeat (cbn [refuses log] in Hrun; rewrite ?H1, ?H2, ?H3 in Hrun;
            cbv beta iota in Hrun);
    apply pair_equal_spec in Hrun as [<- <-];
    eexists _, _; (split; [reflexivity|]); (split; [exact Hkeep|]);
    (split; [intros H; try discriminate H; repeat split
            |intros (_ & H4 & H5);
             try discriminate H4; try discriminate H5; reflexivity]).
Qed.

(** ** The staging directory *)

Lemma substring_all (s : string) : substring 0 (String.length s) s = s.
Proof. induction s as [|a s IH]; [reflexivity|]. cbn. now rewrite IH. Qed.

Lemma endswith_self (s : string) : Py.endswith s s = true.
Proof.
  unfold Py.endswith. rewrite Nat.leb_refl, Nat.sub_diag, substring_all.
  apply String.eqb_refl.
Qed.

Lemma endswith_cons (a : ascii) (s suffix : string) :
  Py.endswith s suffix = true -> Py.endswith (String a s) suffix = true.
Proof.
  unfold Py.endswith. intros [Hlen Heq]%andb_true_iff.
  apply Nat.leb_le in Hlen. apply andb_true_iff. split.
  - apply Nat.leb_le. cbn. lia.
  - cbn [String.length].
    replace (S (String.length s) - String.length suffix)%nat
      with (S (String.length s - String.length suffix)) by lia.
    destruct (String.length suffix); exact Heq.
Qed.

Lemma endswith_append (p s suffix : string) :
  Py.endswith s suffix = true -> Py.endswith (p +:+ s) suffix = true.
Proof.
  intros H. induction p as [|a p IH]; [exact H|].
  cbn. now apply endswith_cons.
Qed.

Lemma staging_name_parquet (h : Host.Host) :
  Py.endswith (Facts.staging_name h) ".parquet" = true.
Proof.
  unfold Facts.staging_name. do 2 apply endswith_append.
  apply endswith_self.
Qed.

Lemma max_name_first (n : string) (rest : list string) :
  (forall f, f ∈ rest -> String.ltb n f = false) ->
  Py.max_name (n :: rest) = Some n.
Proof.
  intros H. cbn. f_equal. induction rest as [|f rest IH]; [reflexivity|].
  cbn. rewrite H by apply list_elem_of_here. apply IH.
  intros f' Hf'. apply H. now apply list_elem_of_further.
Qed.

Lemma find_filter {A} (p q : A -> bool) (l : list A) :
  (forall x, p x = true -> q x = true) ->
  List.find p (List.filter q l) = List.find p l.
Proof.
  intros H. induction l as [|a l IH]; [reflexivity|].
  cbn. destruct (q a) eqn:Hq; cbn.
  - now rewrite IH.
  - destruct (p a) eqn:Hp; [|exact IH].
    apply H in Hp. congruence.
Qed.

(** What the extraction leaves when it succeeds: the batch of the source
    under the name of this run, before the other files of the
    directory. *)
Lemma main_saved (h h1 : Host.Host) :
  FA_extract.main h = (Ret 0, h1) ->
  exists df w,
    Host.source h = Some df /\
    h1 = Host.mkHost w
           (Some ((Facts.staging_name h, Ret df) ::
                  List.filter
                    (fun f => negb (String.eqb (fst f)
                                               (Facts.staging_name h)))
                    (default [] (Host.staging_dir h))))
           (Some df) (Host.timestamp h) (Host.now h).
Proof.
  unfold FA_extract.main, bind, Host.on_warehouse, ret.
  destruct (FA_extract.check_snowflake_connectivity (Host.warehouse h))
    as [[[|]|e] w1]; cbn [negb]; try discriminate.
  cbn [Host.warehouse Host.set_warehouse].
  destruct (FA_extract.get_postgres_connection w1) as [[[]|e] w2];
    [|discriminate].
  cbn [Host.source Host.set_warehouse].
  destruct (Host.source h) as [df|] eqn:Hsource; [|discriminate].
  unfold FA_extract.save_to_parquet. intros [= <-].
  exists df, w2. split; [reflexivity|].
  unfold Host.set_staging_dir, Host.set_warehouse, Facts.staging_name.
  cbn [Host.warehouse Host.staging_dir Host.source Host.timestamp Host.now].
  now rewrite Hsource.
Qed.

(** X24.  When the extraction succeeds and no file of the staging
    directory has a later name than the file it writes, the file the
    orchestrator reads next is that file, and what it reads is the
    combined batch of the source; the other files of the directory read
    as before.  (The latest name wins: a file with a later name would be
    read instead.) *)
Theorem extracted_batch_is_read_back (h h1 : Host.Host) :
  FA_extract.main h = (Ret 0, h1) ->
  (forall f, f ∈ default [] (FA_main.parquet_files h) ->
             String.ltb (Facts.staging_name h) f = false) ->
  exists df,
    Host.source h = Some df /\
    FA_main.read_parquet (Facts.staging_name h) h1 = (Ret df, h1) /\
    FA_main.read_latest h = (Ret (Some df), h1) /\
    (forall name, name <> Facts.staging_name h ->
                  (FA_main.read_parquet name h1).1 =
                  (FA_main.read_parquet name h).1).
Proof.
  intros Hmain Hlatest.
  destruct (main_saved h h1 Hmain) as (df & w & Hsource & ->).
  set (name := Facts.staging_name h) in *.
  set (files := default [] (Host.staging_dir h)) in *.
  assert (Hread : forall w rest src ts nw,
            FA_main.read_parquet
              name (Host.mkHost w (Some ((name, Ret df) :: rest)) src ts nw)
            = (Ret df,
               Host.mkHost w (Some ((name, Ret df) :: rest)) src ts nw)).
  { intros. unfold FA_main.read_parquet.
    cbn [Host.staging_dir default from_option id List.find fst].
    now rewrite String.eqb_refl. }
  exists df. split; [exact Hsource|]. split; [apply Hread|]. split.
  - unfold FA_main.read_latest.
    rewrite (bind_ok _ _ _ _ _ Hmain). cbn [Z.eqb negb].
    unfold FA_main.parquet_files.
    cbn [Host.staging_dir option_map map fst List.filter].
    pose proof (staging_name_parquet h) as Hend. fold name in Hend.
    rewrite Hend.
    rewrite max_name_first.
    + now rewrite (bind_ok _ _ _ _ _ (Hread _ _ _ _ _)).
    + intros f Hf. apply Hlatest.
      unfold FA_main.parquet_files. fold files.
      destruct (Host.staging_dir h) as [dir|] eqn:Hdir; unfold files in Hf;
        cbn [default from_option id option_map] in Hf |- *;
        [|cbn in Hf; apply elem_of_nil in Hf; destruct Hf].
      apply list_elem_of_In, filter_In in Hf as [Hf Hend'].
      apply list_elem_of_In, filter_In. split; [|exact Hend'].
      apply List.in_map_iff in Hf as (x & <- & Hx%filter_In).
      apply List.in_map. apply Hx.
  - intros name' Hne. unfold FA_main.read_parquet.
    cbn [Host.staging_dir default from_option id List.find fst]. fold files.
    rewrite (proj2 (String.eqb_neq name name')) by congruence.
    rewrite find_filter.
    + now destruct (List.find _ files) as [[? ?]|].
    + intros x Hx%String.eqb_eq. apply negb_true_iff, String.eqb_neq.
      congruence.
Qed.

Lemma extracted_batch_is_read_back_witness :
  exists h1,
    FA_extract.main Sample.resumed = (Ret 0, h1) /\
    FA_main.parquet_files Sample.resumed
      = Some ["staging_20241231_235959.parquet"] /\
    FA_main.parquet_files h1
      = Some ["staging_20250101_000000.parquet";
              "staging_20241231_235959.parquet"] /\
    FA_main.read_latest Sample.resumed = (Ret (Some Sample.complete), h1).
Proof.
  set (call := FA_extract.main Sample.resumed).
  assert (Hfst : call.1 = Ret 0) by (vm_compute; reflexivity).
  assert (Hrun : call = (Ret 0, call.2)).
  { rewrite <- Hfst. apply surjective_pairing. }
  exists call.2. split; [exact Hrun|].
  split; [vm_compute; reflexivity|]. split; [vm_compute; reflexivity|].
  destruct (extracted_batch_is_read_back Sample.resumed call.2 Hrun)
    as (df & [= <-] & _ & Hread & _).
  { assert (Hfiles : default [] (FA_main.parquet_files Sample.resumed)
                     = ["staging_20241231_235959.parquet"])
      by (vm_compute; reflexivity).
    intros f Hf. rewrite Hfiles in Hf.
    apply elem_of_cons in Hf as [->|Hf]; [vm_compute; reflexivity|].
    apply elem_of_nil in Hf. destruct Hf. }
  exact Hread.
Defined.
